(** * LLM Literature Explorer: search/aggregation tool and report renderer

    A shallow embedding of [llm_literature_search.py] and
    [visualize_results.py], and the properties of the deduplicator, the
    aggregator, the analysis file name and the two command line entry
    points.

    Conventions of the embedding:
    - a Python [str] is a [string] holding its UTF-8 bytes; equality is
      equality of code point sequences, and the bytewise lexicographic order
      of [String.compare] is the code point order Python sorts by;
    - a Python [int] is a [Z];
    - a Python [dict] is an association list in insertion order with
      pairwise distinct keys (Python dicts iterate in insertion order);
    - an exception is the [Raise] constructor of [Py.result];
    - the console, the clock and the file system are fields of an explicit
      world threaded through the effectful functions;
    - a [print] succeeds: the console takes every line;
    - an analysis document that [json.load] accepts holds the dictionary
      that [analyze_results] builds, with its five keys. *)

From Stdlib Require Import ZArith Strings.String Strings.Ascii Numbers.DecimalString
  Structures.OrdersEx.
From stdpp Require Import gmap strings list fin_maps sorting.

Open Scope Z_scope.

(* ===================================================================== *)
(** * Python values                                                       *)
(* ===================================================================== *)

Module Py.

(** [str(n)] for an [int]. *)
Definition str_int (n : Z) : string := NilZero.string_of_int (Z.to_int n).

(** Truth value of a [str]: only the empty string is false. *)
Definition truthy (s : string) : bool := negb (String.eqb s "").

(** [a or b] on optional strings ([None] and the empty string are false). *)
Definition or_else (a b : option string) : option string :=
  match a with
  | Some s => if truthy s then Some s else b
  | None => b
  end.

(** The exception classes that the two scripts can meet.  The last two
    derive from [BaseException] only: a clause [except Exception] lets them
    pass. *)
Inductive exn :=
  | ImportError (msg : string)
  | KeyError (key : string)
  | ValueError (msg : string)
  | OverflowError (msg : string)
  | FileNotFoundError (path : string)
  | IsADirectoryError (path : string)
  | NotADirectoryError (path : string)
  | FileExistsError (path : string)
  | JSONDecodeError (msg : string)
  | RequestException (msg : string)
  | KeyboardInterrupt
  | SystemExit (code : string).

(** [str(e)] *)
Definition exn_str (e : exn) : string :=
  match e with
  | ImportError msg | ValueError msg | OverflowError msg | JSONDecodeError msg
  | RequestException msg => msg
  | KeyError key => "'" +:+ key +:+ "'"
  | FileNotFoundError p => "[Errno 2] No such file or directory: '" +:+ p +:+ "'"
  | IsADirectoryError p => "[Errno 21] Is a directory: '" +:+ p +:+ "'"
  | NotADirectoryError p => "[Errno 20] Not a directory: '" +:+ p +:+ "'"
  | FileExistsError p => "[Errno 17] File exists: '" +:+ p +:+ "'"
  | KeyboardInterrupt => ""
  | SystemExit code => code
  end.

(** [isinstance(e, Exception)] *)
Definition is_exception (e : exn) : bool :=
  match e with
  | KeyboardInterrupt | SystemExit _ => false
  | _ => true
  end.

Inductive result (A : Type) :=
  | Ok (a : A)
  | Raise (e : exn).
Arguments Ok {A} a.
Arguments Raise {A} e.

#[global] Instance exn_eq_dec : EqDecision exn.
Proof. solve_decision. Defined.

#[global] Instance result_eq_dec `{EqDecision A} : EqDecision (result A).
Proof. solve_decision. Defined.

Definition bind {A B} (r : result A) (k : A → result B) : result B :=
  match r with
  | Ok a => k a
  | Raise e => Raise e
  end.

(** The loop [for x in xs: ...] over an accumulator, with a body that may
    raise. *)
Fixpoint for_each {A S} (body : S → A → result S) (xs : list A) (acc : S)
  : result S :=
  match xs with
  | [] => Ok acc
  | x :: xs' => bind (body acc x) (for_each body xs')
  end.

(** ** Insertion-ordered dictionaries *)

(** [d.get(k)] *)
Fixpoint get {K V} `{EqDecision K} (k : K) (d : list (K * V)) : option V :=
  match d with
  | [] => None
  | (k', v) :: d' => if decide (k = k') then Some v else get k d'
  end.

(** [k in d] *)
Definition contains {K V} `{EqDecision K} (k : K) (d : list (K * V)) : bool :=
  bool_decide (is_Some (get k d)).

(** [d.get(k, dflt)] *)
Definition get_default {K V} `{EqDecision K} (k : K) (dflt : V)
  (d : list (K * V)) : V :=
  default dflt (get k d).

(** [d[k]], raising [KeyError] *)
Definition getitem {V} (k : string) (d : list (string * V)) : result V :=
  match get k d with
  | Some v => Ok v
  | None => Raise (KeyError k)
  end.

(** [d[k] = v]: an existing key keeps its position, a new key goes last. *)
Fixpoint setitem {K V} `{EqDecision K} (k : K) (v : V) (d : list (K * V))
  : list (K * V) :=
  match d with
  | [] => [(k, v)]
  | (k', v') :: d' =>
      if decide (k = k') then (k, v) :: d' else (k', v') :: setitem k v d'
  end.

Definition keys {K V} (d : list (K * V)) : list K := d.*1.
Definition values {K V} (d : list (K * V)) : list V := d.*2.

(** [dict(pairs)] *)
Definition dict_of {K V} `{EqDecision K} (pairs : list (K * V))
  : list (K * V) :=
  foldl (λ d kv, setitem kv.1 kv.2 d) [] pairs.

(** ** [sorted]

    Python's sort is stable, also under [reverse=True]; the result of a
    stable sort is determined by the input, and insertion from the right
    computes it.  [le x y] says that [x] need not come after [y]. *)
Fixpoint insert_sorted {A} (le : A → A → bool) (x : A) (l : list A) : list A :=
  match l with
  | [] => [x]
  | y :: l' => if le x y then x :: y :: l' else y :: insert_sorted le x l'
  end.

Fixpoint sorted {A} (le : A → A → bool) (l : list A) : list A :=
  match l with
  | [] => []
  | x :: l' => insert_sorted le x (sorted le l')
  end.

(** [a <= b] on [str] *)
Definition str_le (a b : string) : bool :=
  match String.compare a b with
  | Gt => false
  | _ => true
  end.

(** [key=lambda x: x[1], reverse=True] *)
Definition by_count_desc (x y : string * Z) : bool := y.2 <=? x.2.

(** The order of [(str, int)] tuples: first components first. *)
Definition tuple_le (x y : string * Z) : bool :=
  match String.compare x.1 y.1 with
  | Lt => true
  | Eq => x.2 <=? y.2
  | Gt => false
  end.

(** ** [str.replace] *)

Fixpoint starts_with (prefix s : string) : bool :=
  match prefix, s with
  | EmptyString, _ => true
  | String a p', String b s' => Ascii.eqb a b && starts_with p' s'
  | String _ _, EmptyString => false
  end.

(** Scan from the left; at an occurrence of [old] emit [new] and skip the
    rest of the occurrence ([skip] counts the characters still to drop), so
    that occurrences do not overlap. *)
Fixpoint replace_from (old new : string) (skip : nat) (s : string) : string :=
  match s with
  | EmptyString => EmptyString
  | String c s' =>
      match skip with
      | S k => replace_from old new k s'
      | O =>
          if starts_with old s
          then new +:+ replace_from old new (String.length old - 1)%nat s'
          else String c (replace_from old new O s')
      end
  end.

(** [s.replace(old, new)] for a non-empty [old]. *)
Definition replace (old new s : string) : string := replace_from old new O s.

End Py.

(* ===================================================================== *)
(** * The file system                                                     *)
(* ===================================================================== *)

(** A tree of directories and regular files, seen from a process whose
    working directory is the root of the tree, so that a path means the same
    with and without a leading slash.  A path is resolved as the system calls
    resolve it: empty pieces and [.] name the directory they are met in, and
    a name followed by a slash or by [.] has to be a directory.  Symbolic
    links, permissions and the component [..] are outside the model: a path
    is taken to hold no [..]. *)
Module OS.
Import Py.

#[local] Set Warnings "-register-all".
Inductive node :=
  | File (content : string)
  | Dir (children : gmap string node).

Inductive status :=
  | NoEntry
  | NotDir
  | IsFile (content : string)
  | IsDir.

(** The pieces of a path between slashes. *)
Fixpoint split_from (cur s : string) : list string :=
  match s with
  | EmptyString => [cur]
  | String c s' =>
      if Ascii.eqb c "/" then cur :: split_from "" s'
      else split_from (cur +:+ String c "") s'
  end.

(** The names a path walks through; an empty piece or [.] names the
    directory it is met in and is dropped. *)
Definition components (path : string) : list string :=
  filter (λ name, name ≠ "" ∧ name ≠ ".") (split_from "" path).

(** What follows the last name of a path: nothing, slashes only, or a
    piece [.]. *)
Inductive ending :=
  | Plain
  | Slash
  | Dot.

Definition ending_step (e : ending) (piece : string) : ending :=
  if decide (piece = "") then
    match e with
    | Plain => Slash
    | _ => e
    end
  else if decide (piece = ".") then Dot
  else Plain.

Definition ending_of (path : string) : ending :=
  foldl ending_step Plain (split_from "" path).

Fixpoint walk (cur : gmap string node) (names : list string) : status :=
  match names with
  | [] => IsDir
  | name :: rest =>
      match cur !! name with
      | None => NoEntry
      | Some (File content) =>
          match rest with
          | [] => IsFile content
          | _ => NotDir
          end
      | Some (Dir children) => walk children rest
      end
  end.

(** What a path names.  The empty path names nothing, and a regular file
    is not reached through a path that goes on after its name. *)
Definition stat (fs : gmap string node) (path : string) : status :=
  if decide (path = "") then NoEntry
  else
    match walk fs (components path), ending_of path with
    | IsFile content, Plain => IsFile content
    | IsFile _, _ => NotDir
    | found, _ => found
    end.

(** [os.path.exists(path)] *)
Definition exists_ (fs : gmap string node) (path : string) : bool :=
  match stat fs path with
  | IsFile _ | IsDir => true
  | NoEntry | NotDir => false
  end.

(** [os.path.isdir(path)] *)
Definition isdir (fs : gmap string node) (path : string) : bool :=
  match stat fs path with
  | IsDir => true
  | _ => false
  end.

(** ** The path that [os.makedirs] reports

    [os.makedirs] creates the directories from the outermost one, each with
    a [mkdir] of the part of the path that ends with its name; when a
    regular file is in the way, the error names the part of the path that
    ends with the first piece after the name of the file, or the whole path
    when no other piece follows. *)

Definition is_name (piece : string) : bool :=
  bool_decide (piece ≠ "" ∧ piece ≠ ".").

(** The number of pieces up to the name number [depth], that name
    included. *)
Fixpoint upto_name (depth : nat) (pieces : list string) : nat :=
  match pieces with
  | [] => O
  | piece :: rest =>
      S (if is_name piece then
           match depth with
           | O => O
           | S k => upto_name k rest
           end
         else upto_name depth rest)
  end.

(** The number of pieces up to the first one that is not empty, that piece
    included. *)
Fixpoint upto_step (pieces : list string) : nat :=
  match pieces with
  | [] => O
  | piece :: rest => S (if decide (piece = "") then upto_step rest else O)
  end.

Definition below (path : string) (depth : nat) : string :=
  let pieces := split_from "" path in
  let reached := upto_name depth pieces in
  let next := (reached + upto_step (drop reached pieces))%nat in
  if forallb (λ piece, bool_decide (piece = "")) (drop next pieces) then path
  else String.concat "/" (take next pieces).

(** A fresh chain of nested empty directories. *)
Fixpoint chain (names : list string) : gmap string node :=
  match names with
  | [] => ∅
  | name :: rest => {[ name := Dir (chain rest) ]}
  end.

(** [dot]: the path goes on with [.] after its last name; [depth]: the
    number of names walked through so far. *)
Fixpoint mkdirs (path : string) (dot : bool) (depth : nat)
  (cur : gmap string node) (names : list string) : result (gmap string node) :=
  match names with
  | [] => Raise (FileExistsError path)
  | name :: rest =>
      match cur !! name with
      | None => Ok (<[name := Dir (chain rest)]> cur)
      | Some (File _) =>
          match rest, dot with
          | [], false => Raise (FileExistsError path)
          | _, _ => Raise (NotADirectoryError (below path depth))
          end
      | Some (Dir children) =>
          bind (mkdirs path dot (S depth) children rest)
               (λ children', Ok (<[name := Dir children']> cur))
      end
  end.

(** [os.makedirs(path)]: creates the missing directories along the path,
    the last one included; fails when the path already exists or runs
    through a regular file. *)
Definition makedirs (fs : gmap string node) (path : string)
  : result (gmap string node) :=
  if decide (path = "") then Raise (FileNotFoundError path)
  else
    let dot := match ending_of path with
               | Dot => true
               | _ => false
               end in
    mkdirs path dot O fs (components path).

(** [open(path, 'r').read()] *)
Definition read_file (fs : gmap string node) (path : string) : result string :=
  match stat fs path with
  | IsFile content => Ok content
  | IsDir => Raise (IsADirectoryError path)
  | NotDir => Raise (NotADirectoryError path)
  | NoEntry => Raise (FileNotFoundError path)
  end.

Fixpoint put (path : string) (content : string) (cur : gmap string node)
  (names : list string) : result (gmap string node) :=
  match names with
  | [] => Raise (IsADirectoryError path)
  | name :: rest =>
      match rest with
      | [] =>
          match cur !! name with
          | Some (Dir _) => Raise (IsADirectoryError path)
          | _ => Ok (<[name := File content]> cur)
          end
      | _ =>
          match cur !! name with
          | None => Raise (FileNotFoundError path)
          | Some (File _) => Raise (NotADirectoryError path)
          | Some (Dir children) =>
              bind (put path content children rest)
                   (λ children', Ok (<[name := Dir children']> cur))
          end
      end
  end.

(** [open(path, 'w')], one [write] and [close]: creates or truncates a
    regular file in an existing directory.  A path that goes on after its
    last name opens nothing: with a slash there the call fails as for a
    directory once the directory above is found, with [.] there it fails
    by what the last name is. *)
Definition write_file (fs : gmap string node) (path content : string)
  : result (gmap string node) :=
  if decide (path = "") then Raise (FileNotFoundError path)
  else
    let names := components path in
    match ending_of path with
    | Plain => put path content fs names
    | Slash =>
        match walk fs names with
        | IsDir | IsFile _ => Raise (IsADirectoryError path)
        | NotDir => Raise (NotADirectoryError path)
        | NoEntry =>
            match walk fs (removelast names) with
            | IsDir => Raise (IsADirectoryError path)
            | _ => Raise (FileNotFoundError path)
            end
        end
    | Dot =>
        match walk fs names with
        | IsDir => Raise (IsADirectoryError path)
        | IsFile _ | NotDir => Raise (NotADirectoryError path)
        | NoEntry => Raise (FileNotFoundError path)
        end
    end.

Fixpoint ends_with_slash (s : string) : bool :=
  match s with
  | EmptyString => false
  | String c EmptyString => Ascii.eqb c "/"
  | String _ s' => ends_with_slash s'
  end.

(** [os.path.join(a, b)] *)
Definition join (a b : string) : string :=
  if starts_with "/" b then b
  else if (String.eqb a "" || ends_with_slash a)%bool then a +:+ b
  else a +:+ "/" +:+ b.

End OS.

(* ===================================================================== *)
(** * The world and its effects                                           *)
(* ===================================================================== *)

Record World := {
  fs : gmap string OS.node;
  console : list string;      (* lines printed so far, oldest first *)
  slept : Z                   (* seconds spent in [time.sleep] *)
}.

Module IO.
Import Py.

(** A computation reads and changes the world, and returns or raises. An
    exception keeps the effects made before it. *)
Definition M (A : Type) : Type := World → result A * World.

Definition ret {A} (a : A) : M A := λ w, (Ok a, w).

Definition raise {A} (e : exn) : M A := λ w, (Raise e, w).

Definition io_bind {A B} (m : M A) (k : A → M B) : M B :=
  λ w, match m w with
       | (Ok a, w') => k a w'
       | (Raise e, w') => (Raise e, w')
       end.

#[global] Instance M_ret : MRet M := @ret.
#[global] Instance M_bind : MBind M := λ A B k m, io_bind m k.

(** [try: body except ...: handler] *)
Definition try_except {A} (body : M A) (handler : exn → M A) : M A :=
  λ w, match body w with
       | (Ok a, w') => (Ok a, w')
       | (Raise e, w') => handler e w'
       end.

(** [print(line)] *)
Definition print (line : string) : M unit :=
  λ w, (Ok tt, {| fs := fs w; console := console w ++ [line]; slept := slept w |}).

(** [time.sleep(seconds)] *)
Definition sleep (seconds : Z) : M unit :=
  λ w, (Ok tt, {| fs := fs w; console := console w; slept := slept w + seconds |}).

Definition set_fs (w : World) (fs' : gmap string OS.node) : World :=
  {| fs := fs'; console := console w; slept := slept w |}.

Definition path_exists (path : string) : M bool :=
  λ w, (Ok (OS.exists_ (fs w) path), w).

Definition makedirs (path : string) : M unit :=
  λ w, match OS.makedirs (fs w) path with
       | Ok fs' => (Ok tt, set_fs w fs')
       | Raise e => (Raise e, w)
       end.

Definition read_file (path : string) : M string :=
  λ w, (OS.read_file (fs w) path, w).

Definition write_file (path content : string) : M unit :=
  λ w, match OS.write_file (fs w) path content with
       | Ok fs' => (Ok tt, set_fs w fs')
       | Raise e => (Raise e, w)
       end.

(** [for x in xs: body(x)] *)
Fixpoint for_ {A} (xs : list A) (body : A → M unit) : M unit :=
  match xs with
  | [] => ret tt
  | x :: xs' => body x ;; for_ xs' body
  end.

End IO.

(* ===================================================================== *)
(** * The data model                                                      *)
(* ===================================================================== *)

(** One repository object of a search response, restricted to the keys the
    scripts read.  A key that the code reads with [get] or tests with [in]
    is optional here. *)
Module Repo.
Record t := {
  id : Z;
  name : string;
  full_name : string;
  html_url : string;
  description : option string;
  created_at : option string;     (* [None]: the key is absent *)
  updated_at : string;
  language : option string;       (* [None]: null, or the key is absent *)
  stargazers_count : option Z;    (* [None]: the key is absent *)
  forks_count : Z;
  topics : list string            (* [[]] also when the key is absent *)
}.
End Repo.

(** The dictionary built by [analyze_results]. *)
Module Analysis.
Record t := {
  total_count : Z;
  languages : list (string * Z);
  topics : list (string * Z);
  created_dates : list (string * Z);
  stars_distribution : list (string * Z)
}.
End Analysis.

(** A dictionary with an optional ["items"] key. *)
Record Results := { items : option (list Repo.t) }.

Record Params := {
  q : string;
  sort : string;
  order : string;
  per_page : Z;
  page : Z
}.

Record Request := {
  url : string;
  req_headers : list (string * string);
  params : Params
}.

Record Response := {
  status_code : Z;
  text : string;
  json : Py.result Results        (* [response.json()] *)
}.

(** What a figure holds when it is saved. *)
Inductive Chart :=
  | Bar (labels : list string) (heights : list Z) (title : string)
  | BarH (labels : list string) (widths : list Z) (title : string)
  | Pie (sizes : list Z) (labels : list string) (autopct : string)
  | Line (xs : list string) (ys : list Z) (title : string).

(** The library functions the scripts call. *)
Class Lib := {
  (** [datetime.strptime(s, "%Y-%m-%dT%H:%M:%SZ").year] *)
  strptime_year : string → Py.result Z;
  (** [requests.get(url, headers=..., params=...)] *)
  requests_get : Request → Py.result Response;
  (** [json.dump] of the simplified records and of the analysis *)
  json_dump_repos : list Repo.t → string;
  json_dump_analysis : Analysis.t → string;
  (** [json.load] of the analysis file: the dictionary that
      [analyze_results] wrote, or the exception of a document that is not
      JSON *)
  json_load : string → Py.result Analysis.t;
  (** whether [import matplotlib] succeeded *)
  HAS_MATPLOTLIB : bool;
  (** the plotting calls that draw a figure and the bytes [plt.savefig]
      then writes for it; an exception of a plotting call is raised before
      the file is opened *)
  render : Chart → Py.result string;
  (** [datetime.now().strftime("%Y-%m-%d")] *)
  current_date : string;
  (** the page template of [create_html_report], filled in with the total
      count and the date *)
  html_content : Z → string → string
}.

(* ===================================================================== *)
(** * llm_literature_search.py                                            *)
(* ===================================================================== *)

Module Search.
Import Py IO.

Definition GITHUB_API_URL : string := "https://api.github.com".
Definition SEARCH_REPOS_ENDPOINT : string := "/search/repositories".

Record GithubExplorer := { headers : list (string * string) }.

(** [GithubExplorer.__init__] *)
Definition init (token : option string) : GithubExplorer :=
  let headers := [("Accept", "application/vnd.github+json")] in
  {| headers :=
       match token with
       | Some t =>
           if truthy t then setitem "Authorization" ("token " +:+ t) headers
           else headers
       | None => headers
       end |}.

(** [GithubExplorer.search_repositories] *)
Definition search_repositories `{Lib} (self : GithubExplorer) (query : string)
  (sort order : string) (per_page page : Z) : M Results :=
  let params := {| q := query; sort := sort; order := order;
                   per_page := per_page; page := page |} in
  let url := GITHUB_API_URL +:+ SEARCH_REPOS_ENDPOINT in
  λ w,
    match requests_get {| url := url; req_headers := headers self;
                          params := params |} with
    | Raise e => (Raise e, w)
    | Ok response =>
        if decide (status_code response ≠ 200) then
          (print ("Error: " +:+ str_int (status_code response)) ;;
           print (text response) ;;
           mret {| items := Some [] |}) w
        else (json response, w)
    end.

Definition queries : list string := [
  "language models literature";
  "llm literature analysis";
  "gpt literary analysis";
  "natural language processing literature";
  "computational literary analysis";
  "llm poetry generation";
  "transformer models literature";
  "literary text generation";
  "nlp literary criticism";
  "ai storytelling"
].

(** The query loop of [find_llm_literature_projects], from any position in
    the list of queries, with the results gathered so far. *)
Fixpoint run_queries `{Lib} (self : GithubExplorer) (page per_page : Z)
  (qs : list string) (all_results : list Repo.t) : M (list Repo.t) :=
  match qs with
  | [] => mret all_results
  | query :: rest =>
      print ("Searching for: " +:+ query) ;;
      results ← search_repositories self query "stars" "desc" per_page page;
      let all_results' :=
        match items results with
        | Some found => all_results ++ found
        | None => all_results
        end in
      sleep 2 ;;
      run_queries self page per_page rest all_results'
  end.

(** One turn of the loop that removes duplicates. *)
Definition keep_first (unique_repos : list (Z * Repo.t)) (repo : Repo.t)
  : list (Z * Repo.t) :=
  if contains (Repo.id repo) unique_repos then unique_repos
  else setitem (Repo.id repo) repo unique_repos.

(** The loop over [all_results] and [list(unique_repos.values())]. *)
Definition remove_duplicates (all_results : list Repo.t) : list Repo.t :=
  values (foldl keep_first [] all_results).

(** [GithubExplorer.find_llm_literature_projects] *)
Definition find_llm_literature_projects `{Lib} (self : GithubExplorer)
  (page per_page : Z) : M Results :=
  all_results ← run_queries self page per_page queries [];
  mret {| items := Some (remove_duplicates all_results) |}.

(** ** The aggregator *)

(** [d[k] = d.get(k, 0) + 1] *)
Definition count_key (k : string) (d : list (string * Z)) : list (string * Z) :=
  setitem k (get_default k 0 d + 1) d.

(** [d[k] += 1] *)
Definition increment (k : string) (d : list (string * Z))
  : result (list (string * Z)) :=
  bind (getitem k d) (λ v, Ok (setitem k (v + 1) d)).

(** The chain of comparisons that picks the bucket of a star count. *)
Definition star_bucket (stars : Z) : string :=
  if stars <=? 10 then "0-10"
  else if stars <=? 50 then "11-50"
  else if stars <=? 100 then "51-100"
  else if stars <=? 500 then "101-500"
  else if stars <=? 1000 then "501-1000"
  else "1001+".

Definition empty_analysis (n : nat) : Analysis.t :=
  {| Analysis.total_count := Z.of_nat n;
     Analysis.languages := [];
     Analysis.topics := [];
     Analysis.created_dates := [];
     Analysis.stars_distribution :=
       [("0-10", 0); ("11-50", 0); ("51-100", 0); ("101-500", 0);
        ("501-1000", 0); ("1001+", 0)] |}.

(** [language = repo.get("language")] and the count under [if language:]. *)
Definition count_language (languages : list (string * Z)) (repo : Repo.t)
  : list (string * Z) :=
  match Repo.language repo with
  | Some language =>
      if truthy language then count_key language languages else languages
  | None => languages
  end.

(** The loop over [repo.get("topics", [])]. *)
Definition count_topics (topics : list (string * Z)) (repo : Repo.t)
  : list (string * Z) :=
  foldl (λ d topic, count_key topic d) topics (Repo.topics repo).

(** The count of the creation year under [if "created_at" in repo:]. *)
Definition count_created `{Lib} (created_dates : list (string * Z))
  (repo : Repo.t) : result (list (string * Z)) :=
  match Repo.created_at repo with
  | Some created_at =>
      bind (strptime_year created_at)
           (λ year, Ok (count_key (str_int year) created_dates))
  | None => Ok created_dates
  end.

(** [stars = repo.get("stargazers_count", 0)] and the increment of its
    bucket. *)
Definition count_stars (stars_distribution : list (string * Z))
  (repo : Repo.t) : result (list (string * Z)) :=
  let stars := default 0 (Repo.stargazers_count repo) in
  increment (star_bucket stars) stars_distribution.

(** The body of the loop over the records. *)
Definition analyze_repo `{Lib} (analysis : Analysis.t) (repo : Repo.t)
  : result Analysis.t :=
  let languages := count_language (Analysis.languages analysis) repo in
  let topics := count_topics (Analysis.topics analysis) repo in
  bind (count_created (Analysis.created_dates analysis) repo)
  (λ created_dates,
  bind (count_stars (Analysis.stars_distribution analysis) repo)
  (λ stars_distribution,
  Ok {| Analysis.total_count := Analysis.total_count analysis;
        Analysis.languages := languages;
        Analysis.topics := topics;
        Analysis.created_dates := created_dates;
        Analysis.stars_distribution := stars_distribution |})).

(** The three sorts at the end of [analyze_results]. *)
Definition sort_analysis (analysis : Analysis.t) : Analysis.t :=
  {| Analysis.total_count := Analysis.total_count analysis;
     Analysis.languages :=
       dict_of (sorted by_count_desc (Analysis.languages analysis));
     Analysis.topics :=
       dict_of (sorted by_count_desc (Analysis.topics analysis));
     Analysis.created_dates :=
       dict_of (sorted tuple_le (Analysis.created_dates analysis));
     Analysis.stars_distribution := Analysis.stars_distribution analysis |}.

(** [results["items"]] *)
Definition get_items (results : Results) : result (list Repo.t) :=
  match items results with
  | Some l => Ok l
  | None => Raise (KeyError "items")
  end.

(** [GithubExplorer.analyze_results] *)
Definition analyze_results `{Lib} (self : GithubExplorer) (results : Results)
  : result Analysis.t :=
  bind (get_items results) (λ repos,
  bind (for_each analyze_repo repos (empty_analysis (length repos)))
       (λ analysis, Ok (sort_analysis analysis))).

(** ** Saving and the entry point *)

(** [repo[key]] for a key the model keeps optional. *)
Definition require {A} (key : string) (field : option A) : result A :=
  match field with
  | Some a => Ok a
  | None => Raise (KeyError key)
  end.

(** The dictionary display of [save_results]; its entries are evaluated in
    the order written. *)
Definition simplify_repo (repo : Repo.t) : result Repo.t :=
  bind (require "created_at" (Repo.created_at repo)) (λ created_at,
  bind (require "stargazers_count" (Repo.stargazers_count repo)) (λ stars,
  Ok {| Repo.id := Repo.id repo;
        Repo.name := Repo.name repo;
        Repo.full_name := Repo.full_name repo;
        Repo.html_url := Repo.html_url repo;
        Repo.description := Repo.description repo;
        Repo.created_at := Some created_at;
        Repo.updated_at := Repo.updated_at repo;
        Repo.language := Repo.language repo;
        Repo.stargazers_count := Some stars;
        Repo.forks_count := Repo.forks_count repo;
        Repo.topics := Repo.topics repo |})).

Definition lift {A} (r : result A) : M A := λ w, (r, w).

(** [GithubExplorer.save_results] *)
Definition save_results `{Lib} (self : GithubExplorer) (results : Results)
  (filename : string) : M unit :=
  repos ← lift (get_items results);
  simplified_results ←
    lift (for_each (λ acc repo, bind (simplify_repo repo)
                                     (λ simplified, Ok (acc ++ [simplified])))
                   repos []);
  write_file filename (json_dump_repos simplified_results) ;;
  print ("Results saved to " +:+ filename).

Record Args := {
  token : option string;
  output : string;
  analyze : bool;
  args_per_page : Z;
  args_page : Z
}.

(** The name of the analysis file, from the name of the results file. *)
Definition analysis_file_of (output : string) : string :=
  replace ".json" "_analysis.json" output.

(** The lines [f"  {i+1}. {key}: {count}"] for the first five entries. *)
Definition top5_lines (d : list (string * Z)) : list string :=
  imap (λ i kv, "  " +:+ str_int (Z.of_nat i + 1) +:+ ". " +:+ kv.1 +:+ ": "
                +:+ str_int kv.2)
       (take 5 d).

(** [main] of the search tool; [environ_token] is
    [os.environ.get("GITHUB_TOKEN")]. *)
Definition main `{Lib} (args : Args) (environ_token : option string) : M unit :=
  let token := or_else (token args) environ_token in
  let explorer := init token in
  results ← find_llm_literature_projects explorer (args_page args)
                                          (args_per_page args);
  repos ← lift (get_items results);
  print ("Found " +:+ str_int (Z.of_nat (length repos)) +:+ " repositories") ;;
  save_results explorer results (output args) ;;
  if analyze args then
    analysis ← lift (analyze_results explorer results);
    let analysis_file := analysis_file_of (output args) in
    write_file analysis_file (json_dump_analysis analysis) ;;
    print ("Analysis saved to " +:+ analysis_file) ;;
    print (String "010" "=== Analysis Summary ===") ;;
    print ("Total repositories: " +:+ str_int (Analysis.total_count analysis)) ;;
    print (String "010" "Top 5 Programming Languages:") ;;
    for_ (top5_lines (Analysis.languages analysis)) print ;;
    print (String "010" "Top 5 Topics:") ;;
    for_ (top5_lines (Analysis.topics analysis)) print ;;
    print (String "010" "Stars Distribution:") ;;
    for_ (Analysis.stars_distribution analysis)
         (λ kv, print ("  " +:+ kv.1 +:+ ": " +:+ str_int kv.2))
  else mret tt.

End Search.

(* ===================================================================== *)
(** * visualize_results.py                                                *)
(* ===================================================================== *)

Module Visualize.
Import Py IO.

Record ResultsVisualizer := {
  output_dir : string;
  analysis : Analysis.t
}.

(** [ResultsVisualizer.__init__] *)
Definition init `{Lib} (analysis_file : string) (output_dir : string)
  : M ResultsVisualizer :=
  if negb HAS_MATPLOTLIB then
    raise (ImportError "matplotlib is required for visualization")
  else
    present ← path_exists output_dir;
    (if negb present then makedirs output_dir else mret tt) ;;
    document ← read_file analysis_file;
    analysis ← Search.lift (json_load document);
    mret {| output_dir := output_dir; analysis := analysis |}.

(** The plotting calls of a figure and [plt.savefig(output_path)]. *)
Definition savefig `{Lib} (output_path : string) (figure : Chart) : M unit :=
  image ← Search.lift (render figure);
  write_file output_path image.

(** The bar chart drawn by [visualize_languages]. *)
Definition languages_chart (self : ResultsVisualizer) (limit : nat) : Chart :=
  let languages := Analysis.languages (analysis self) in
  let sorted_langs := take limit (sorted by_count_desc languages) in
  let langs := (λ item : string * Z,
                  if truthy item.1 then item.1 else "Unknown") <$> sorted_langs in
  let counts := snd <$> sorted_langs in
  Bar langs counts
      ("Top " +:+ str_int (Z.of_nat limit)
       +:+ " Programming Languages in LLM-Literature Projects").

(** [ResultsVisualizer.visualize_languages] *)
Definition visualize_languages `{Lib} (self : ResultsVisualizer) (limit : nat)
  : M string :=
  let output_path := OS.join (output_dir self) "languages.png" in
  savefig output_path (languages_chart self limit) ;;
  mret output_path.

(** The horizontal bar chart drawn by [visualize_topics]. *)
Definition topics_chart (self : ResultsVisualizer) (limit : nat) : Chart :=
  let topics := Analysis.topics (analysis self) in
  let sorted_topics := take limit (sorted by_count_desc topics) in
  BarH (fst <$> sorted_topics) (snd <$> sorted_topics)
       ("Top " +:+ str_int (Z.of_nat limit)
        +:+ " Topics in LLM-Literature Projects").

(** [ResultsVisualizer.visualize_topics] *)
Definition visualize_topics `{Lib} (self : ResultsVisualizer) (limit : nat)
  : M string :=
  let output_path := OS.join (output_dir self) "topics.png" in
  savefig output_path (topics_chart self limit) ;;
  mret output_path.

(** The loop of [visualize_stars_distribution] over [zip(labels, sizes)]
    that keeps the categories with a count above zero; the state is the
    pair of [filtered_labels] and [filtered_sizes]. *)
Definition keep_positive (filtered : list string * list Z)
  (entry : string * Z) : list string * list Z :=
  if 0 <? entry.2 then (filtered.1 ++ [entry.1], filtered.2 ++ [entry.2])
  else filtered.

(** The pie chart drawn by [visualize_stars_distribution]. *)
Definition stars_chart (self : ResultsVisualizer) : Chart :=
  let stars := Analysis.stars_distribution (analysis self) in
  let labels := keys stars in
  let sizes := values stars in
  let filtered := foldl keep_positive ([], []) (zip labels sizes) in
  Pie filtered.2 filtered.1 "%1.1f%%".

(** [ResultsVisualizer.visualize_stars_distribution] *)
Definition visualize_stars_distribution `{Lib} (self : ResultsVisualizer)
  : M string :=
  let output_path := OS.join (output_dir self) "stars_distribution.png" in
  savefig output_path (stars_chart self) ;;
  mret output_path.

(** The line chart drawn by [visualize_creation_timeline]. *)
Definition timeline_chart (self : ResultsVisualizer) : result Chart :=
  let dates := Analysis.created_dates (analysis self) in
  let years := sorted str_le (keys dates) in
  bind (for_each (λ acc year, bind (getitem year dates)
                                   (λ count, Ok (acc ++ [count])))
                 years [])
       (λ counts,
          Ok (Line years counts
                   "Repository Creation Timeline for LLM-Literature Projects")).

(** [ResultsVisualizer.visualize_creation_timeline] *)
Definition visualize_creation_timeline `{Lib} (self : ResultsVisualizer)
  : M string :=
  figure ← Search.lift (timeline_chart self);
  let output_path := OS.join (output_dir self) "creation_timeline.png" in
  savefig output_path figure ;;
  mret output_path.

(** [ResultsVisualizer.create_all_visualizations] *)
Definition create_all_visualizations `{Lib} (self : ResultsVisualizer)
  : M (list string) :=
  p1 ← visualize_languages self 10;
  p2 ← visualize_topics self 15;
  p3 ← visualize_stars_distribution self;
  p4 ← visualize_creation_timeline self;
  mret [p1; p2; p3; p4].

(** [ResultsVisualizer.create_html_report] *)
Definition create_html_report `{Lib} (self : ResultsVisualizer)
  (output_file : string) : M string :=
  create_all_visualizations self ;;
  let page := html_content (Analysis.total_count (analysis self)) current_date in
  let output_path := OS.join (output_dir self) output_file in
  write_file output_path page ;;
  mret output_path.

Record Args := {
  args_analysis : string;
  args_output_dir : string;
  args_report : string
}.

(** The three [except] clauses of [main], tried in order; an exception
    that is not an [Exception] matches none and goes on. *)
Definition report_error (args : Args) (e : exn) : M unit :=
  match e with
  | FileNotFoundError _ =>
      print ("ERROR: Analysis file '" +:+ args_analysis args +:+ "' not found.") ;;
      print "Run the search tool with --analyze flag first."
  | JSONDecodeError _ =>
      print ("ERROR: '" +:+ args_analysis args +:+ "' is not a valid JSON file.")
  | _ =>
      if is_exception e then print ("ERROR: " +:+ exn_str e) else raise e
  end.

(** [main] of the visualization tool. *)
Definition main `{Lib} (args : Args) : M unit :=
  if negb HAS_MATPLOTLIB then
    print "ERROR: matplotlib is required for visualization" ;;
    print "Install it with: pip install matplotlib"
  else
    try_except
      (visualizer ← init (args_analysis args) (args_output_dir args);
       report_path ← create_html_report visualizer (args_report args);
       print ("Report generated at: " +:+ report_path) ;;
       print "Individual visualizations:" ;;
       paths ← create_all_visualizations visualizer;
       for_ paths (λ viz_path, print ("  - " +:+ viz_path)))
      (report_error args).

End Visualize.

(* ===================================================================== *)
(** * Sample inputs                                                       *)
(* ===================================================================== *)

Module Sample.
Import Py.

Definition digit (c : ascii) : option Z :=
  let n := Z.of_N (N_of_ascii c) in
  if (48 <=? n) && (n <=? 57) then Some (n - 48) else None.

Definition number (cs : list ascii) : option Z :=
  foldl (λ acc c, a ← acc; d ← digit c; Some (10 * a + d)) (Some 0) cs.

Definition between (lo hi : Z) (n : option Z) : bool :=
  match n with
  | Some v => (lo <=? v) && (v <=? hi)
  | None => false
  end.

(** A reader of timestamps written as [YYYY-MM-DDTHH:MM:SSZ] with two-digit
    fields, the form in which the search API sends them. *)
Definition canonical_year (s : string) : result Z :=
  let cs := list_ascii_of_string s in
  let separators :=
    bool_decide ((λ i, cs !! i) <$> [4; 7; 10; 13; 16; 19]%nat
                 = Some <$> list_ascii_of_string "--T::Z") in
  let fields_ok :=
    between 1 9999 (number (take 4 cs))
    && between 1 12 (number (take 2 (drop 5 cs)))
    && between 1 31 (number (take 2 (drop 8 cs)))
    && between 0 23 (number (take 2 (drop 11 cs)))
    && between 0 59 (number (take 2 (drop 14 cs)))
    && between 0 61 (number (take 2 (drop 17 cs))) in
  match number (take 4 cs) with
  | Some year =>
      if bool_decide (length cs = 20%nat) && separators && fields_ok
      then Ok year
      else Raise (ValueError "time data does not match format")
  | None => Raise (ValueError "time data does not match format")
  end.

Definition repo (id : Z) (full_name : string) (language : option string)
  (stars : Z) (created_at : string) (topics : list string) : Repo.t :=
  {| Repo.id := id;
     Repo.name := full_name;
     Repo.full_name := full_name;
     Repo.html_url := "https://github.com/" +:+ full_name;
     Repo.description := None;
     Repo.created_at := Some created_at;
     Repo.updated_at := "2024-05-01T00:00:00Z";
     Repo.language := language;
     Repo.stargazers_count := Some stars;
     Repo.forks_count := 0;
     Repo.topics := topics |}.

Definition poems : Repo.t :=
  repo 7 "ada/poems" (Some "Python") 5 "2021-03-04T10:00:00Z" ["poetry"; "llm"].
Definition novels : Repo.t :=
  repo 42 "bob/novels" (Some "Rust") 50 "2019-11-30T08:15:00Z" ["llm"].
Definition critic : Repo.t :=
  repo 9 "eve/critic" None 2000 "2023-01-02T03:04:05Z" ["nlp"; "llm"].
Definition verses : Repo.t :=
  repo 11 "dan/verses" (Some "Python") 120 "2019-06-01T00:00:00Z" [].
Definition novels_later : Repo.t :=
  repo 42 "bob/novels" (Some "Rust") 75 "2019-11-30T08:15:00Z" ["llm"; "fiction"].
Definition essays : Repo.t :=
  repo 13 "kim/essays" (Some "Go") 0 "2022-02-02T02:02:02Z" ["nlp"].

(** Three records with 5, 50 and 2000 stars. *)
Definition three_repos : list Repo.t := [poems; novels; critic].

(** The identifier 42 at the first and at the fifth position. *)
Definition with_duplicate : list Repo.t :=
  [novels; poems; critic; verses; novels_later; essays].

(** A search service that refuses the second query and answers the
    others. *)
Definition get (request : Request) : result Response :=
  let query := q (params request) in
  if String.eqb query "llm literature analysis" then
    Ok {| status_code := 403; text := "API rate limit exceeded";
          json := Ok {| items := None |} |}
  else if String.eqb query "language models literature" then
    Ok {| status_code := 200; text := "";
          json := Ok {| items := Some [novels; poems] |} |}
  else if String.eqb query "gpt literary analysis" then
    Ok {| status_code := 200; text := "";
          json := Ok {| items := Some [critic; verses; novels_later] |} |}
  else
    Ok {| status_code := 200; text := ""; json := Ok {| items := Some [] |} |}.

Definition statistics : Analysis.t :=
  {| Analysis.total_count := 3;
     Analysis.languages := [("Python", 2); ("Rust", 1)];
     Analysis.topics := [("llm", 3); ("poetry", 1)];
     Analysis.created_dates := [("2019", 1); ("2021", 2)];
     Analysis.stars_distribution :=
       [("0-10", 0); ("11-50", 3); ("51-100", 0); ("101-500", 0);
        ("501-1000", 0); ("1001+", 0)] |}.

Definition lib : Lib := {|
  strptime_year := canonical_year;
  requests_get := get;
  json_dump_repos := λ repos, "records " +:+ str_int (Z.of_nat (length repos));
  json_dump_analysis := λ a, "analysis " +:+ str_int (Analysis.total_count a);
  json_load := λ document,
    if String.eqb document "analysis 3" then Ok statistics
    else Raise (JSONDecodeError "Expecting value");
  HAS_MATPLOTLIB := true;
  render := λ chart,
    match chart with
    | Bar _ _ _ => Ok "bar"
    | BarH _ _ _ => Ok "barh"
    | Pie sizes _ _ =>
        if forallb (Z.eqb 0) sizes
        then Raise (ValueError "All wedge sizes are zero")
        else Ok "pie"
    | Line _ _ _ => Ok "line"
    end;
  current_date := "2024-05-01";
  html_content := λ total_count date,
    "<html>" +:+ str_int total_count +:+ " " +:+ date +:+ "</html>"
|}.

Definition explorer : Search.GithubExplorer := Search.init None.

(** A fresh working directory, nothing printed yet. *)
Definition empty_world : World :=
  {| fs := ∅; console := []; slept := 0 |}.

(** A network that refuses every connection. *)
Definition offline : Lib := {|
  strptime_year := canonical_year;
  requests_get := λ _, Raise (RequestException "connection refused");
  json_dump_repos := json_dump_repos (Lib := lib);
  json_dump_analysis := json_dump_analysis (Lib := lib);
  json_load := json_load (Lib := lib);
  HAS_MATPLOTLIB := false;
  render := render (Lib := lib);
  current_date := "2024-05-01";
  html_content := html_content (Lib := lib)
|}.


(** The statistics of a search that found nothing. *)
Definition nothing_found : Analysis.t :=
  {| Analysis.total_count := 0;
     Analysis.languages := [];
     Analysis.topics := [];
     Analysis.created_dates := [];
     Analysis.stars_distribution :=
       [("0-10", 0); ("11-50", 0); ("51-100", 0); ("101-500", 0);
        ("501-1000", 0); ("1001+", 0)] |}.

(** The libraries of [lib] reading an analysis file of such a search. *)
Definition empty_search : Lib := {|
  strptime_year := canonical_year;
  requests_get := get;
  json_dump_repos := json_dump_repos (Lib := lib);
  json_dump_analysis := json_dump_analysis (Lib := lib);
  json_load := λ document,
    if String.eqb document "analysis 0" then Ok nothing_found
    else Raise (JSONDecodeError "Expecting value");
  HAS_MATPLOTLIB := true;
  render := render (Lib := lib);
  current_date := "2024-05-01";
  html_content := html_content (Lib := lib)
|}.

(** Plotting calls interrupted from the keyboard. *)
Definition interrupted : Lib := {|
  strptime_year := canonical_year;
  requests_get := get;
  json_dump_repos := json_dump_repos (Lib := lib);
  json_dump_analysis := json_dump_analysis (Lib := lib);
  json_load := json_load (Lib := lib);
  HAS_MATPLOTLIB := true;
  render := λ _, Raise KeyboardInterrupt;
  current_date := "2024-05-01";
  html_content := html_content (Lib := lib)
|}.

(** A record whose timestamp is not in the form of the API. *)
Definition undated : Repo.t :=
  repo 21 "joe/drafts" (Some "Python") 3 "yesterday" [].

(** A service that answers every query with the record dated
    [yesterday]. *)
Definition stale : Lib := {|
  strptime_year := canonical_year;
  requests_get := λ _,
    Ok {| status_code := 200; text := "";
          json := Ok {| items := Some [undated] |} |};
  json_dump_repos := json_dump_repos (Lib := lib);
  json_dump_analysis := json_dump_analysis (Lib := lib);
  json_load := json_load (Lib := lib);
  HAS_MATPLOTLIB := true;
  render := render (Lib := lib);
  current_date := "2024-05-01";
  html_content := html_content (Lib := lib)
|}.

End Sample.

(* ===================================================================== *)
(** * Vocabulary of the statements                                        *)
(* ===================================================================== *)

(** [first_at key l i x]: the element at position [i] of [l] is [x], and no
    earlier element of [l] has the key of [x]. *)
Definition first_at {A K} (key : A → K) (l : list A) (i : nat) (x : A) : Prop :=
  l !! i = Some x ∧
  ∀ j x', (j < i)%nat → l !! j = Some x' → key x' ≠ key x.

(** The step of a loop that files each element under its key unless the
    key is taken. *)
Definition keep_first_by {A K} `{EqDecision K} (key : A → K)
  (d : list (K * A)) (x : A) : list (K * A) :=
  if Py.contains (key x) d then d else Py.setitem (key x) x d.

(** What such a loop has built after a prefix [l] of its input. *)
Record first_kept {A K} (key : A → K) (l : list A) (d : list (K * A)) : Prop := {
  kept_keys : d.*1 = key <$> d.*2;
  kept_nodup : NoDup d.*1;
  kept_seen : ∀ k, k ∈ d.*1 ↔ k ∈ key <$> l;
  kept_first : ∀ x, x ∈ d.*2 ↔ ∃ i, first_at key l i x;
  kept_order : ∀ i j x y, (i < j)%nat → d.*2 !! i = Some x → d.*2 !! j = Some y →
      ∃ a b, (a < b)%nat ∧ first_at key l a x ∧ first_at key l b y
}.

(** The sum of the counts of a dictionary. *)
Definition total (d : list (string * Z)) : Z :=
  foldr (λ kv acc, kv.2 + acc) 0 d.

(** The number of elements of a list that pass a test. *)
Definition count_if {A} (f : A → bool) (l : list A) : Z :=
  Z.of_nat (length (List.filter f l)).

(** The star count the aggregator reads from a record. *)
Definition stars_of (r : Repo.t) : Z := default 0 (Repo.stargazers_count r).

(** The six keys of the star histogram, in the order written. *)
Definition bucket_names : list string :=
  ["0-10"; "11-50"; "51-100"; "101-500"; "501-1000"; "1001+"].

(** The range of star counts that a bucket stands for: each bucket is
    closed above by its bound and starts after the bound before it. *)
Definition in_bucket (name : string) (stars : Z) : bool :=
  if String.eqb name "0-10" then stars <=? 10
  else if String.eqb name "11-50" then (10 <? stars) && (stars <=? 50)
  else if String.eqb name "51-100" then (50 <? stars) && (stars <=? 100)
  else if String.eqb name "101-500" then (100 <? stars) && (stars <=? 500)
  else if String.eqb name "501-1000" then (500 <? stars) && (stars <=? 1000)
  else if String.eqb name "1001+" then 1000 <? stars
  else false.

(** The language a record is counted under, if any. *)
Definition counted_language (r : Repo.t) : option string :=
  match Repo.language r with
  | Some language => if Py.truthy language then Some language else None
  | None => None
  end.

(** The languages and the topics in the order the aggregator meets them. *)
Definition observed_languages (repos : list Repo.t) : list string :=
  omap counted_language repos.

Definition observed_topics (repos : list Repo.t) : list string :=
  mjoin (Repo.topics <$> repos).

(** A record whose creation timestamp, if it has one, is accepted by
    [strptime]. *)
Definition timestamp_ok `{Lib} (r : Repo.t) : bool :=
  match Repo.created_at r with
  | Some created_at =>
      match strptime_year created_at with
      | Py.Ok _ => true
      | Py.Raise _ => false
      end
  | None => true
  end.

(** The creation year of a record with a creation timestamp. *)
Definition created_year `{Lib} (r : Repo.t) : option Z :=
  match Repo.created_at r with
  | Some created_at =>
      match strptime_year created_at with
      | Py.Ok year => Some year
      | Py.Raise _ => None
      end
  | None => None
  end.

(** The keys of [created_dates] in the order the aggregator meets them. *)
Definition observed_years `{Lib} (repos : list Repo.t) : list string :=
  Py.str_int <$> omap created_year repos.

(** Counting a sequence of keys into a dictionary, one after the other. *)
Definition tally (ks : list string) (d : list (string * Z)) : list (string * Z) :=
  foldl (λ d k, Search.count_key k d) d ks.

(** The statistics as the loop of [analyze_results] leaves them, before
    the final sorts, with a given star histogram. *)
Definition gathered `{Lib} (repos : list Repo.t)
  (stars_distribution : list (string * Z)) : Analysis.t :=
  {| Analysis.total_count := Z.of_nat (length repos);
     Analysis.languages := tally (observed_languages repos) [];
     Analysis.topics := tally (observed_topics repos) [];
     Analysis.created_dates := tally (observed_years repos) [];
     Analysis.stars_distribution := stars_distribution |}.

(** The request [search_repositories] sends for a query. *)
Definition request_for (self : Search.GithubExplorer) (query : string)
  (per_page page : Z) : Request :=
  {| url := Search.GITHUB_API_URL +:+ Search.SEARCH_REPOS_ENDPOINT;
     req_headers := Search.headers self;
     params := {| q := query; sort := "stars"; order := "desc";
                  per_page := per_page; page := page |} |}.

(** The file system after the first step of the constructor: the output
    directory is created when [os.path.exists] does not find it. *)
Definition directory_step (fs : gmap string OS.node) (output_dir : string)
  : Py.result (gmap string OS.node) :=
  if OS.exists_ fs output_dir then Py.Ok fs else OS.makedirs fs output_dir.

(** [old in s] *)
Fixpoint substring_of (old s : string) : bool :=
  Py.starts_with old s ||
  match s with
  | EmptyString => false
  | String _ s' => substring_of old s'
  end.

(** What one query of the loop adds to the gathered records and prints
    after its [Searching for] line, or the exception it ends the loop with. *)
Definition answer `{Lib} (self : Search.GithubExplorer) (per_page page : Z)
  (query : string) : Py.result (list Repo.t * list string) :=
  match requests_get (request_for self query per_page page) with
  | Py.Raise e => Py.Raise e
  | Py.Ok response =>
      if decide (status_code response ≠ 200) then
        Py.Ok ([], ["Error: " +:+ Py.str_int (status_code response);
                    text response])
      else
        match json response with
        | Py.Raise e => Py.Raise e
        | Py.Ok results => Py.Ok (default [] (items results), [])
        end
  end.

Definition answered `{Lib} (self : Search.GithubExplorer) (per_page page : Z)
  (query : string) : bool :=
  match answer self per_page page query with
  | Py.Ok _ => true
  | Py.Raise _ => false
  end.

Definition found `{Lib} (self : Search.GithubExplorer) (per_page page : Z)
  (query : string) : list Repo.t :=
  match answer self per_page page query with
  | Py.Ok (records, _) => records
  | Py.Raise _ => []
  end.

Definition printed `{Lib} (self : Search.GithubExplorer) (per_page page : Z)
  (query : string) : list string :=
  ("Searching for: " +:+ query) ::
  match answer self per_page page query with
  | Py.Ok (_, lines) => lines
  | Py.Raise _ => []
  end.

(** The number of times a key occurs in a sequence. *)
Definition occurrences (k : string) (ks : list string) : Z :=
  count_if (λ x, bool_decide (x = k)) ks.

(** A record with the two keys that [save_results] reads with a subscript
    and the aggregator reads leniently. *)
Definition complete (r : Repo.t) : bool :=
  bool_decide (is_Some (Repo.created_at r))
  && bool_decide (is_Some (Repo.stargazers_count r)).

(** The file names of the four charts, in the order they are drawn. *)
Definition chart_names : list string :=
  ["languages.png"; "topics.png"; "stars_distribution.png";
   "creation_timeline.png"].

(** A file system in which the charts can be saved: the output directory
    is a directory and no chart path is one. *)
Definition ready (output_dir : string) (fs0 : gmap string OS.node) : Prop :=
  OS.isdir fs0 output_dir = true ∧
  ∀ name, name ∈ chart_names → OS.isdir fs0 (OS.join output_dir name) = false.

(** A file name made of one name, relative, and not the name of a chart. *)
Definition simple_name (name : string) : bool :=
  negb (Py.starts_with "/" name)
  && bool_decide (OS.split_from "" name = [name] ∧ name ≠ "" ∧ name ≠ ".")
  && bool_decide (name ∉ chart_names).

(** The four figures of a visualizer in the order they are drawn, each as
    its plotting calls leave it: the image to save, or the exception. *)
Definition rendered `{Lib} (self : Visualize.ResultsVisualizer)
  : list (Py.result string) :=
  [render (Visualize.languages_chart self 10);
   render (Visualize.topics_chart self 15);
   render (Visualize.stars_chart self);
   Py.bind (Visualize.timeline_chart self) render].

(** Drawing figures one after the other under the given names, as the four
    calls of [create_all_visualizations] do, and returning the paths. *)
Fixpoint draw (output_dir : string) (names : list string)
  (figures : list (Py.result string)) : IO.M (list string) :=
  match names, figures with
  | name :: names', figure :: figures' =>
      image ← Search.lift figure;
      IO.write_file (OS.join output_dir name) image ;;
      paths ← draw output_dir names' figures';
      mret (OS.join output_dir name :: paths)
  | _, _ => mret []
  end.



(** A computation that prints and does nothing else. *)
Definition prints_only (m : IO.M unit) : Prop :=
  ∀ w, ∃ lines,
    m w = (Py.Ok tt, {| fs := fs w; console := console w ++ lines;
                        slept := slept w |}).


(* ===================================================================== *)
(** * Dictionaries                                                        *)
(* ===================================================================== *)

Section dict_facts.
Context {K V : Type} `{EqDecision K}.
Implicit Types (k : K) (v : V) (d : list (K * V)).

Lemma get_None k d : Py.get k d = None ↔ k ∉ d.*1.
Proof.
  induction d as [|[k' v'] d IH]; simpl.
  - split; [intros _; apply not_elem_of_nil | done].
  - rewrite not_elem_of_cons. destruct (decide (k = k')); split; try done.
    + intros [? _]; done.
    + intros; split; [done | by apply IH].
    + intros [_ ?]; by apply IH.
Qed.

Lemma get_Some_elem k v d : Py.get k d = Some v → (k, v) ∈ d.
Proof.
  induction d as [|[k' v'] d IH]; simpl; [done |].
  destruct (decide (k = k')) as [-> |]; intros Hg.
  - injection Hg as ->. apply list_elem_of_here.
  - apply list_elem_of_further; auto.
Qed.

Lemma contains_true k d : Py.contains k d = true ↔ k ∈ d.*1.
Proof.
  unfold Py.contains. rewrite bool_decide_eq_true.
  destruct (Py.get k d) eqn:E.
  - split; [intros _ | eauto]. destruct (decide (k ∈ d.*1)); [done |].
    apply get_None in n; congruence.
  - split; [intros [? ?]; done |]. intros Hin. apply get_None in E; done.
Qed.

Lemma contains_false k d : Py.contains k d = false ↔ k ∉ d.*1.
Proof.
  rewrite <- contains_true. destruct (Py.contains k d); split; try done.
Qed.

Lemma setitem_absent k v d : k ∉ d.*1 → Py.setitem k v d = d ++ [(k, v)].
Proof.
  induction d as [|[k' v'] d IH]; simpl; [done |].
  rewrite not_elem_of_cons. intros [Hne Hnin].
  destruct (decide (k = k')); [done |]. by rewrite IH.
Qed.

Lemma setitem_keys_present k v d : k ∈ d.*1 → (Py.setitem k v d).*1 = d.*1.
Proof.
  induction d as [|[k' v'] d IH]; simpl.
  - intros Hin; by apply elem_of_nil in Hin.
  - intros Hin. destruct (decide (k = k')) as [-> |]; simpl; [done |].
    f_equal. apply IH. apply elem_of_cons in Hin as [? | ?]; done.
Qed.

Lemma get_setitem_eq k v d : Py.get k (Py.setitem k v d) = Some v.
Proof.
  induction d as [|[k' v'] d IH]; simpl.
  - by rewrite decide_True.
  - destruct (decide (k = k')) as [-> |] eqn:E; simpl.
    + by rewrite decide_True.
    + by rewrite E.
Qed.

Lemma get_setitem_ne k k' v d :
  k ≠ k' → Py.get k' (Py.setitem k v d) = Py.get k' d.
Proof.
  intros Hne. induction d as [|[k0 v0] d IH]; simpl.
  - by rewrite decide_False.
  - destruct (decide (k = k0)) as [-> |]; simpl.
    + by rewrite !decide_False.
    + destruct (decide (k' = k0)); [done | apply IH].
Qed.

Lemma setitem_NoDup k v d : NoDup d.*1 → NoDup (Py.setitem k v d).*1.
Proof.
  intros Hnd. destruct (decide (k ∈ d.*1)) as [Hin | Hnin].
  - by rewrite setitem_keys_present.
  - rewrite setitem_absent, fmap_app by done. simpl.
    apply NoDup_app. split_and!; [done | | apply NoDup_singleton].
    intros x Hx Hx'. apply list_elem_of_singleton in Hx'. by subst.
Qed.

(** Building a dictionary from pairs with distinct keys keeps the pairs
    and their order. *)
Lemma dict_of_NoDup (pairs : list (K * V)) :
  NoDup pairs.*1 → Py.dict_of pairs = pairs.
Proof.
  unfold Py.dict_of. induction pairs as [|kv pairs IH] using rev_ind; [done |].
  rewrite fmap_app, foldl_app. simpl. intros Hnd.
  apply NoDup_app in Hnd as (Hnd & Hdisj & _).
  rewrite IH by done. destruct kv as [k v]. simpl. apply setitem_absent.
  intros Hin. apply (Hdisj k Hin). apply list_elem_of_here.
Qed.

End dict_facts.

(* ===================================================================== *)
(** * Keeping the first element of each key                               *)
(* ===================================================================== *)

Section first_occurrences.
Context {A K : Type} `{EqDecision K} (key : A → K).
Implicit Types (l : list A) (x : A).

Lemma first_at_snoc l x i y :
  first_at key (l ++ [x]) i y ↔
  first_at key l i y ∨ (i = length l ∧ y = x ∧ key x ∉ key <$> l).
Proof.
  unfold first_at. split.
  - intros [Hi Hfirst]. destruct (decide (i < length l)%nat) as [Hlt | Hge].
    + left. rewrite lookup_app_l in Hi by done. split; [done |].
      intros j x' Hj Hx'. apply (Hfirst j x' Hj).
      rewrite lookup_app_l; [done | lia].
    + right. pose proof (lookup_lt_Some _ _ _ Hi) as Hlen.
      rewrite length_app in Hlen. simpl in Hlen.
      assert (i = length l) as -> by lia.
      rewrite list_lookup_middle in Hi by done. injection Hi as <-.
      split_and!; [done.. |].
      intros Hin. apply list_elem_of_fmap in Hin as (x' & Heq & Hin).
      apply list_elem_of_lookup in Hin as [j Hj].
      apply (Hfirst j x'); [by eapply lookup_lt_Some | | done].
      rewrite lookup_app_l; [done | by eapply lookup_lt_Some].
  - intros [[Hi Hfirst] | (-> & -> & Hnew)].
    + pose proof (lookup_lt_Some _ _ _ Hi) as Hlen. split.
      * by rewrite lookup_app_l.
      * intros j x' Hj Hx'. apply (Hfirst j x' Hj).
        rewrite lookup_app_l in Hx'; [done | lia].
    + split; [by rewrite list_lookup_middle |].
      intros j x' Hj Hx' Heq. rewrite lookup_app_l in Hx' by done.
      apply Hnew. rewrite <- Heq. apply list_elem_of_fmap.
      exists x'. split; [done |]. by eapply list_elem_of_lookup_2.
Qed.

Lemma first_at_bound l i x : first_at key l i x → (i < length l)%nat.
Proof. intros [Hi _]. by eapply lookup_lt_Some. Qed.

Lemma keep_first_by_kept l : first_kept key l (foldl (keep_first_by key) [] l).
Proof.
  induction l as [|x l IH] using rev_ind.
  - split; simpl; try done.
    + apply NoDup_nil_2.
    + intros y. split; [intros Hin; by apply elem_of_nil in Hin |].
      intros [i [Hi _]]. done.
  - rewrite foldl_app. simpl. set (d := foldl (keep_first_by key) [] l) in *.
    destruct IH as [Hkeys Hnd Hseen Hfirst Horder].
    unfold keep_first_by. destruct (Py.contains (key x) d) eqn:Hc.
    + apply contains_true in Hc. split; try done.
      * intros k. rewrite Hseen, fmap_app, elem_of_app. simpl.
        rewrite list_elem_of_singleton. split; [auto |].
        intros [? | ->]; [done | by apply Hseen].
      * intros y. rewrite Hfirst. setoid_rewrite first_at_snoc.
        split; [intros [i ?]; eauto |].
        intros [i [? | (_ & _ & Hnew)]]; [eauto |].
        exfalso. apply Hnew. by apply Hseen.
      * intros i j y z Hij Hi Hj.
        destruct (Horder i j y z Hij Hi Hj) as (a & b & Hab & Ha & Hb).
        exists a, b. rewrite !first_at_snoc. auto.
    + apply contains_false in Hc. rewrite setitem_absent by done.
      assert (Hnew : key x ∉ key <$> l) by (by rewrite <- Hseen).
      split.
      * rewrite !fmap_app. simpl. by rewrite Hkeys.
      * rewrite fmap_app. apply NoDup_app.
        split_and!; [done | | apply NoDup_singleton].
        intros k Hk Hk'. apply list_elem_of_singleton in Hk'. by subst.
      * intros k. rewrite !fmap_app, !elem_of_app, Hseen. done.
      * intros y. rewrite fmap_app, elem_of_app, Hfirst. simpl.
        rewrite list_elem_of_singleton. setoid_rewrite first_at_snoc. split.
        -- intros [[i ?] | ->]; [eauto |]. exists (length l). auto.
        -- intros [i [? | (_ & -> & _)]]; eauto.
      * intros i j y z Hij Hi Hj. rewrite fmap_app in Hi, Hj. simpl in Hi, Hj.
        pose proof (lookup_lt_Some _ _ _ Hj) as Hlen.
        rewrite length_app in Hlen. simpl in Hlen.
        setoid_rewrite first_at_snoc.
        destruct (decide (j < length d.*2)%nat) as [Hlt | Hge].
        -- rewrite lookup_app_l in Hi by lia. rewrite lookup_app_l in Hj by done.
           destruct (Horder i j y z Hij Hi Hj) as (a & b & Hab & Ha & Hb).
           exists a, b. auto.
        -- assert (j = length d.*2) as -> by lia.
           rewrite list_lookup_middle in Hj by done. injection Hj as <-.
           rewrite lookup_app_l in Hi by done.
           destruct (proj1 (Hfirst y)) as [a Ha];
             [by eapply list_elem_of_lookup_2 |].
           exists a, (length l). split_and!; [by eapply first_at_bound | auto..].
Qed.

End first_occurrences.

(* ===================================================================== *)
(** * The deduplicator                                                    *)
(* ===================================================================== *)

(** C1. The deduplicated collection has one record per identifier of the
    input: its identifiers are pairwise distinct and are those of the input;
    its records are exactly the first occurrences of their identifiers in
    input order; and they stand in the order of these first occurrences. *)
Theorem remove_duplicates_first_occurrence (all_results : list Repo.t) :
  let unique := Search.remove_duplicates all_results in
  NoDup (Repo.id <$> unique) ∧
  (∀ k, k ∈ Repo.id <$> unique ↔ k ∈ Repo.id <$> all_results) ∧
  (∀ r, r ∈ unique ↔ ∃ i, first_at Repo.id all_results i r) ∧
  (∀ i j r r', (i < j)%nat → unique !! i = Some r → unique !! j = Some r' →
     ∃ a b, (a < b)%nat ∧ first_at Repo.id all_results a r
            ∧ first_at Repo.id all_results b r').
Proof.
  destruct (keep_first_by_kept Repo.id all_results)
    as [Hkeys Hnd Hseen Hfirst Horder].
  unfold Search.remove_duplicates, Py.values. simpl.
  change Search.keep_first with (keep_first_by Repo.id).
  split_and!; [by rewrite <- Hkeys | | done | done].
  intros k. by rewrite <- Hkeys.
Qed.

(** The identifier 42 at the first and at the fifth position: the first
    record stays, the fifth is dropped. *)
Example duplicate_keeps_first :
  Search.remove_duplicates Sample.with_duplicate
  = [Sample.novels; Sample.poems; Sample.critic; Sample.verses; Sample.essays].
Proof. reflexivity. Qed.

(* ===================================================================== *)
(** * Sorting                                                             *)
(* ===================================================================== *)

Section sorted_facts.
Context {A : Type} (le : A → A → bool).
Implicit Types (x : A) (l : list A).

Lemma insert_sorted_perm x l : Py.insert_sorted le x l ≡ₚ x :: l.
Proof.
  induction l as [|y l IH]; simpl; [done |].
  destruct (le x y); [done |]. rewrite IH. apply perm_swap.
Qed.

Lemma sorted_perm l : Py.sorted le l ≡ₚ l.
Proof.
  induction l as [|x l IH]; simpl; [done |].
  by rewrite insert_sorted_perm, IH.
Qed.

Hypothesis le_total : ∀ x y, le x y = true ∨ le y x = true.
Hypothesis le_trans : ∀ x y z, le x y = true → le y z = true → le x z = true.

Lemma insert_sorted_ordered x l :
  StronglySorted (λ a b, le a b = true) l →
  StronglySorted (λ a b, le a b = true) (Py.insert_sorted le x l).
Proof.
  induction 1 as [|y l Hs IH Hall]; simpl.
  - repeat constructor.
  - destruct (le x y) eqn:Hxy.
    + constructor; [by constructor |]. constructor; [done |].
      eapply Forall_impl; [exact Hall |]. intros z Hz. by eapply le_trans.
    + constructor; [done |].
      rewrite insert_sorted_perm. constructor; [| done].
      destruct (le_total x y); congruence.
Qed.

Lemma sorted_ordered l : StronglySorted (λ a b, le a b = true) (Py.sorted le l).
Proof.
  induction l; simpl; [constructor | by apply insert_sorted_ordered].
Qed.

(** Stability: elements that the order does not tell apart keep their
    relative positions. *)
Lemma sorted_stable (P : A → Prop) `{!∀ x, Decision (P x)} l :
  (∀ x y, P x → P y → le x y = true) →
  filter P (Py.sorted le l) = filter P l.
Proof.
  intros Hclass.
  assert (Hins : ∀ x l', filter P (Py.insert_sorted le x l') = filter P (x :: l')).
  { intros x l'. induction l' as [|y l' IH]; simpl; [done |].
    destruct (le x y) eqn:Hxy; [done |].
    rewrite (filter_cons _ y), IH, !filter_cons.
    destruct (decide (P x)), (decide (P y)); try done.
    rewrite Hclass in Hxy; done. }
  induction l as [|x l IH]; simpl; [done |].
  by rewrite Hins, !filter_cons, IH.
Qed.

End sorted_facts.

Lemma StronglySorted_lookup {A} (R : A → A → Prop) (l : list A) i j x y :
  StronglySorted R l → (i < j)%nat → l !! i = Some x → l !! j = Some y → R x y.
Proof.
  intros Hs. revert i j. induction Hs as [|z l Hs IH Hall]; intros i j Hij Hi Hj.
  - done.
  - destruct j as [|j]; [lia |]. simpl in Hj. destruct i as [|i]; simpl in Hi.
    + injection Hi as <-. rewrite Forall_forall in Hall. apply Hall.
      by eapply list_elem_of_lookup_2.
    + apply (IH i j); [lia | done..].
Qed.

(** Two positions of a list, in order, as a two-element sublist. *)
Lemma sublist_pair_lookup {A} (l : list A) x y :
  [x; y] `sublist_of` l ↔
  ∃ i j, (i < j)%nat ∧ l !! i = Some x ∧ l !! j = Some y.
Proof.
  induction l as [|z l IH].
  - rewrite sublist_nil_r. split; [done | intros (? & ? & _ & ? & _); done].
  - rewrite sublist_cons_r, IH. split.
    + intros [(i & j & Hij & Hi & Hj) | (l' & [= <- <-] & Hy)].
      * exists (S i), (S j). split_and!; [lia | done..].
      * apply (elem_of_sublist _ _ y) in Hy; [| apply list_elem_of_here].
        apply list_elem_of_lookup in Hy as [j Hj].
        exists O, (S j). split_and!; [lia | done..].
    + intros (i & j & Hij & Hi & Hj). destruct j as [|j]; [lia |].
      simpl in Hj. destruct i as [|i]; simpl in Hi.
      * right. injection Hi as <-. eexists; split; [done |].
        apply singleton_sublist_l. by eapply list_elem_of_lookup_2.
      * left. exists i, j. split_and!; [lia | done..].
Qed.

Lemma sublist_filter_mono {A} (P : A → Prop) `{!∀ x, Decision (P x)}
  (l1 l2 : list A) :
  l1 `sublist_of` l2 → filter P l1 `sublist_of` filter P l2.
Proof.
  induction 1 as [|x l1 l2 Hs IH | x l1 l2 Hs IH]; [done | |];
    rewrite ?filter_cons; destruct (decide (P x));
    auto using sublist_skip, sublist_cons.
Qed.

(* ===================================================================== *)
(** * Counting into a dictionary                                          *)
(* ===================================================================== *)

Section counting.
Import Py Search.
Implicit Types (k : string) (d : list (string * Z)) (ks : list string).

Lemma total_app d1 d2 : total (d1 ++ d2) = total d1 + total d2.
Proof.
  unfold total. induction d1 as [|kv l IH]; simpl; lia.
Qed.

Lemma total_setitem k v d :
  total (setitem k v d) = total d - default 0 (get k d) + v.
Proof.
  induction d as [|[k' v'] d IH]; simpl.
  - unfold total. simpl. lia.
  - destruct (decide (k = k')); unfold total in *; simpl in *; lia.
Qed.

Lemma total_count_key k d : total (count_key k d) = total d + 1.
Proof. unfold count_key, get_default. rewrite total_setitem. lia. Qed.

Lemma total_tally ks d : total (tally ks d) = total d + Z.of_nat (length ks).
Proof.
  revert d. induction ks as [|k ks IH]; intros d; simpl; [lia |].
  unfold tally in *. simpl. rewrite IH, total_count_key. lia.
Qed.

Lemma tally_app ks1 ks2 d : tally (ks1 ++ ks2) d = tally ks2 (tally ks1 d).
Proof. unfold tally. apply foldl_app. Qed.

Lemma count_key_keys k d :
  (count_key k d).*1 = if decide (k ∈ d.*1) then d.*1 else d.*1 ++ [k].
Proof.
  unfold count_key. destruct (decide (k ∈ d.*1)).
  - by apply setitem_keys_present.
  - rewrite setitem_absent by done. by rewrite fmap_app.
Qed.

(** The keys of a tally are filed like the records of the deduplicator. *)
Lemma tally_keys ks :
  (tally ks []).*1 = (foldl (keep_first_by (λ k : string, k)) [] ks).*2.
Proof.
  induction ks as [|k ks IH] using rev_ind; [done |].
  assert (tally (ks ++ [k]) [] = count_key k (tally ks [])) as ->
    by (unfold tally; by rewrite foldl_app).
  rewrite foldl_app, count_key_keys, IH. simpl.
  pose proof (keep_first_by_kept (λ k : string, k) ks) as [Hkeys _ _ _ _].
  rewrite list_fmap_id in Hkeys.
  set (d := foldl (keep_first_by (λ k : string, k)) [] ks) in *.
  unfold keep_first_by. destruct (decide (k ∈ d.*2)) as [Hin | Hnin].
  - rewrite <- Hkeys in Hin. apply contains_true in Hin. by rewrite Hin.
  - rewrite <- Hkeys in Hnin. pose proof Hnin as Hc.
    apply contains_false in Hc. rewrite Hc, setitem_absent by done.
    by rewrite fmap_app.
Qed.

Lemma tally_NoDup ks : NoDup (tally ks []).*1.
Proof.
  rewrite tally_keys.
  pose proof (keep_first_by_kept (λ k : string, k) ks) as [Hkeys Hnd _ _ _].
  rewrite list_fmap_id in Hkeys. by rewrite <- Hkeys.
Qed.

Lemma tally_elem ks k : k ∈ (tally ks []).*1 ↔ k ∈ ks.
Proof.
  rewrite tally_keys.
  pose proof (keep_first_by_kept (λ k : string, k) ks) as [Hkeys _ Hseen _ _].
  rewrite list_fmap_id in Hkeys, Hseen. by rewrite <- Hkeys, Hseen.
Qed.

(** The keys of a tally stand in the order of their first appearance. *)
Lemma tally_order ks i j a b :
  (i < j)%nat → (tally ks []).*1 !! i = Some a → (tally ks []).*1 !! j = Some b →
  ∃ p q, (p < q)%nat ∧ first_at (λ k, k) ks p a ∧ first_at (λ k, k) ks q b.
Proof.
  rewrite tally_keys.
  pose proof (keep_first_by_kept (λ k : string, k) ks) as [_ _ _ _ Horder].
  apply Horder.
Qed.

Lemma fold_count_language repos d :
  foldl count_language d repos = tally (observed_languages repos) d.
Proof.
  revert d. induction repos as [|r repos IH]; intros d; [done |].
  simpl. rewrite IH. unfold observed_languages, count_language, counted_language.
  simpl. destruct (Repo.language r) as [language |]; [| done].
  by destruct (truthy language).
Qed.

Lemma fold_count_topics repos d :
  foldl count_topics d repos = tally (observed_topics repos) d.
Proof.
  revert d. induction repos as [|r repos IH]; intros d; [done |].
  simpl. rewrite IH. unfold observed_topics. simpl. by rewrite tally_app.
Qed.

Lemma fold_count_created `{Lib} repos d :
  forallb timestamp_ok repos = true →
  for_each count_created repos d = Ok (tally (observed_years repos) d).
Proof.
  revert d. induction repos as [|r repos IH]; intros d Hok; [done |].
  simpl in Hok. apply andb_prop in Hok as [Hr Hrest].
  cbn [for_each]. unfold observed_years, created_year, timestamp_ok in *.
  unfold count_created at 1. simpl.
  destruct (Repo.created_at r) as [created_at |]; simpl; [| by apply IH].
  destruct (strptime_year created_at) as [year | e]; [| done].
  simpl. by apply IH.
Qed.

End counting.

(* ===================================================================== *)
(** * The star histogram                                                  *)
(* ===================================================================== *)

Section histogram.
Import Py Search.
Implicit Types (d : list (string * Z)) (repos : list Repo.t).

Lemma star_bucket_cases stars :
  (stars ≤ 10 ∧ star_bucket stars = "0-10") ∨
  (10 < stars ≤ 50 ∧ star_bucket stars = "11-50") ∨
  (50 < stars ≤ 100 ∧ star_bucket stars = "51-100") ∨
  (100 < stars ≤ 500 ∧ star_bucket stars = "101-500") ∨
  (500 < stars ≤ 1000 ∧ star_bucket stars = "501-1000") ∨
  (1000 < stars ∧ star_bucket stars = "1001+").
Proof.
  unfold star_bucket.
  repeat match goal with
         | |- context [?a <=? ?b] => destruct (Z.leb_spec a b)
         end; lia || naive_solver lia.
Qed.

Lemma star_bucket_in_names stars : star_bucket stars ∈ bucket_names.
Proof.
  unfold bucket_names.
  destruct (star_bucket_cases stars) as [[_ ->] | [[_ ->] | [[_ ->] | [[_ ->] | [[_ ->] | [_ ->]]]]]];
    rewrite !elem_of_cons; auto 10.
Qed.

(** The chain of comparisons picks the one bucket whose range holds the
    star count. *)
Lemma in_bucket_star_bucket name stars :
  in_bucket name stars = true ↔ star_bucket stars = name.
Proof.
  unfold in_bucket.
  destruct (star_bucket_cases stars)
    as [[? ->] | [[? ->] | [[? ->] | [[? ->] | [[? ->] | [? ->]]]]]];
    repeat match goal with
           | |- context [String.eqb name ?s] =>
               destruct (String.eqb_spec name s) as [-> | ?]
           end; simpl; split; try done; try (intros; exfalso; congruence);
    try lia; intros _; lia.
Qed.

Lemma count_if_cons {A} (f : A → bool) x (l : list A) :
  count_if f (x :: l) = (if f x then 1 else 0) + count_if f l.
Proof. unfold count_if. simpl. destruct (f x); simpl; lia. Qed.

Lemma count_if_bounds {A} (f : A → bool) (l : list A) :
  0 ≤ count_if f l ≤ Z.of_nat (length l).
Proof.
  induction l as [|x l IH]; [done |].
  rewrite count_if_cons. simpl length. destruct (f x); lia.
Qed.

Lemma count_stars_step d r :
  d.*1 = bucket_names →
  ∃ d', count_stars d r = Ok d' ∧ d'.*1 = bucket_names ∧
        total d' = total d + 1 ∧
        ∀ name, get name d' =
                (λ v, v + if in_bucket name (stars_of r) then 1 else 0)
                  <$> get name d.
Proof.
  intros Hkeys. unfold count_stars, increment, getitem.
  fold (stars_of r). set (b := star_bucket (stars_of r)).
  assert (Hin : b ∈ d.*1) by (rewrite Hkeys; apply star_bucket_in_names).
  destruct (get b d) as [v |] eqn:Hget; [| by apply get_None in Hget].
  simpl. eexists. split_and!; [done | | |].
  - by rewrite setitem_keys_present.
  - rewrite total_setitem, Hget. simpl. lia.
  - intros name. destruct (decide (b = name)) as [<- | Hne].
    + rewrite get_setitem_eq, Hget. simpl.
      by rewrite (proj2 (in_bucket_star_bucket b (stars_of r))).
    + rewrite get_setitem_ne by done.
      destruct (in_bucket name (stars_of r)) eqn:Hb.
      * apply in_bucket_star_bucket in Hb. done.
      * destruct (get name d); simpl; [f_equal; lia | done].
Qed.

Lemma count_stars_loop repos d :
  d.*1 = bucket_names →
  ∃ d', for_each count_stars repos d = Ok d' ∧ d'.*1 = bucket_names ∧
        total d' = total d + Z.of_nat (length repos) ∧
        ∀ name, get name d' =
                (λ v, v + count_if (λ r, in_bucket name (stars_of r)) repos)
                  <$> get name d.
Proof.
  revert d. induction repos as [|r repos IH]; intros d Hkeys.
  - exists d. split_and!; [done | done | simpl; lia |].
    intros name. destruct (get name d); simpl; [f_equal; unfold count_if; simpl; lia | done].
  - destruct (count_stars_step d r Hkeys) as (d1 & Hstep & Hkeys1 & Htot1 & Hget1).
    destruct (IH d1 Hkeys1) as (d' & Hloop & Hkeys' & Htot' & Hget').
    exists d'. cbn [for_each]. rewrite Hstep. simpl. split_and!; [done | done | |].
    + rewrite Htot', Htot1. simpl length. lia.
    + intros name. rewrite Hget', Hget1, count_if_cons.
      destruct (get name d); simpl; [f_equal; lia | done].
Qed.

End histogram.

(* ===================================================================== *)
(** * The orders used by the final sorts                                  *)
(* ===================================================================== *)

Section orders.
Import Py.

Lemma compare_lt_trans a b c :
  String.compare a b = Lt → String.compare b c = Lt → String.compare a c = Lt.
Proof.
  change String.compare with String_as_OT.compare.
  apply (@StrictOrder_Transitive _ _ String_as_OT.lt_strorder).
Qed.

Lemma compare_refl a : String.compare a a = Eq.
Proof.
  pose proof (String.compare_antisym a a) as Ha.
  destruct (String.compare a a); done.
Qed.

Lemma compare_gt_lt a b : String.compare a b = Gt ↔ String.compare b a = Lt.
Proof.
  rewrite (String.compare_antisym b a).
  destruct (String.compare a b); simpl; split; done.
Qed.

Lemma by_count_desc_total x y :
  by_count_desc x y = true ∨ by_count_desc y x = true.
Proof. unfold by_count_desc. lia. Qed.

Lemma by_count_desc_trans x y z :
  by_count_desc x y = true → by_count_desc y z = true →
  by_count_desc x z = true.
Proof. unfold by_count_desc. lia. Qed.

Lemma tuple_le_total x y : tuple_le x y = true ∨ tuple_le y x = true.
Proof.
  unfold tuple_le. rewrite (String.compare_antisym y.1 x.1).
  destruct (String.compare x.1 y.1); simpl; lia.
Qed.

Lemma tuple_le_trans x y z :
  tuple_le x y = true → tuple_le y z = true → tuple_le x z = true.
Proof.
  unfold tuple_le.
  destruct (String.compare x.1 y.1) eqn:Hxy; [| | done];
    destruct (String.compare y.1 z.1) eqn:Hyz; try done.
  - apply String.compare_eq_iff in Hxy, Hyz. rewrite Hxy, Hyz, compare_refl. lia.
  - apply String.compare_eq_iff in Hxy. rewrite Hxy, Hyz. done.
  - apply String.compare_eq_iff in Hyz. rewrite <- Hyz, Hxy. done.
  - by rewrite (compare_lt_trans _ _ _ Hxy Hyz).
Qed.

(** A dictionary sorted as tuples has its keys in strictly ascending
    order. *)
Lemma sorted_tuples_keys (d : list (string * Z)) i j x y :
  NoDup d.*1 → (i < j)%nat →
  sorted tuple_le d !! i = Some x → sorted tuple_le d !! j = Some y →
  String.compare x.1 y.1 = Lt.
Proof.
  intros Hnd Hij Hi Hj.
  pose proof (sorted_ordered tuple_le tuple_le_total tuple_le_trans d) as Hs.
  pose proof (StronglySorted_lookup _ _ _ _ _ _ Hs Hij Hi Hj) as Hle.
  simpl in Hle. unfold tuple_le in Hle.
  destruct (String.compare x.1 y.1) eqn:Hc; [| done | done].
  apply String.compare_eq_iff in Hc. exfalso.
  assert (Hnd' : NoDup (sorted tuple_le d).*1) by (by rewrite sorted_perm).
  assert (i = j); [| lia].
  eapply NoDup_lookup; [exact Hnd' | |]; rewrite list_lookup_fmap.
  - by rewrite Hi.
  - rewrite Hj. simpl. by rewrite Hc.
Qed.

(** A dictionary sorted by falling count: the counts do not rise, and
    entries with the same count keep their order. *)
Lemma sorted_counts (d : list (string * Z)) i j x y :
  (i < j)%nat →
  sorted by_count_desc d !! i = Some x → sorted by_count_desc d !! j = Some y →
  y.2 ≤ x.2 ∧
  (x.2 = y.2 → ∃ i' j', (i' < j')%nat ∧ d !! i' = Some x ∧ d !! j' = Some y).
Proof.
  intros Hij Hi Hj. split.
  - pose proof (sorted_ordered by_count_desc by_count_desc_total
                  by_count_desc_trans d) as Hs.
    pose proof (StronglySorted_lookup _ _ _ _ _ _ Hs Hij Hi Hj) as Hle.
    simpl in Hle. unfold by_count_desc in Hle. lia.
  - intros Heq. apply sublist_pair_lookup.
    assert (Hsub : [x; y] `sublist_of` sorted by_count_desc d)
      by (apply sublist_pair_lookup; eauto).
    apply (sublist_filter_mono (λ kv, kv.2 = x.2)) in Hsub.
    rewrite sorted_stable in Hsub.
    + rewrite !filter_cons, filter_nil, !decide_True in Hsub by done.
      etrans; [exact Hsub | apply sublist_filter].
    + intros a b Ha Hb. unfold by_count_desc. lia.
Qed.

End orders.

(* ===================================================================== *)
(** * The aggregator                                                      *)
(* ===================================================================== *)

Section aggregator.
Context `{Lib}.
Import Py Search.
Implicit Types (repos : list Repo.t) (self : GithubExplorer).

Lemma analyze_loop repos (a : Analysis.t) :
  forallb timestamp_ok repos = true →
  (Analysis.stars_distribution a).*1 = bucket_names →
  ∃ sd, for_each count_stars repos (Analysis.stars_distribution a) = Ok sd ∧
        for_each analyze_repo repos a =
        Ok {| Analysis.total_count := Analysis.total_count a;
              Analysis.languages :=
                tally (observed_languages repos) (Analysis.languages a);
              Analysis.topics :=
                tally (observed_topics repos) (Analysis.topics a);
              Analysis.created_dates :=
                tally (observed_years repos) (Analysis.created_dates a);
              Analysis.stars_distribution := sd |}.
Proof.
  revert a. induction repos as [|r repos IH]; intros a Hok Hkeys.
  - exists (Analysis.stars_distribution a). split; [done |]. by destruct a.
  - pose proof Hok as Hok'. simpl in Hok'. apply andb_prop in Hok' as [Hr Hrest].
    destruct (count_stars_step _ r Hkeys) as (sd1 & Hstep & Hkeys1 & _ & _).
    pose proof (fold_count_created [r] (Analysis.created_dates a)) as Hcreated.
    simpl in Hcreated. rewrite Hr in Hcreated. specialize (Hcreated eq_refl).
    destruct (count_created (Analysis.created_dates a) r) as [cd1 |] eqn:Hcd;
      [| done].
    simpl in Hcreated. injection Hcreated as ->.
    set (a1 := {| Analysis.total_count := Analysis.total_count a;
                  Analysis.languages := count_language (Analysis.languages a) r;
                  Analysis.topics := count_topics (Analysis.topics a) r;
                  Analysis.created_dates :=
                    tally (observed_years [r]) (Analysis.created_dates a);
                  Analysis.stars_distribution := sd1 |}).
    assert (Hrepo : analyze_repo a r = Ok a1).
    { unfold analyze_repo. rewrite Hcd, Hstep. done. }
    destruct (IH a1 Hrest Hkeys1) as (sd & Hsd & Hloop).
    exists sd. cbn [for_each]. rewrite Hstep, Hrepo. simpl. split; [done |].
    rewrite Hloop. subst a1. simpl. do 2 f_equal.
    + pose proof (fold_count_language (r :: repos) (Analysis.languages a)) as E.
      simpl in E. by rewrite <- E, fold_count_language.
    + pose proof (fold_count_topics (r :: repos) (Analysis.topics a)) as E.
      simpl in E. by rewrite <- E, fold_count_topics.
    + rewrite <- tally_app. f_equal. unfold observed_years. simpl.
      by destruct (created_year r).
Qed.

(** When every timestamp parses, the aggregator returns the gathered
    statistics, sorted. *)
Lemma analyze_results_gathered self repos :
  forallb timestamp_ok repos = true →
  ∃ sd, for_each count_stars repos
          (Analysis.stars_distribution (empty_analysis (length repos))) = Ok sd ∧
        analyze_results self {| items := Some repos |} =
        Ok (sort_analysis (gathered repos sd)).
Proof.
  intros Hok.
  destruct (analyze_loop repos (empty_analysis (length repos)) Hok eq_refl)
    as (sd & Hsd & Hloop).
  exists sd. split; [done |]. unfold analyze_results. simpl. by rewrite Hloop.
Qed.

Lemma sorted_dict {A} (le : string * A → string * A → bool) (d : list (string * A)) :
  NoDup d.*1 → dict_of (sorted le d) = sorted le d.
Proof. intros Hnd. apply dict_of_NoDup. by rewrite sorted_perm. Qed.

Lemma total_perm (d1 d2 : list (string * Z)) : d1 ≡ₚ d2 → total d1 = total d2.
Proof.
  unfold total. induction 1; simpl; lia.
Qed.

(** A timestamp that [strptime] rejects makes the aggregator raise. *)
Lemma analyze_results_raises self repos :
  forallb timestamp_ok repos = false →
  ∃ e, analyze_results self {| items := Some repos |} = Raise e.
Proof.
  intros Hbad. unfold analyze_results. simpl.
  assert (Hloop : ∀ a, ∃ e, for_each analyze_repo repos a = Raise e).
  { induction repos as [|r repos IH]; intros a; [done |].
    simpl in Hbad. cbn [for_each]. unfold analyze_repo at 1.
    destruct (timestamp_ok r) eqn:Hr; simpl in Hbad.
    - destruct (count_created (Analysis.created_dates a) r); simpl; [| eauto].
      destruct (count_stars (Analysis.stars_distribution a) r); simpl; [| eauto].
      by apply IH.
    - unfold timestamp_ok in Hr. unfold count_created.
      destruct (Repo.created_at r); [| done].
      destruct (strptime_year s); [done |]. simpl. eauto. }
  destruct (Hloop (empty_analysis (length repos))) as [e ->]. simpl. eauto.
Qed.

End aggregator.

(* ===================================================================== *)
(** * Years as strings                                                    *)
(* ===================================================================== *)

Section years.
Import Py.

Lemma str_int_successor n :
  1000 ≤ n < 9999 → String.compare (str_int n) (str_int (n + 1)) = Lt.
Proof.
  intros Hn.
  assert (Hall : forallb (λ m, match String.compare (str_int m) (str_int (m + 1)) with
                               | Lt => true
                               | _ => false
                               end) (seqZ 1000 8999) = true) by (vm_compute; reflexivity).
  rewrite forallb_forall in Hall. specialize (Hall n).
  destruct (String.compare (str_int n) (str_int (n + 1))); [| done |];
    exfalso; (assert (false = true) as Habs; [| done]); apply Hall;
    apply list_elem_of_In, elem_of_seqZ; lia.
Qed.

(** On years of four digits the order of the decimal strings is the order
    of the numbers. *)
Lemma str_int_monotone a b :
  1000 ≤ a → a < b → b ≤ 9999 → String.compare (str_int a) (str_int b) = Lt.
Proof.
  intros Ha Hab Hb.
  assert (Hgen : ∀ k : nat, a + 1 + Z.of_nat k ≤ 9999 →
            String.compare (str_int a) (str_int (a + 1 + Z.of_nat k)) = Lt).
  { induction k as [|k IH]; intros Hk.
    - replace (a + 1 + Z.of_nat 0) with (a + 1) by lia.
      apply str_int_successor. lia.
    - eapply compare_lt_trans; [apply IH; lia |].
      replace (a + 1 + Z.of_nat (S k)) with (a + 1 + Z.of_nat k + 1) by lia.
      apply str_int_successor. lia. }
  specialize (Hgen (Z.to_nat (b - a - 1))).
  replace (a + 1 + Z.of_nat (Z.to_nat (b - a - 1))) with b in Hgen by lia.
  apply Hgen. lia.
Qed.

Lemma str_int_lt_inv a b :
  1000 ≤ a ≤ 9999 → 1000 ≤ b ≤ 9999 →
  String.compare (str_int a) (str_int b) = Lt → a < b.
Proof.
  intros Ha Hb Hlt. destruct (Z.lt_trichotomy a b) as [? | [-> | Hgt]]; [done | |].
  - by rewrite compare_refl in Hlt.
  - pose proof (str_int_monotone b a ltac:(lia) Hgt ltac:(lia)) as Hba.
    apply compare_gt_lt in Hba. congruence.
Qed.

End years.

(* ===================================================================== *)
(** * Properties of the aggregate statistics                              *)
(* ===================================================================== *)

Section statistics.
Context `{Lib}.
Import Py Search.
Implicit Types (repos : list Repo.t) (self : GithubExplorer).

Lemma dict_from_gets {V} (dflt : V) (d : list (string * V)) :
  NoDup d.*1 → d = (λ k, (k, default dflt (get k d))) <$> d.*1.
Proof.
  induction d as [|[k v] d IH]; [done |].
  simpl. intros Hnd. apply NoDup_cons in Hnd as [Hnin Hnd].
  rewrite decide_True by done. simpl. f_equal.
  rewrite IH at 1 by done. apply list_fmap_ext.
  intros i k' Hk'. f_equal. destruct (decide (k' = k)) as [-> |]; [| done].
  exfalso. apply Hnin. by eapply list_elem_of_lookup_2.
Qed.

Lemma bucket_names_NoDup : NoDup bucket_names.
Proof. apply (bool_decide_unpack _). by vm_compute. Qed.

Lemma count_if_app {A} (f : A → bool) (l1 l2 : list A) :
  count_if f (l1 ++ l2) = count_if f l1 + count_if f l2.
Proof.
  induction l1 as [|x l1 IH]; [unfold count_if; simpl; lia |].
  simpl. rewrite !count_if_cons, IH. lia.
Qed.

(** The star histogram returned by the aggregator. *)
Lemma analyze_results_stars self repos :
  forallb timestamp_ok repos = true →
  ∃ analysis, analyze_results self {| items := Some repos |} = Ok analysis ∧
    Analysis.total_count analysis = Z.of_nat (length repos) ∧
    keys (Analysis.stars_distribution analysis) = bucket_names ∧
    total (Analysis.stars_distribution analysis) = Z.of_nat (length repos) ∧
    ∀ name, name ∈ bucket_names →
      get name (Analysis.stars_distribution analysis) =
      Some (count_if (λ r, in_bucket name (stars_of r)) repos).
Proof.
  intros Hok. destruct (analyze_results_gathered self repos Hok) as (sd & Hsd & Hres).
  destruct (count_stars_loop repos
              (Analysis.stars_distribution (empty_analysis (length repos)))
              eq_refl) as (sd' & Hsd' & Hkeys & Htot & Hget).
  simpl in Hsd, Hsd'. rewrite Hsd in Hsd'. injection Hsd' as <-.
  eexists. split; [exact Hres |]. simpl. split_and!; [done | done | |].
  - rewrite Htot. cbn. lia.
  - intros name Hname. rewrite Hget.
    unfold bucket_names in Hname. rewrite !elem_of_cons in Hname.
    destruct Hname as [-> | [-> | [-> | [-> | [-> | [-> | Hnil]]]]]];
      [simpl; do 2 f_equal; lia .. | by apply elem_of_nil in Hnil].
Qed.

(** C2. When the timestamps parse, the aggregator returns, and in the
    result: every record lies in the range of exactly one bucket, the one
    picked by the chain of closed upper bounds; the histogram has the six
    keys in their fixed order, zero or not; each bucket holds the number of
    records in its range; and the six counts add up to [total_count], the
    number of records.  For star counts 5, 50 and 2000 the histogram is
    1, 1, 0, 0, 0, 1 and [total_count] is 3. *)
Theorem star_buckets_complete self repos :
  forallb timestamp_ok repos = true →
  ∃ analysis, analyze_results self {| items := Some repos |} = Ok analysis ∧
    let dist := Analysis.stars_distribution analysis in
    (∀ r, r ∈ repos →
       star_bucket (stars_of r) ∈ bucket_names ∧
       ∀ name, in_bucket name (stars_of r) = true ↔ name = star_bucket (stars_of r)) ∧
    keys dist = bucket_names ∧
    (∀ name, name ∈ bucket_names →
       get name dist = Some (count_if (λ r, in_bucket name (stars_of r)) repos)) ∧
    total dist = Analysis.total_count analysis ∧
    Analysis.total_count analysis = Z.of_nat (length repos) ∧
    (stars_of <$> repos = [5; 50; 2000] →
       Analysis.total_count analysis = 3 ∧
       dist = [("0-10", 1); ("11-50", 1); ("51-100", 0); ("101-500", 0);
               ("501-1000", 0); ("1001+", 1)]).
Proof.
  intros Hok.
  destruct (analyze_results_stars self repos Hok)
    as (analysis & Hres & Hcount & Hkeys & Htot & Hget).
  exists analysis. split; [done |]. simpl. split_and!; try done.
  - intros r _. split; [apply star_bucket_in_names |].
    intros name. rewrite in_bucket_star_bucket. split; done.
  - lia.
  - intros Hstars.
    destruct repos as [|r1 [|r2 [|r3 [|]]]]; try done.
    simpl in Hstars. injection Hstars as H1 H2 H3. split; [by rewrite Hcount |].
    rewrite (dict_from_gets 0 (Analysis.stars_distribution analysis))
      by (unfold keys in Hkeys; rewrite Hkeys; apply bucket_names_NoDup).
    unfold keys in Hkeys. rewrite Hkeys. unfold bucket_names. simpl.
    rewrite !Hget by (unfold bucket_names; rewrite !elem_of_cons; auto 10).
    rewrite !count_if_cons, H1, H2, H3. done.
Qed.

End statistics.

(** The aggregator on three records with 5, 50 and 2000 stars. *)
Lemma star_buckets_complete_witness :
  ∃ analysis,
    @Search.analyze_results Sample.lib Sample.explorer
      {| items := Some Sample.three_repos |} = Py.Ok analysis ∧
    Analysis.total_count analysis = 3 ∧
    Analysis.stars_distribution analysis =
      [("0-10", 1); ("11-50", 1); ("51-100", 0); ("101-500", 0);
       ("501-1000", 0); ("1001+", 1)].
Proof.
  destruct (@star_buckets_complete Sample.lib Sample.explorer
              Sample.three_repos eq_refl)
    as (analysis & Hres & _ & _ & _ & _ & _ & Hscenario).
  exists analysis. split; [exact Hres |]. apply Hscenario. reflexivity.
Defined.

Section null_language.
Context `{Lib}.
Import Py Search.
Implicit Types (repos : list Repo.t) (self : GithubExplorer).

Lemma length_omap_le {A B} (f : A → option B) (l : list A) :
  (length (omap f l) ≤ length l)%nat.
Proof.
  induction l as [|x l IH]; [done |].
  change (omap f (x :: l)) with
    (match f x with Some y => y :: omap f l | None => omap f l end).
  destruct (f x); simpl; lia.
Qed.

Lemma forallb_middle {A} (f : A → bool) (l1 l2 : list A) x :
  forallb f (l1 ++ x :: l2) = true → forallb f (l1 ++ l2) = true.
Proof.
  rewrite !forallb_app. simpl. intros Hall.
  apply andb_prop in Hall as [H1 H2]. apply andb_prop in H2 as [_ H2].
  by rewrite H1, H2.
Qed.

(** The sums of the three dictionaries of the result. *)
Lemma analyze_results_sums self repos :
  forallb timestamp_ok repos = true →
  ∃ analysis, analyze_results self {| items := Some repos |} = Ok analysis ∧
    Analysis.languages analysis =
      sorted by_count_desc (tally (observed_languages repos) []) ∧
    total (Analysis.languages analysis) =
      Z.of_nat (length (observed_languages repos)) ∧
    total (Analysis.created_dates analysis) =
      Z.of_nat (length (observed_years repos)).
Proof.
  intros Hok. destruct (analyze_results_gathered self repos Hok) as (sd & Hsd & Hres).
  eexists. split; [exact Hres |]. simpl.
  rewrite !sorted_dict by apply tally_NoDup.
  rewrite !(total_perm _ _ (sorted_perm _ _)), !total_tally.
  split_and!; [done | unfold total; simpl; lia..].
Qed.

(** C3. When the timestamps parse, the aggregator returns, and in the
    result the counts of [languages] add up to the number of records with a
    language, at most [total_count]; those of [created_dates] add up to at
    most [total_count]; those of [stars_distribution] add up to
    [total_count].  A record without a language leaves [languages] as it is
    without that record, while it adds one to [total_count] and one to the
    count of its star bucket. *)
Theorem null_language_excluded self repos :
  forallb timestamp_ok repos = true →
  ∃ analysis, analyze_results self {| items := Some repos |} = Ok analysis ∧
    total (Analysis.languages analysis) =
      count_if (λ r, bool_decide (is_Some (counted_language r))) repos ∧
    total (Analysis.languages analysis) ≤ Analysis.total_count analysis ∧
    total (Analysis.created_dates analysis) ≤ Analysis.total_count analysis ∧
    total (Analysis.stars_distribution analysis) = Analysis.total_count analysis ∧
    ∀ before r after,
      repos = before ++ r :: after → Repo.language r = None →
      ∃ without,
        analyze_results self {| items := Some (before ++ after) |} = Ok without ∧
        Analysis.languages analysis = Analysis.languages without ∧
        Analysis.total_count analysis = Analysis.total_count without + 1 ∧
        ∃ n, get (star_bucket (stars_of r))
                 (Analysis.stars_distribution without) = Some n ∧
             get (star_bucket (stars_of r))
                 (Analysis.stars_distribution analysis) = Some (n + 1).
Proof.
  intros Hok.
  destruct (analyze_results_sums self repos Hok)
    as (analysis & Hres & Hlangs & Hlang_total & Hdate_total).
  destruct (analyze_results_stars self repos Hok)
    as (analysis' & Hres' & Hcount & Hkeys & Hstar_total & Hget).
  rewrite Hres in Hres'. injection Hres' as <-.
  exists analysis. split; [done |]. split_and!.
  - rewrite Hlang_total. unfold observed_languages, count_if.
    clear. induction repos as [|r repos IH]; [done |].
    change (omap counted_language (r :: repos)) with
      (match counted_language r with
       | Some y => y :: omap counted_language repos
       | None => omap counted_language repos
       end).
    simpl List.filter. destruct (counted_language r); simpl in *; lia.
  - rewrite Hlang_total, Hcount. unfold observed_languages.
    pose proof (length_omap_le counted_language repos). lia.
  - rewrite Hdate_total, Hcount. unfold observed_years. rewrite length_fmap.
    pose proof (length_omap_le created_year repos). lia.
  - lia.
  - intros before r after -> Hnull.
    pose proof (forallb_middle _ _ _ _ Hok) as Hok'.
    destruct (analyze_results_sums self _ Hok')
      as (without & Hwres & Hwlangs & _ & _).
    destruct (analyze_results_stars self _ Hok')
      as (without' & Hwres' & Hwcount & _ & _ & Hwget).
    rewrite Hwres in Hwres'. injection Hwres' as <-.
    exists without. split_and!; [done | | |].
    + rewrite Hlangs, Hwlangs. do 2 f_equal. unfold observed_languages.
      rewrite !omap_app. simpl. unfold counted_language at 2. by rewrite Hnull.
    + rewrite Hcount, Hwcount, !length_app. simpl. lia.
    + eexists. split; [apply Hwget, star_bucket_in_names |].
      rewrite Hget by apply star_bucket_in_names. f_equal.
      rewrite !count_if_app, count_if_cons.
      rewrite (proj2 (in_bucket_star_bucket _ (stars_of r)) eq_refl). lia.
Qed.

End null_language.

(** The aggregator on three records, one of them without a language. *)
Lemma null_language_excluded_witness :
  ∃ analysis,
    @Search.analyze_results Sample.lib Sample.explorer
      {| items := Some Sample.three_repos |} = Py.Ok analysis ∧
    total (Analysis.languages analysis) = 2 ∧
    total (Analysis.stars_distribution analysis) = Analysis.total_count analysis.
Proof.
  destruct (@null_language_excluded Sample.lib Sample.explorer
              Sample.three_repos eq_refl)
    as (analysis & Hres & Hlangs & _ & _ & Hstars & _).
  exists analysis. split; [exact Hres |]. split; [| exact Hstars].
  rewrite Hlangs. reflexivity.
Defined.

Section sort_order.
Context `{Lib}.
Import Py Search.
Implicit Types (repos : list Repo.t) (self : GithubExplorer).

(** The three dictionaries of the result, as sorted tallies. *)
Lemma analyze_results_sorted self repos :
  forallb timestamp_ok repos = true →
  ∃ analysis, analyze_results self {| items := Some repos |} = Ok analysis ∧
    Analysis.languages analysis =
      sorted by_count_desc (tally (observed_languages repos) []) ∧
    Analysis.topics analysis =
      sorted by_count_desc (tally (observed_topics repos) []) ∧
    Analysis.created_dates analysis =
      sorted tuple_le (tally (observed_years repos) []).
Proof.
  intros Hok. destruct (analyze_results_gathered self repos Hok) as (sd & Hsd & Hres).
  eexists. split; [exact Hres |]. simpl.
  by rewrite !sorted_dict by apply tally_NoDup.
Qed.

(** A sorted tally: falling counts, ties in the order of first appearance. *)
Lemma sorted_tally_order (ks : list string) i j a b ca cb :
  (i < j)%nat →
  sorted by_count_desc (tally ks []) !! i = Some (a, ca) →
  sorted by_count_desc (tally ks []) !! j = Some (b, cb) →
  cb ≤ ca ∧
  (ca = cb → ∃ p q, (p < q)%nat ∧ first_at (λ k, k) ks p a
                    ∧ first_at (λ k, k) ks q b).
Proof.
  intros Hij Hi Hj.
  destruct (sorted_counts _ _ _ _ _ Hij Hi Hj) as [Hle Htie].
  split; [done |]. intros Heq.
  destruct (Htie Heq) as (i' & j' & Hij' & Hi' & Hj').
  apply (tally_order ks i' j'); [done | |]; rewrite list_lookup_fmap.
  - by rewrite Hi'.
  - by rewrite Hj'.
Qed.

Lemma observed_years_elem repos k :
  k ∈ observed_years repos →
  ∃ r year, r ∈ repos ∧ created_year r = Some year ∧ k = str_int year.
Proof.
  unfold observed_years. intros Hk.
  apply list_elem_of_fmap in Hk as (year & -> & Hyear).
  apply list_elem_of_omap in Hyear as (r & Hr & Hy). eauto.
Qed.

(** C4. When the timestamps parse, the aggregator returns, and in the
    result: along [languages] and along [topics] the counts never rise, and
    of two entries with the same count the one that appears first in the
    records comes first; along [created_dates] the keys ascend as strings,
    and when all the years have four digits they ascend as numbers. *)
Theorem analysis_sort_order self repos :
  forallb timestamp_ok repos = true →
  ∃ analysis, analyze_results self {| items := Some repos |} = Ok analysis ∧
    (∀ i j a b ca cb, (i < j)%nat →
       Analysis.languages analysis !! i = Some (a, ca) →
       Analysis.languages analysis !! j = Some (b, cb) →
       cb ≤ ca ∧
       (ca = cb → ∃ p q, (p < q)%nat
                   ∧ first_at (λ k, k) (observed_languages repos) p a
                   ∧ first_at (λ k, k) (observed_languages repos) q b)) ∧
    (∀ i j a b ca cb, (i < j)%nat →
       Analysis.topics analysis !! i = Some (a, ca) →
       Analysis.topics analysis !! j = Some (b, cb) →
       cb ≤ ca ∧
       (ca = cb → ∃ p q, (p < q)%nat
                   ∧ first_at (λ k, k) (observed_topics repos) p a
                   ∧ first_at (λ k, k) (observed_topics repos) q b)) ∧
    (∀ i j a b ca cb, (i < j)%nat →
       Analysis.created_dates analysis !! i = Some (a, ca) →
       Analysis.created_dates analysis !! j = Some (b, cb) →
       String.compare a b = Lt ∧
       ((∀ r year, r ∈ repos → created_year r = Some year →
           1000 ≤ year ≤ 9999) →
        ∃ ya yb, a = str_int ya ∧ b = str_int yb ∧ ya < yb)).
Proof.
  intros Hok.
  destruct (analyze_results_sorted self repos Hok)
    as (analysis & Hres & Hlangs & Htopics & Hdates).
  exists analysis. split; [done |]. rewrite Hlangs, Htopics, Hdates. split_and!.
  - intros i j a b ca cb. apply sorted_tally_order.
  - intros i j a b ca cb. apply sorted_tally_order.
  - intros i j a b ca cb Hij Hi Hj.
    pose proof (sorted_tuples_keys _ _ _ _ _ (tally_NoDup _) Hij Hi Hj) as Hlt.
    simpl in Hlt. split; [done |]. intros Hrange.
    assert (Hyear : ∀ k c n, sorted tuple_le (tally (observed_years repos) []) !! n
                             = Some (k, c) →
              ∃ y, k = str_int y ∧ 1000 ≤ y ≤ 9999).
    { intros k c n Hn.
      assert (Hin : k ∈ (sorted tuple_le (tally (observed_years repos) [])).*1).
      { apply list_elem_of_fmap. exists (k, c). split; [done |].
        by eapply list_elem_of_lookup_2. }
      rewrite sorted_perm in Hin. apply (proj1 (tally_elem _ _)) in Hin.
      apply observed_years_elem in Hin as (r & y & Hr & Hy & ->).
      exists y. split; [done |]. by eapply Hrange. }
    destruct (Hyear _ _ _ Hi) as (ya & -> & Hya).
    destruct (Hyear _ _ _ Hj) as (yb & -> & Hyb).
    exists ya, yb. split_and!; [done | done |]. by apply str_int_lt_inv.
Qed.

End sort_order.

(** The aggregator on three records created in 2021, 2019 and 2023. *)
Lemma analysis_sort_order_witness :
  ∃ analysis,
    @Search.analyze_results Sample.lib Sample.explorer
      {| items := Some Sample.three_repos |} = Py.Ok analysis ∧
    ∀ i j a b ca cb, (i < j)%nat →
      Analysis.created_dates analysis !! i = Some (a, ca) →
      Analysis.created_dates analysis !! j = Some (b, cb) →
      String.compare a b = Lt.
Proof.
  destruct (@analysis_sort_order Sample.lib Sample.explorer
              Sample.three_repos eq_refl)
    as (analysis & Hres & _ & _ & Hdates).
  exists analysis. split; [exact Hres |].
  intros i j a b ca cb Hij Hi Hj. exact (proj1 (Hdates i j a b ca cb Hij Hi Hj)).
Defined.

(* ===================================================================== *)
(** * Two runs of the aggregator                                          *)
(* ===================================================================== *)




(* ===================================================================== *)
(** * The pie chart of the star histogram                                 *)
(* ===================================================================== *)

Section pie_chart.
Import Py Visualize.

Lemma keep_positive_fold (d : list (string * Z)) (acc : list string * list Z) :
  foldl keep_positive acc d =
  (acc.1 ++ (filter (λ kv, 0 < kv.2) d).*1,
   acc.2 ++ (filter (λ kv, 0 < kv.2) d).*2).
Proof.
  revert acc. induction d as [|[label size] d IH]; intros [labels sizes]; simpl.
  - by rewrite !app_nil_r.
  - rewrite IH, filter_cons. unfold keep_positive. simpl.
    destruct (Z.ltb_spec 0 size).
    + rewrite decide_True by done. simpl. by rewrite <- !app_assoc.
    + rewrite decide_False by (simpl; lia). done.
Qed.

Lemma total_values (d : list (string * Z)) : foldr Z.add 0 d.*2 = total d.
Proof.
  unfold total. induction d as [|kv d IH]; [done |].
  rewrite fmap_cons. cbn [foldr]. by rewrite IH.
Qed.

Lemma filter_nonneg_total (d : list (string * Z)) :
  Forall (λ kv, 0 ≤ kv.2) d → total (filter (λ kv, 0 < kv.2) d) = total d.
Proof.
  induction 1 as [|kv d Hkv Hd IH]; [done |].
  rewrite filter_cons. destruct (decide (0 < kv.2)); unfold total in *; simpl; lia.
Qed.

(** C7. The pie chart is drawn from exactly the entries of the star
    histogram with a count above zero, in their order, label by label and
    size by size; every entry with a zero count is left out.  The chart asks
    for percentage labels, and the sizes it is given add up to the total of
    the non-zero counts (the whole total when no count is negative). *)
Theorem pie_omits_zero_buckets (self : ResultsVisualizer) :
  let stars := Analysis.stars_distribution (analysis self) in
  ∃ sizes labels,
    stars_chart self = Pie sizes labels "%1.1f%%" ∧
    zip labels sizes = filter (λ kv, 0 < kv.2) stars ∧
    length labels = length sizes ∧
    (∀ label size, (label, size) ∈ zip labels sizes ↔
                   (label, size) ∈ stars ∧ 0 < size) ∧
    (∀ label, (label, 0) ∈ stars → (label, 0) ∉ zip labels sizes) ∧
    Forall (λ size, 0 < size) sizes ∧
    foldr Z.add 0 sizes = total (filter (λ kv, 0 < kv.2) stars) ∧
    (Forall (λ kv, 0 ≤ kv.2) stars → foldr Z.add 0 sizes = total stars).
Proof.
  simpl. set (stars := Analysis.stars_distribution (analysis self)).
  set (kept := filter (λ kv : string * Z, 0 < kv.2) stars).
  assert (Hchart : stars_chart self = Pie kept.*2 kept.*1 "%1.1f%%").
  { unfold stars_chart, keys, values. fold stars.
    by rewrite zip_fst_snd, keep_positive_fold. }
  assert (Hzip : zip kept.*1 kept.*2 = kept) by apply zip_fst_snd.
  exists kept.*2, kept.*1. rewrite Hzip. split_and!; [done | done | | | | | |].
  - by rewrite !length_fmap.
  - intros label size. unfold kept. rewrite list_elem_of_filter. simpl. tauto.
  - intros label _ Hin. unfold kept in Hin.
    apply list_elem_of_filter in Hin as [Hpos _]. simpl in Hpos. lia.
  - apply Forall_fmap. unfold kept. apply Forall_forall. intros kv Hkv.
    apply list_elem_of_filter in Hkv as [Hpos _]. done.
  - apply total_values.
  - intros Hnonneg. rewrite total_values. by apply filter_nonneg_total.
Qed.

End pie_chart.

Example pie_of_sample_statistics :
  Visualize.stars_chart {| Visualize.output_dir := "visualizations";
                           Visualize.analysis := Sample.statistics |}
  = Pie [3] ["11-50"] "%1.1f%%".
Proof. reflexivity. Qed.

(* ===================================================================== *)
(** * The query loop                                                      *)
(* ===================================================================== *)

Section query_loop.
Context `{Lib}.
Import Py IO Search.


(** What [find_llm_literature_projects] returns is the list gathered by
    the query loop, without its duplicates. *)
Lemma find_returns_unique (self : GithubExplorer) (page per_page : Z)
  (w w' : World) (all_results : list Repo.t) :
  run_queries self page per_page queries [] w = (Ok all_results, w') →
  find_llm_literature_projects self page per_page w
    = (Ok {| items := Some (remove_duplicates all_results) |}, w').
Proof.
  intros Hrun. unfold find_llm_literature_projects.
  unfold mbind, M_bind, io_bind. by rewrite Hrun.
Qed.

End query_loop.


(* ===================================================================== *)
(** * Creating directories                                                *)
(* ===================================================================== *)

Section file_system.
Import Py OS.
Implicit Types (cur : gmap string node) (names : list string).

(** ** What a path names, by the walk along its names *)

Lemma stat_same_walk (fs fs' : gmap string node) path :
  walk fs' (components path) = walk fs (components path) →
  stat fs' path = stat fs path.
Proof. unfold stat. by intros ->. Qed.

Lemma stat_file (fs : gmap string node) path content :
  stat fs path = IsFile content ↔
  path ≠ "" ∧ ending_of path = Plain ∧ walk fs (components path) = IsFile content.
Proof.
  unfold stat. destruct (decide (path = "")).
  - split; [done | by intros [? _]].
  - destruct (walk fs (components path)), (ending_of path);
      (split; [intros Hx | intros (_ & He & Hw)]); try done; try congruence.
Qed.

Lemma stat_missing (fs : gmap string node) path :
  stat fs path = NoEntry ↔ path = "" ∨ walk fs (components path) = NoEntry.
Proof.
  unfold stat. destruct (decide (path = "")).
  - split; auto.
  - destruct (walk fs (components path)), (ending_of path);
      (split; [intros Hx | intros [Hx | Hx]]); try done; by right.
Qed.

Lemma isdir_walk (fs : gmap string node) path :
  isdir fs path = true ↔ path ≠ "" ∧ walk fs (components path) = IsDir.
Proof.
  unfold isdir, stat. destruct (decide (path = "")).
  - split; [done | by intros [? _]].
  - destruct (walk fs (components path)), (ending_of path);
      (split; [intros Hx | intros [_ Hx]]); done.
Qed.

(** ** Creating directories *)

Lemma walk_chain_self names : walk (chain names) names = IsDir.
Proof.
  induction names as [|name rest IH]; [done |].
  simpl. by rewrite lookup_singleton_eq.
Qed.

Lemma walk_chain names probe :
  walk (chain names) probe = IsDir ∨ walk (chain names) probe = NoEntry.
Proof.
  revert probe. induction names as [|name rest IH]; intros [|x probe]; simpl; auto.
  destruct (decide (name = x)) as [-> |].
  - rewrite lookup_singleton_eq. apply IH.
  - rewrite lookup_singleton_ne by done. auto.
Qed.

(** After [mkdirs] the path is a directory. *)
Lemma mkdirs_isdir path dot depth cur names cur' :
  mkdirs path dot depth cur names = Ok cur' → walk cur' names = IsDir.
Proof.
  revert depth cur cur'.
  induction names as [|name rest IH]; intros depth cur cur'; [done |].
  simpl. destruct (cur !! name) as [[content | children] |] eqn:Hname.
  - by destruct rest, dot.
  - destruct (mkdirs path dot (S depth) children rest) as [children' |] eqn:Hrec;
      [| done].
    simpl. intros [= <-]. rewrite lookup_insert_eq. by eapply IH.
  - intros [= <-]. rewrite lookup_insert_eq. apply walk_chain_self.
Qed.

(** [mkdirs] changes the status of no path that named something, and what
    it adds are directories. *)
Lemma mkdirs_frame path dot depth cur names cur' probe :
  mkdirs path dot depth cur names = Ok cur' →
  (walk cur probe ≠ NoEntry → walk cur' probe = walk cur probe) ∧
  (walk cur probe = NoEntry →
   walk cur' probe = NoEntry ∨ walk cur' probe = IsDir).
Proof.
  revert depth cur cur' probe.
  induction names as [|name rest IH]; intros depth cur cur' probe; [done |].
  simpl. destruct (cur !! name) as [[content | children] |] eqn:Hname.
  - by destruct rest, dot.
  - destruct (mkdirs path dot (S depth) children rest) as [children' |] eqn:Hrec;
      [| done].
    simpl. intros [= <-]. destruct probe as [|x probe]; [done |]. simpl.
    destruct (decide (name = x)) as [<- |].
    + rewrite lookup_insert_eq, Hname. by eapply IH.
    + rewrite lookup_insert_ne by done. tauto.
  - intros [= <-]. destruct probe as [|x probe]; [done |]. simpl.
    destruct (decide (name = x)) as [<- |].
    + rewrite lookup_insert_eq, Hname. split; [done |]. intros _.
      destruct (walk_chain rest probe); auto.
    + rewrite lookup_insert_ne by done. tauto.
Qed.

(** A missing path with at least one name can be created. *)
Lemma mkdirs_succeeds path dot depth cur names :
  names ≠ [] → walk cur names = NoEntry →
  ∃ cur', mkdirs path dot depth cur names = Ok cur'.
Proof.
  revert depth cur. induction names as [|name rest IH]; intros depth cur Hne;
    [done |].
  simpl. destruct (cur !! name) as [[content | children] |] eqn:Hname.
  - by destruct rest.
  - intros Hwalk. destruct rest as [|name' rest']; [done |].
    destruct (IH (S depth) children ltac:(done) Hwalk) as [children' ->].
    simpl. eauto.
  - eauto.
Qed.

Lemma makedirs_isdir (fs fs' : gmap string node) path :
  makedirs fs path = Ok fs' → isdir fs' path = true.
Proof.
  unfold makedirs. destruct (decide (path = "")); [done |].
  intros Hmk. apply isdir_walk. split; [done |]. by eapply mkdirs_isdir.
Qed.

(** [os.makedirs] creates no regular file and touches none. *)
Lemma makedirs_files (fs fs' : gmap string node) path probe content :
  makedirs fs path = Ok fs' →
  stat fs' probe = IsFile content ↔ stat fs probe = IsFile content.
Proof.
  unfold makedirs. destruct (decide (path = "")); [done |].
  intros Hmk. rewrite !stat_file.
  destruct (mkdirs_frame _ _ _ _ _ _ (components probe) Hmk) as [Hkeep Hnew].
  destruct (walk fs (components probe)) eqn:Hwalk.
  - destruct (Hnew eq_refl) as [-> | ->]; split; by intros (_ & _ & [=]).
  - by rewrite Hkeep.
  - by rewrite Hkeep.
  - by rewrite Hkeep.
Qed.

Lemma walk_chain_missing names probe :
  ¬ probe `prefix_of` names → walk (chain names) probe = NoEntry.
Proof.
  revert probe. induction names as [|name rest IH]; intros [|x probe] Hpre.
  - destruct Hpre. apply prefix_nil.
  - done.
  - destruct Hpre. apply prefix_nil.
  - simpl. destruct (decide (name = x)) as [-> |].
    + rewrite lookup_singleton_eq. apply IH. intros Hp. apply Hpre.
      by apply prefix_cons.
    + by rewrite lookup_singleton_ne.
Qed.

(** A path that named nothing names nothing after [mkdirs] either, unless
    it leads to one of the directories on the way. *)
Lemma mkdirs_keeps_missing path dot depth cur names cur' probe :
  mkdirs path dot depth cur names = Ok cur' →
  walk cur probe = NoEntry → ¬ probe `prefix_of` names →
  walk cur' probe = NoEntry.
Proof.
  revert depth cur cur' probe.
  induction names as [|name rest IH]; intros depth cur cur' probe; [done |].
  simpl. destruct (cur !! name) as [[content | children] |] eqn:Hname.
  - by destruct rest, dot.
  - destruct (mkdirs path dot (S depth) children rest) as [children' |] eqn:Hrec;
      [| done].
    simpl. intros [= <-]. destruct probe as [|x probe]; [done |]. simpl.
    destruct (decide (name = x)) as [<- |].
    + rewrite lookup_insert_eq, Hname. intros Hwalk Hpre.
      eapply IH; [done.. |]. intros Hp. apply Hpre. by apply prefix_cons.
    + by rewrite lookup_insert_ne.
  - intros [= <-]. destruct probe as [|x probe]; [done |]. simpl.
    destruct (decide (name = x)) as [<- |].
    + rewrite lookup_insert_eq. intros _ Hpre. apply walk_chain_missing.
      intros Hp. apply Hpre. by apply prefix_cons.
    + by rewrite lookup_insert_ne.
Qed.

Lemma makedirs_keeps_missing (fs fs' : gmap string node) path probe :
  makedirs fs path = Ok fs' →
  stat fs probe = NoEntry →
  ¬ components probe `prefix_of` components path →
  stat fs' probe = NoEntry.
Proof.
  unfold makedirs. destruct (decide (path = "")); [done |].
  intros Hmk. rewrite !stat_missing. intros [-> | Hwalk] Hpre; [by left |].
  right. by eapply mkdirs_keeps_missing.
Qed.

End file_system.

(* ===================================================================== *)
(** * The constructor and the entry point of the renderer                 *)
(* ===================================================================== *)

(** Runs the sequencing of effects in the goal. *)
Ltac run_io :=
  repeat progress
    (unfold mbind, IO.M_bind, IO.io_bind, mret, IO.M_ret, IO.ret, IO.print,
       IO.sleep, IO.raise, IO.set_fs; simpl).

Section renderer.
Context `{Lib}.
Import Py IO Visualize.

Lemma set_fs_same (w : World) : set_fs w (fs w) = w.
Proof. by destruct w. Qed.

(** The constructor, step by step. *)
Lemma init_steps analysis_file output_dir (w : World) :
  HAS_MATPLOTLIB = true →
  init analysis_file output_dir w =
  match directory_step (fs w) output_dir with
  | Raise e => (Raise e, w)
  | Ok fs1 =>
      (bind (OS.read_file fs1 analysis_file) (λ document,
       bind (json_load document) (λ analysis,
       Ok {| output_dir := output_dir; analysis := analysis |})),
       set_fs w fs1)
  end.
Proof.
  intros Hplt. unfold init, directory_step. rewrite Hplt. simpl.
  unfold mbind, M_bind, io_bind, path_exists, makedirs, read_file, Search.lift,
    mret, M_ret, ret.
  destruct (OS.exists_ (fs w) output_dir); simpl.
  - rewrite set_fs_same. destruct (OS.read_file (fs w) analysis_file); simpl; [| done].
    by destruct (json_load a).
  - destruct (OS.makedirs (fs w) output_dir) as [fs1 | e]; simpl; [| done].
    destruct (OS.read_file fs1 analysis_file); simpl; [| done].
    by destruct (json_load a).
Qed.

Lemma directory_step_files fs0 fs1 output_dir path content :
  directory_step fs0 output_dir = Ok fs1 →
  OS.stat fs1 path = OS.IsFile content ↔ OS.stat fs0 path = OS.IsFile content.
Proof.
  unfold directory_step. destruct (OS.exists_ fs0 output_dir).
  - by intros [= <-].
  - apply makedirs_files.
Qed.

(** C6, amended. With matplotlib present, when the first step of the
    constructor succeeds and the analysis path then names nothing, the
    constructor raises [FileNotFoundError]; [main] catches it, prints the two
    lines that name the missing file and returns normally; and every regular
    file of the final file system was there before with the same content:
    no chart image has been written. *)
Theorem missing_analysis_reported (args : Args) (w : World)
  (fs1 : gmap string OS.node) :
  HAS_MATPLOTLIB = true →
  directory_step (fs w) (args_output_dir args) = Ok fs1 →
  OS.stat fs1 (args_analysis args) = OS.NoEntry →
  init (args_analysis args) (args_output_dir args) w
    = (Raise (FileNotFoundError (args_analysis args)), set_fs w fs1) ∧
  main args w
    = (Ok tt,
       {| fs := fs1;
          console := console w ++
            ["ERROR: Analysis file '" +:+ args_analysis args +:+ "' not found.";
             "Run the search tool with --analyze flag first."];
          slept := slept w |}) ∧
  (∀ path content,
     OS.stat fs1 path = OS.IsFile content ↔ OS.stat (fs w) path = OS.IsFile content).
Proof.
  intros Hplt Hstep Hmissing.
  assert (Hinit : init (args_analysis args) (args_output_dir args) w
            = (Raise (FileNotFoundError (args_analysis args)), set_fs w fs1)).
  { rewrite init_steps, Hstep by done. unfold OS.read_file. by rewrite Hmissing. }
  split_and!; [done | | intros; by eapply directory_step_files].
  unfold main. rewrite Hplt. simpl. unfold try_except.
  unfold mbind at 1, M_bind, io_bind at 1. rewrite Hinit.
  unfold report_error. run_io. by rewrite <- app_assoc.
Qed.

(** C10, amended. With matplotlib present, when the output directory is
    absent and its creation succeeds, the constructor leaves the file system
    with that directory in it, whatever its outcome; and when the analysis
    path names nothing in that file system, the outcome is
    [FileNotFoundError]. *)
Theorem directory_created_before_open (analysis_file output_dir : string)
  (w : World) (fs1 : gmap string OS.node) :
  HAS_MATPLOTLIB = true →
  OS.exists_ (fs w) output_dir = false →
  OS.makedirs (fs w) output_dir = Ok fs1 →
  OS.isdir fs1 output_dir = true ∧
  (init analysis_file output_dir w).2 = set_fs w fs1 ∧
  (OS.stat fs1 analysis_file = OS.NoEntry →
   (init analysis_file output_dir w).1 = Raise (FileNotFoundError analysis_file)).
Proof.
  intros Hplt Habsent Hmk.
  assert (Hstep : directory_step (fs w) output_dir = Ok fs1)
    by (unfold directory_step; by rewrite Habsent).
  rewrite init_steps, Hstep by done. simpl.
  split_and!; [by eapply makedirs_isdir | done |].
  intros Hmissing. unfold OS.read_file. by rewrite Hmissing.
Qed.

(** Without matplotlib the constructor raises before it touches the file
    system. *)
Lemma init_without_matplotlib analysis_file output_dir (w : World) :
  HAS_MATPLOTLIB = false →
  init analysis_file output_dir w
    = (Raise (ImportError "matplotlib is required for visualization"), w).
Proof. intros Hplt. unfold init. by rewrite Hplt. Qed.

End renderer.

(** A missing path that is not the empty path can be created. *)
Lemma makedirs_succeeds (fs0 : gmap string OS.node) (path : string) :
  OS.stat fs0 path = OS.NoEntry → path ≠ "" →
  ∃ fs1, OS.makedirs fs0 path = Py.Ok fs1.
Proof.
  intros Hstat Hne. apply stat_missing in Hstat as [-> | Hwalk]; [done |].
  unfold OS.makedirs. rewrite decide_False by done.
  apply mkdirs_succeeds; [| done]. intros Hnil. by rewrite Hnil in Hwalk.
Qed.

(** The renderer started in an empty directory on a missing analysis. *)
Lemma missing_analysis_reported_witness :
  @Visualize.main Sample.lib
    {| Visualize.args_analysis := "missing.json";
       Visualize.args_output_dir := "visualizations";
       Visualize.args_report := "report.html" |}
    Sample.empty_world
  = (Py.Ok tt,
     {| fs := {[ "visualizations" := OS.Dir ∅ ]};
        console := ["ERROR: Analysis file 'missing.json' not found.";
                    "Run the search tool with --analyze flag first."];
        slept := 0 |}).
Proof.
  exact (proj1 (proj2 (@missing_analysis_reported Sample.lib
    {| Visualize.args_analysis := "missing.json";
       Visualize.args_output_dir := "visualizations";
       Visualize.args_report := "report.html" |}
    Sample.empty_world {[ "visualizations" := OS.Dir ∅ ]}
    eq_refl eq_refl eq_refl))).
Defined.

(** C6 as stated fails when the missing analysis path is the output
    directory: the path does not exist when the renderer starts, the
    constructor creates it as a directory and then fails to open it with
    [IsADirectoryError], and [main] prints the text of that error instead of
    the lines about a missing analysis file. *)
Lemma missing_analysis_counterexample :
  OS.exists_ (fs Sample.empty_world) "out" = false ∧
  @Visualize.init Sample.lib "out" "out" Sample.empty_world
    = (Py.Raise (Py.IsADirectoryError "out"),
       {| fs := {[ "out" := OS.Dir ∅ ]}; console := []; slept := 0 |}) ∧
  @Visualize.main Sample.lib
    {| Visualize.args_analysis := "out";
       Visualize.args_output_dir := "out";
       Visualize.args_report := "report.html" |}
    Sample.empty_world
  = (Py.Ok tt,
     {| fs := {[ "out" := OS.Dir ∅ ]};
        console := ["ERROR: [Errno 21] Is a directory: 'out'"];
        slept := 0 |}).
Proof. split_and!; reflexivity. Qed.

(** The constructor started in an empty directory on a missing analysis. *)
Lemma directory_created_before_open_witness :
  OS.isdir {[ "visualizations" := OS.Dir ∅ ]} "visualizations" = true ∧
  @Visualize.init Sample.lib "missing.json" "visualizations" Sample.empty_world
    = (Py.Raise (Py.FileNotFoundError "missing.json"),
       {| fs := {[ "visualizations" := OS.Dir ∅ ]}; console := []; slept := 0 |}).
Proof.
  destruct (@directory_created_before_open Sample.lib "missing.json"
              "visualizations" Sample.empty_world
              {[ "visualizations" := OS.Dir ∅ ]} eq_refl eq_refl eq_refl)
    as (Hdir & Hworld & Hraise).
  split; [exact Hdir |].
  rewrite (surjective_pairing (Visualize.init _ _ _)).
  rewrite Hworld, (Hraise eq_refl). reflexivity.
Defined.

(** C10 as stated fails in two ways.  With the empty path as output
    directory, [os.makedirs] itself raises [FileNotFoundError]: the error is
    raised and no directory has been created.  With an analysis path that is
    an ancestor of the output directory, the path does not exist at the
    start, and the constructor raises [IsADirectoryError] rather than
    [FileNotFoundError]. *)
Lemma directory_created_counterexample :
  (OS.exists_ (fs Sample.empty_world) "missing.json" = false ∧
   OS.exists_ (fs Sample.empty_world) "" = false ∧
   @Visualize.init Sample.lib "missing.json" "" Sample.empty_world
     = (Py.Raise (Py.FileNotFoundError ""), Sample.empty_world)) ∧
  (OS.exists_ (fs Sample.empty_world) "reports" = false ∧
   (@Visualize.init Sample.lib "reports" "reports/charts" Sample.empty_world).1
     = Py.Raise (Py.IsADirectoryError "reports") ∧
   OS.isdir (fs (@Visualize.init Sample.lib "reports" "reports/charts"
                   Sample.empty_world).2) "reports/charts" = true).
Proof. split_and!; reflexivity. Qed.

(* ===================================================================== *)
(** * The name of the analysis file                                       *)
(* ===================================================================== *)

Section analysis_file.
Import Py Search.

Lemma replace_absent old new s :
  substring_of old s = false → replace old new s = s.
Proof.
  unfold replace. induction s as [|c s IH]; [done |].
  cbn [substring_of replace_from]. intros Hsub.
  apply orb_false_elim in Hsub as [-> Hrest]. by rewrite IH.
Qed.

(** No occurrence of [.json] straddles the end of a stem and the extension
    that follows it. *)
Lemma json_no_overlap b :
  b ≠ "" → starts_with ".json" b = false →
  starts_with ".json" (b +:+ ".json") = false.
Proof.
  assert (Hcons : ∀ c s t, String c s +:+ t = String c (s +:+ t)) by done.
  assert (Hnil : ∀ t, "" +:+ t = t) by done.
  destruct b as [|c1 [|c2 [|c3 [|c4 [|c5 b]]]]]; [done | ..]; intros _;
    rewrite ?Hcons, ?Hnil; cbn -[Ascii.eqb];
    repeat match goal with
           | |- context [Ascii.eqb ?a ?c] =>
               is_var c; destruct (Ascii.eqb_spec a c) as [<- | ?];
               cbn -[Ascii.eqb]
           end; try done; intros _; by vm_compute.
Qed.

(** A name without [.json] is left as it is. *)
Lemma analysis_file_unchanged output :
  substring_of ".json" output = false → analysis_file_of output = output.
Proof. apply replace_absent. Qed.

(** For a stem without [.json], the suffix goes in front of the
    extension. *)
Lemma analysis_file_json_suffix stem :
  substring_of ".json" stem = false →
  analysis_file_of (stem +:+ ".json") = stem +:+ "_analysis.json".
Proof.
  unfold analysis_file_of, replace. induction stem as [|c stem IH]; [done |].
  cbn [substring_of]. intros Hsub. apply orb_false_elim in Hsub as [Hhere Hrest].
  change (String c stem +:+ ".json") with (String c (stem +:+ ".json")).
  cbn [replace_from].
  change (String c (stem +:+ ".json")) with (String c stem +:+ ".json").
  rewrite json_no_overlap by done.
  rewrite IH by done. done.
Qed.

End analysis_file.

(** C5. The name of the analysis file is the output name with every
    occurrence of [.json] replaced by [_analysis.json].  For [x.json] this
    is [x_analysis.json]; a name without [.json] is returned unchanged, so
    that the analysis is written over the records; a name with [.json] in
    the middle is changed there too. *)
Theorem analysis_file_replaces_everywhere :
  Search.analysis_file_of "x.json" = "x_analysis.json" ∧
  Search.analysis_file_of "results.txt" = "results.txt" ∧
  Search.analysis_file_of "runs.json.d/repos.json"
    = "runs_analysis.json.d/repos_analysis.json" ∧
  OS.read_file
    (fs (@Search.main Sample.lib
           {| Search.token := None; Search.output := "results.txt";
              Search.analyze := true; Search.args_per_page := 30;
              Search.args_page := 1 |}
           None Sample.empty_world).2)
    "results.txt"
  = Py.Ok "analysis 4".
Proof. split_and!; by vm_compute. Qed.

(** With the analysis in place the renderer writes the four charts and the
    report below the output directory. *)
Example main_draws_charts :
  let w := {| fs := {[ "repos_analysis.json" := OS.File "analysis 3" ]};
              console := []; slept := 0 |} in
  let w' := (@Visualize.main Sample.lib
               {| Visualize.args_analysis := "repos_analysis.json";
                  Visualize.args_output_dir := "visualizations";
                  Visualize.args_report := "report.html" |} w).2 in
  (λ path, OS.stat (fs w') path) <$>
    ["visualizations/languages.png"; "visualizations/topics.png";
     "visualizations/stars_distribution.png";
     "visualizations/creation_timeline.png"; "visualizations/report.html"]
  = [OS.IsFile "bar"; OS.IsFile "barh"; OS.IsFile "pie"; OS.IsFile "line";
     OS.IsFile "<html>3 2024-05-01</html>"].
Proof. by vm_compute. Qed.

(* ===================================================================== *)
(** * The whole query loop                                                *)
(* ===================================================================== *)

Section pipeline.
Context `{Lib}.
Import Py IO Search.
Implicit Types (self : GithubExplorer) (qs : list string) (w : World).

Lemma search_repositories_answer self per_page page query records lines w :
  answer self per_page page query = Ok (records, lines) →
  ∃ results,
    search_repositories self query "stars" "desc" per_page page w
      = (Ok results,
         {| fs := fs w; console := console w ++ lines; slept := slept w |}) ∧
    default [] (items results) = records.
Proof.
  unfold answer, search_repositories. fold (request_for self query per_page page).
  destruct (requests_get (request_for self query per_page page))
    as [response | e]; [| done].
  destruct (decide (status_code response ≠ 200)).
  - intros [= <- <-]. eexists.
    split; [run_io; by rewrite <- app_assoc | done].
  - destruct (json response) as [results | e]; [| done].
    intros [= <- <-]. exists results. split; [| done].
    rewrite app_nil_r. by destruct w.
Qed.

Lemma search_repositories_raise self per_page page query e w :
  answer self per_page page query = Raise e →
  search_repositories self query "stars" "desc" per_page page w = (Raise e, w).
Proof.
  unfold answer, search_repositories. fold (request_for self query per_page page).
  destruct (requests_get (request_for self query per_page page))
    as [response | e']; [| by intros [= <-]].
  destruct (decide (status_code response ≠ 200)); [done |].
  destruct (json response) as [results | e']; [done | by intros [= <-]].
Qed.

(** The loop over queries that are all answered. *)
Lemma run_queries_answered self per_page page qs all_results w :
  forallb (answered self per_page page) qs = true →
  run_queries self page per_page qs all_results w
  = (Ok (all_results ++ mjoin (found self per_page page <$> qs)),
     {| fs := fs w;
        console := console w ++ mjoin (printed self per_page page <$> qs);
        slept := slept w + 2 * Z.of_nat (length qs) |}).
Proof.
  revert all_results w. induction qs as [|query qs IH]; intros all_results w Hall.
  - simpl. rewrite !app_nil_r, Z.add_0_r. by destruct w.
  - simpl in Hall. apply andb_prop in Hall as [Hq Hqs].
    unfold answered in Hq.
    destruct (answer self per_page page query) as [[records lines] |] eqn:Hans;
      [| done].
    destruct (search_repositories_answer self per_page page query records lines
                {| fs := fs w;
                   console := console w ++ ["Searching for: " +:+ query];
                   slept := slept w |} Hans) as (results & Hsearch & Hitems).
    cbn [run_queries]. unfold mbind at 1, M_bind, io_bind at 1. unfold print at 1.
    unfold mbind at 1, io_bind at 1. rewrite Hsearch.
    unfold mbind at 1, io_bind at 1, sleep at 1.
    rewrite IH by done. cbn [fs console slept].
    assert (found self per_page page query = records) as Hfound
      by (unfold found; by rewrite Hans).
    assert (printed self per_page page query
            = ("Searching for: " +:+ query) :: lines) as Hprinted
      by (unfold printed; by rewrite Hans).
    rewrite !fmap_cons.
    change (mjoin (found self per_page page query :: ?l))
      with (found self per_page page query ++ mjoin l).
    change (mjoin (printed self per_page page query :: ?l))
      with (printed self per_page page query ++ mjoin l).
    rewrite Hfound, Hprinted, <- Hitems. f_equal.
    + f_equal. rewrite app_assoc. f_equal.
      destruct (items results); simpl; [done | by rewrite app_nil_r].
    + f_equal; [| simpl length; lia]. by rewrite <- !app_assoc.
Qed.

(** X1. When every query is answered (by any status, with a body that
    decodes when the status is 200), [find_llm_literature_projects] returns
    the records of the answers with status 200, in query order and without
    duplicates; it prints one [Searching for] line per query, followed by the
    two error lines of a refused query; it sleeps two seconds per query,
    twenty in all; and it leaves the file system alone. *)
Theorem find_gathers_all_answers self per_page page w :
  forallb (answered self per_page page) queries = true →
  find_llm_literature_projects self page per_page w
  = (Ok {| items := Some (remove_duplicates
                            (mjoin (found self per_page page <$> queries))) |},
     {| fs := fs w;
        console := console w ++ mjoin (printed self per_page page <$> queries);
        slept := slept w + 20 |}).
Proof.
  intros Hall. unfold find_llm_literature_projects.
  unfold mbind, M_bind, io_bind. by rewrite run_queries_answered.
Qed.

(** X2. An exception of [requests.get], or a body with status 200 that does
    not decode, ends the loop at once: the exception leaves
    [find_llm_literature_projects], the records gathered from the earlier
    queries are not returned, the later queries are never sent, and there is
    no pause after the failed query. *)
Theorem find_aborts_on_exception self per_page page w before query rest e :
  queries = before ++ query :: rest →
  forallb (answered self per_page page) before = true →
  answer self per_page page query = Raise e →
  find_llm_literature_projects self page per_page w
  = (Raise e,
     {| fs := fs w;
        console := console w ++ mjoin (printed self per_page page <$> before)
                   ++ ["Searching for: " +:+ query];
        slept := slept w + 2 * Z.of_nat (length before) |}).
Proof.
  intros Hsplit Hbefore Hraise. unfold find_llm_literature_projects.
  rewrite Hsplit. clear Hsplit.
  assert (Hgen : ∀ all_results w0,
    run_queries self page per_page (before ++ query :: rest) all_results w0
    = (Raise e,
       {| fs := fs w0;
          console := console w0 ++ mjoin (printed self per_page page <$> before)
                     ++ ["Searching for: " +:+ query];
          slept := slept w0 + 2 * Z.of_nat (length before) |})).
  { induction before as [|q0 before IH]; intros all_results w0.
    - cbn [app run_queries]. unfold mbind at 1, M_bind, io_bind at 1.
      unfold print at 1. unfold mbind at 1, io_bind at 1.
      rewrite (search_repositories_raise _ _ _ _ _ _ Hraise). simpl.
      f_equal. f_equal. lia.
    - simpl in Hbefore. apply andb_prop in Hbefore as [Hq0 Hrest].
      unfold answered in Hq0.
      destruct (answer self per_page page q0) as [[records lines] |] eqn:Hans;
        [| done].
      destruct (search_repositories_answer self per_page page q0 records lines
                  {| fs := fs w0;
                     console := console w0 ++ ["Searching for: " +:+ q0];
                     slept := slept w0 |} Hans) as (results & Hsearch & _).
      cbn [app run_queries]. unfold mbind at 1, M_bind, io_bind at 1.
      unfold print at 1. unfold mbind at 1, io_bind at 1. rewrite Hsearch.
      unfold mbind at 1, io_bind at 1, sleep at 1.
      rewrite IH by done. cbn [fs console slept].
      assert (printed self per_page page q0
              = ("Searching for: " +:+ q0) :: lines) as Hprinted
        by (unfold printed; by rewrite Hans).
      rewrite fmap_cons.
      change (mjoin (printed self per_page page q0 :: ?l))
        with (printed self per_page page q0 ++ mjoin l).
      rewrite Hprinted. f_equal. f_equal; [| simpl length; lia].
      by rewrite <- !app_assoc. }
  unfold mbind, M_bind, io_bind. by rewrite Hgen.
Qed.

End pipeline.

(** The sample service answers every query. *)
Lemma find_gathers_all_answers_witness :
  (@Search.find_llm_literature_projects Sample.lib Sample.explorer 1 30
     Sample.empty_world).1
  = Py.Ok {| items := Some [Sample.novels; Sample.poems; Sample.critic;
                            Sample.verses] |}.
Proof.
  rewrite (@find_gathers_all_answers Sample.lib Sample.explorer 30 1
             Sample.empty_world eq_refl).
  reflexivity.
Defined.

(** Without a network the first query ends the run. *)
Lemma find_aborts_on_exception_witness :
  @Search.find_llm_literature_projects Sample.offline Sample.explorer 1 30
    Sample.empty_world
  = (Py.Raise (Py.RequestException "connection refused"),
     {| fs := ∅; console := ["Searching for: language models literature"];
        slept := 0 |}).
Proof.
  exact (@find_aborts_on_exception Sample.offline Sample.explorer 30 1
           Sample.empty_world [] "language models literature"
           (tail Search.queries) _ eq_refl eq_refl eq_refl).
Defined.

(* ===================================================================== *)
(** * More on the deduplicator                                            *)
(* ===================================================================== *)

Section deduplicator_more.
Import Py Search.
Implicit Types (l : list Repo.t).

Lemma keep_first_distinct l :
  NoDup (Repo.id <$> l) →
  foldl keep_first [] l = (λ r, (Repo.id r, r)) <$> l.
Proof.
  induction l as [|x l IH] using rev_ind; [done |].
  rewrite fmap_app, foldl_app. simpl. intros Hnd.
  apply NoDup_app in Hnd as (Hnd & Hdisj & _). rewrite IH by done.
  unfold keep_first.
  assert (Hnew : Repo.id x ∉ ((λ r, (Repo.id r, r)) <$> l).*1).
  { rewrite <- list_fmap_compose. intros Hin. apply (Hdisj _ Hin).
    apply list_elem_of_here. }
  pose proof Hnew as Hc. apply contains_false in Hc.
  rewrite Hc, setitem_absent by done. by rewrite fmap_app.
Qed.

Lemma remove_duplicates_ids l : NoDup (Repo.id <$> remove_duplicates l).
Proof.
  destruct (keep_first_by_kept Repo.id l) as [Hkeys Hnd _ _ _].
  unfold remove_duplicates, values. change keep_first with (keep_first_by Repo.id).
  by rewrite <- Hkeys.
Qed.

(** X3. A collection whose identifiers are pairwise distinct comes back from
    the deduplicator as it is. *)
Theorem remove_duplicates_distinct l :
  NoDup (Repo.id <$> l) → remove_duplicates l = l.
Proof.
  intros Hnd. unfold remove_duplicates, values.
  rewrite keep_first_distinct by done.
  rewrite <- list_fmap_compose. apply list_fmap_id.
Qed.

(** X4. Removing duplicates a second time changes nothing, and the result
    is never longer than the input. *)
Theorem remove_duplicates_idempotent l :
  remove_duplicates (remove_duplicates l) = remove_duplicates l ∧
  (length (remove_duplicates l) ≤ length l)%nat.
Proof.
  split.
  - unfold remove_duplicates at 1, values.
    rewrite keep_first_distinct by apply remove_duplicates_ids.
    rewrite <- list_fmap_compose. apply list_fmap_id.
  - destruct (keep_first_by_kept Repo.id l) as [_ _ _ Hfirst _].
    unfold remove_duplicates, values. change keep_first with (keep_first_by Repo.id).
    set (out := (foldl (keep_first_by Repo.id) [] l).*2) in *.
    assert (Hsub : out ⊆ l).
    { intros r Hr. apply Hfirst in Hr as [i [Hi _]].
      by eapply list_elem_of_lookup_2. }
    assert (Hnd : NoDup out).
    { pose proof (remove_duplicates_ids l) as Hids.
      unfold remove_duplicates, values in Hids.
      change keep_first with (keep_first_by Repo.id) in Hids.
      by apply NoDup_fmap_1 in Hids. }
    apply submseteq_length. by apply NoDup_submseteq.
Qed.

End deduplicator_more.

(** The three sample records have the identifiers 7, 42 and 9. *)
Lemma remove_duplicates_distinct_witness :
  Search.remove_duplicates Sample.three_repos = Sample.three_repos.
Proof.
  apply remove_duplicates_distinct. apply (bool_decide_unpack _). by vm_compute.
Defined.

(* ===================================================================== *)
(** * The counts of the aggregator, key by key                            *)
(* ===================================================================== *)

Section exact_counts.
Context `{Lib}.
Import Py Search.
Implicit Types (k : string) (d : list (string * Z)) (ks : list string)
  (repos : list Repo.t) (self : GithubExplorer).

Lemma get_Some_iff {V} k (v : V) (d : list (string * V)) :
  NoDup d.*1 → get k d = Some v ↔ (k, v) ∈ d.
Proof.
  intros Hnd. split; [apply get_Some_elem |].
  induction d as [|[k' v'] d IH]; [intros Hin; by apply elem_of_nil in Hin |].
  simpl in Hnd. apply NoDup_cons in Hnd as [Hnin Hnd]. simpl.
  rewrite elem_of_cons. intros [[= -> ->] | Hin].
  - by rewrite decide_True.
  - destruct (decide (k = k')) as [-> |]; [| by apply IH].
    exfalso. apply Hnin. apply list_elem_of_fmap. by exists (k', v).
Qed.

Lemma get_perm {V} k (d d' : list (string * V)) :
  NoDup d.*1 → d ≡ₚ d' → get k d = get k d'.
Proof.
  intros Hnd Hperm.
  assert (Hnd' : NoDup d'.*1) by (by rewrite <- Hperm).
  destruct (get k d) as [v |] eqn:Hd.
  - symmetry. apply get_Some_iff; [done |]. rewrite <- Hperm.
    by apply get_Some_iff.
  - destruct (get k d') as [v' |] eqn:Hd'; [| done].
    apply get_Some_iff in Hd'; [| done]. rewrite <- Hperm in Hd'.
    apply get_Some_iff in Hd'; [| done]. congruence.
Qed.

Lemma occurrences_cons k x ks :
  occurrences k (x :: ks) = (if decide (x = k) then 1 else 0) + occurrences k ks.
Proof.
  unfold occurrences. rewrite count_if_cons.
  destruct (decide (x = k)); [by rewrite bool_decide_eq_true_2
                             | by rewrite bool_decide_eq_false_2].
Qed.

Lemma get_tally k ks d :
  get k (tally ks d) =
  match get k d with
  | Some v => Some (v + occurrences k ks)
  | None => if decide (occurrences k ks = 0) then None
            else Some (occurrences k ks)
  end.
Proof.
  revert d. induction ks as [|x ks IH]; intros d.
  - unfold occurrences, count_if. simpl. destruct (get k d); [f_equal; lia | done].
  - change (tally (x :: ks) d) with (tally ks (count_key x d)).
    rewrite IH, occurrences_cons.
    pose proof (count_if_bounds (λ y, bool_decide (y = k)) ks) as [Hpos _].
    fold (occurrences k ks) in Hpos.
    destruct (decide (x = k)) as [-> | Hne].
    + unfold count_key at 1. rewrite get_setitem_eq. unfold get_default.
      destruct (get k d); simpl.
      * f_equal; lia.
      * rewrite decide_False by lia. f_equal; lia.
    + unfold count_key. rewrite get_setitem_ne by done.
      destruct (get k d); [f_equal; lia |].
      destruct (decide (occurrences k ks = 0)) as [-> | ?].
      * by rewrite decide_True.
      * rewrite decide_False by lia. f_equal; lia.
Qed.

Lemma get_sorted_tally (le : string * Z → string * Z → bool) k ks :
  get k (sorted le (tally ks [])) =
  if decide (occurrences k ks = 0) then None else Some (occurrences k ks).
Proof.
  rewrite <- (get_perm k (tally ks []) _ (tally_NoDup ks))
    by (by rewrite sorted_perm).
  by rewrite get_tally.
Qed.

(** X5. In the result of the aggregator the count of a language is the
    number of records counted under it, the count of a topic is the number
    of times it is listed in the records (twice when a record lists it
    twice), and the count of a year is the number of records created in it;
    a key with no occurrence is absent. *)
Theorem analysis_counts self repos :
  forallb timestamp_ok repos = true →
  ∃ analysis, analyze_results self {| items := Some repos |} = Ok analysis ∧
    ∀ k,
      let entry (n : Z) := if decide (n = 0) then None else Some n in
      get k (Analysis.languages analysis)
        = entry (occurrences k (observed_languages repos)) ∧
      get k (Analysis.topics analysis)
        = entry (occurrences k (observed_topics repos)) ∧
      get k (Analysis.created_dates analysis)
        = entry (occurrences k (observed_years repos)).
Proof.
  intros Hok.
  destruct (analyze_results_sorted self repos Hok)
    as (analysis & Hres & Hlangs & Htopics & Hdates).
  exists analysis. split; [done |]. intros k. simpl.
  rewrite Hlangs, Htopics, Hdates. by rewrite !get_sorted_tally.
Qed.

End exact_counts.

(** Each of the three sample records lists the topic [llm]; none is
    written in Go. *)
Lemma analysis_counts_witness :
  ∃ analysis,
    @Search.analyze_results Sample.lib Sample.explorer
      {| items := Some Sample.three_repos |} = Py.Ok analysis ∧
    Py.get "llm" (Analysis.topics analysis) = Some 3 ∧
    Py.get "Go" (Analysis.languages analysis) = None.
Proof.
  destruct (@analysis_counts Sample.lib Sample.explorer Sample.three_repos eq_refl)
    as (analysis & Hres & Hcounts).
  exists analysis. split; [exact Hres |].
  destruct (Hcounts "llm") as (_ & Htopic & _).
  destruct (Hcounts "Go") as (Hlang & _ & _).
  split; [rewrite Htopic | rewrite Hlang]; reflexivity.
Defined.

(* ===================================================================== *)
(** * When the aggregator fails, and what the renderer makes of its result *)
(* ===================================================================== *)

Section aggregator_more.
Context `{Lib}.
Import Py Search.
Implicit Types (repos : list Repo.t) (self : GithubExplorer).

Lemma for_each_app {A S} (body : S → A → result S) (l1 l2 : list A) (acc : S) :
  for_each body (l1 ++ l2) acc = bind (for_each body l1 acc) (for_each body l2).
Proof.
  revert acc. induction l1 as [|x l1 IH]; intros acc; [done |].
  simpl. destruct (body acc x); simpl; [apply IH | done].
Qed.

(** X6. Without an [items] key the aggregator raises [KeyError]; and the
    first record whose creation timestamp [strptime] rejects makes it raise
    the exception of [strptime], whatever the other records are: no
    statistics are returned for the records that were fine. *)
Theorem analyze_results_failures self :
  analyze_results self {| items := None |} = Raise (KeyError "items") ∧
  ∀ before r after created_at e,
    forallb timestamp_ok before = true →
    Repo.created_at r = Some created_at →
    strptime_year created_at = Raise e →
    analyze_results self {| items := Some (before ++ r :: after) |} = Raise e.
Proof.
  split; [done |]. intros before r after created_at e Hbefore Hcreated Hraise.
  unfold analyze_results. simpl. rewrite for_each_app.
  destruct (analyze_loop before
              (empty_analysis (length (before ++ r :: after))) Hbefore eq_refl)
    as (sd & _ & ->).
  simpl. unfold analyze_repo at 1, count_created. simpl.
  by rewrite Hcreated, Hraise.
Qed.

Lemma sorted_of_ordered {A} (le : A → A → bool) (l : list A) :
  StronglySorted (λ a b, le a b = true) l → sorted le l = l.
Proof.
  induction 1 as [|x l Hs IH Hall]; [done |]. simpl. rewrite IH.
  destruct l as [|y l]; [done |]. simpl.
  apply Forall_cons in Hall as [-> _]. done.
Qed.

Lemma observed_languages_truthy repos k :
  k ∈ observed_languages repos → truthy k = true.
Proof.
  unfold observed_languages. intros Hk.
  apply list_elem_of_omap in Hk as (r & _ & Hr). unfold counted_language in Hr.
  destruct (Repo.language r) as [language |]; [| done].
  destruct (truthy language) eqn:Ht; [| done]. by injection Hr as <-.
Qed.

(** X7. On statistics that come from the aggregator the renderer's own
    sort changes nothing and the label [Unknown] is never drawn: the empty
    string is not among the languages, and the two bar charts show the first
    [limit] entries of [languages] and of [topics] as they stand. *)
Theorem charts_of_aggregator_output self repos :
  forallb timestamp_ok repos = true →
  ∃ analysis, analyze_results self {| items := Some repos |} = Ok analysis ∧
    ("" ∉ keys (Analysis.languages analysis)) ∧
    (∀ output_dir limit,
      let visualizer := {| Visualize.output_dir := output_dir;
                           Visualize.analysis := analysis |} in
      (∃ title, Visualize.languages_chart visualizer limit
                = Bar (take limit (keys (Analysis.languages analysis)))
                      (take limit (values (Analysis.languages analysis)))
                      title) ∧
      (∃ title, Visualize.topics_chart visualizer limit
                = BarH (take limit (keys (Analysis.topics analysis)))
                       (take limit (values (Analysis.topics analysis)))
                       title)).
Proof.
  intros Hok.
  destruct (analyze_results_sorted self repos Hok)
    as (analysis & Hres & Hlangs & Htopics & _).
  assert (Htruthy : ∀ k, k ∈ keys (Analysis.languages analysis) → truthy k = true).
  { intros k Hk. unfold keys in Hk. rewrite Hlangs, sorted_perm in Hk.
    apply (proj1 (tally_elem _ _)) in Hk. by eapply observed_languages_truthy. }
  exists analysis. split; [done |]. split.
  - intros Hempty. by apply Htruthy in Hempty.
  - intros output_dir limit. simpl. split; eexists.
    + unfold Visualize.languages_chart. simpl.
      rewrite Hlangs at 1 2.
      rewrite sorted_of_ordered
        by (apply sorted_ordered;
            [apply by_count_desc_total | apply by_count_desc_trans]).
      rewrite <- Hlangs. unfold keys, values. rewrite <- !fmap_take.
      f_equal. apply list_fmap_ext. intros i [k v] Hi. simpl.
      rewrite Htruthy; [done |]. unfold keys. apply list_elem_of_fmap.
      exists (k, v). split; [done |].
      eapply list_elem_of_lookup_2, lookup_take_Some. exact Hi.
    + unfold Visualize.topics_chart. simpl. rewrite Htopics at 1 2.
      rewrite sorted_of_ordered
        by (apply sorted_ordered;
            [apply by_count_desc_total | apply by_count_desc_trans]).
      rewrite <- Htopics. unfold keys, values. by rewrite <- !fmap_take.
Qed.

End aggregator_more.

(** A record dated [yesterday] after two records that are fine. *)
Lemma analyze_results_failures_witness :
  @Search.analyze_results Sample.lib Sample.explorer
    {| items := Some [Sample.poems; Sample.novels; Sample.undated;
                      Sample.critic] |}
  = Py.Raise (Py.ValueError "time data does not match format").
Proof.
  exact (proj2 (@analyze_results_failures Sample.lib Sample.explorer)
           [Sample.poems; Sample.novels] Sample.undated [Sample.critic]
           "yesterday" _ eq_refl eq_refl eq_refl).
Defined.

(** The language chart of the three sample records. *)
Lemma charts_of_aggregator_output_witness :
  ∃ analysis,
    @Search.analyze_results Sample.lib Sample.explorer
      {| items := Some Sample.three_repos |} = Py.Ok analysis ∧
    ∃ title,
      Visualize.languages_chart
        {| Visualize.output_dir := "visualizations";
           Visualize.analysis := analysis |} 10
      = Bar (take 10 (Py.keys (Analysis.languages analysis)))
            (take 10 (Py.values (Analysis.languages analysis))) title.
Proof.
  destruct (@charts_of_aggregator_output Sample.lib Sample.explorer
              Sample.three_repos eq_refl) as (analysis & Hres & _ & Hcharts).
  exists analysis. split; [exact Hres |].
  exact (proj1 (Hcharts "visualizations" 10%nat)).
Defined.

(* ===================================================================== *)
(** * The order of the records                                            *)
(* ===================================================================== *)

Section record_order.
Context `{Lib}.
Import Py Search.
Implicit Types (repos : list Repo.t) (self : GithubExplorer).

Lemma additive_perm {A} (f : list A → Z) (g : A → Z) (l l' : list A) :
  (∀ x l0, f (x :: l0) = g x + f l0) → l ≡ₚ l' → f l = f l'.
Proof.
  intros Hadd. induction 1 as [| x l l' _ IH | x y l | l l' l'' _ IH1 _ IH2].
  - done.
  - by rewrite !Hadd, IH.
  - rewrite !Hadd. lia.
  - by rewrite IH1.
Qed.

Lemma count_if_perm {A} (f : A → bool) (l l' : list A) :
  l ≡ₚ l' → count_if f l = count_if f l'.
Proof.
  apply (additive_perm _ (λ x, if f x then 1 else 0)).
  intros x l0. apply count_if_cons.
Qed.

Lemma occurrences_app k (ks1 ks2 : list string) :
  occurrences k (ks1 ++ ks2) = occurrences k ks1 + occurrences k ks2.
Proof. apply count_if_app. Qed.

Lemma forallb_perm {A} (f : A → bool) (l l' : list A) :
  l ≡ₚ l' → forallb f l = forallb f l'.
Proof.
  induction 1 as [| x l l' _ IH | x y l | l l' l'' _ IH1 _ IH2]; simpl.
  - done.
  - by rewrite IH.
  - by rewrite !andb_assoc, (andb_comm (f y)).
  - by rewrite IH1.
Qed.

(** X8. The statistics do not depend on the order of the records, apart
    from the order of the entries in [languages], [topics] and
    [created_dates]: a collection and a rearrangement of it give the same
    [total_count], the same star histogram, and the same count for every
    language, topic and year. *)
Theorem analysis_of_rearranged self repos repos' :
  repos ≡ₚ repos' →
  forallb timestamp_ok repos = true →
  ∃ analysis analysis',
    analyze_results self {| items := Some repos |} = Ok analysis ∧
    analyze_results self {| items := Some repos' |} = Ok analysis' ∧
    Analysis.total_count analysis = Analysis.total_count analysis' ∧
    Analysis.stars_distribution analysis = Analysis.stars_distribution analysis' ∧
    ∀ k, get k (Analysis.languages analysis) = get k (Analysis.languages analysis') ∧
         get k (Analysis.topics analysis) = get k (Analysis.topics analysis') ∧
         get k (Analysis.created_dates analysis)
           = get k (Analysis.created_dates analysis').
Proof.
  intros Hperm Hok.
  assert (Hok' : forallb timestamp_ok repos' = true)
    by (by rewrite <- (forallb_perm _ _ _ Hperm)).
  destruct (analyze_results_sorted self repos Hok)
    as (analysis & Hres & Hlangs & Htopics & Hdates).
  destruct (analyze_results_sorted self repos' Hok')
    as (analysis' & Hres' & Hlangs' & Htopics' & Hdates').
  destruct (analyze_results_stars self repos Hok)
    as (a & Ha & Hcount & Hkeys & _ & Hget).
  destruct (analyze_results_stars self repos' Hok')
    as (a' & Ha' & Hcount' & Hkeys' & _ & Hget').
  rewrite Hres in Ha. injection Ha as <-.
  rewrite Hres' in Ha'. injection Ha' as <-.
  exists analysis, analysis'. split_and!; [done | done | | |].
  - rewrite Hcount, Hcount'. by rewrite (Permutation_length Hperm).
  - unfold keys in Hkeys, Hkeys'.
    rewrite (dict_from_gets 0 (Analysis.stars_distribution analysis))
      by (rewrite Hkeys; apply bucket_names_NoDup).
    rewrite (dict_from_gets 0 (Analysis.stars_distribution analysis'))
      by (rewrite Hkeys'; apply bucket_names_NoDup).
    rewrite Hkeys, Hkeys'. apply list_fmap_ext. intros i name Hname.
    apply list_elem_of_lookup_2 in Hname.
    rewrite Hget, Hget' by done. do 3 f_equal. by apply count_if_perm.
  - intros k. rewrite Hlangs, Hlangs', Htopics, Htopics', Hdates, Hdates'.
    rewrite !get_sorted_tally.
    assert (Hl : occurrences k (observed_languages repos)
                 = occurrences k (observed_languages repos')).
    { apply (additive_perm (λ l, occurrences k (observed_languages l))
               (λ r, occurrences k (observed_languages [r]))); [| done].
      intros r l0. rewrite <- occurrences_app. f_equal.
      unfold observed_languages. simpl. by destruct (counted_language r). }
    assert (Ht : occurrences k (observed_topics repos)
                 = occurrences k (observed_topics repos')).
    { apply (additive_perm (λ l, occurrences k (observed_topics l))
               (λ r, occurrences k (observed_topics [r]))); [| done].
      intros r l0. rewrite <- occurrences_app. f_equal.
      unfold observed_topics. simpl. by rewrite app_nil_r. }
    assert (Hy : occurrences k (observed_years repos)
                 = occurrences k (observed_years repos')).
    { apply (additive_perm (λ l, occurrences k (observed_years l))
               (λ r, occurrences k (observed_years [r]))); [| done].
      intros r l0. rewrite <- occurrences_app. f_equal.
      unfold observed_years. simpl. by destruct (created_year r). }
    by rewrite Hl, Ht, Hy.
Qed.

End record_order.

(** The three sample records, and the same records in reverse. *)
Lemma analysis_of_rearranged_witness :
  ∃ analysis analysis',
    @Search.analyze_results Sample.lib Sample.explorer
      {| items := Some Sample.three_repos |} = Py.Ok analysis ∧
    @Search.analyze_results Sample.lib Sample.explorer
      {| items := Some (reverse Sample.three_repos) |} = Py.Ok analysis' ∧
    Analysis.stars_distribution analysis = Analysis.stars_distribution analysis'.
Proof.
  destruct (@analysis_of_rearranged Sample.lib Sample.explorer
              Sample.three_repos (reverse Sample.three_repos)
              (Permutation_sym (reverse_Permutation _)) eq_refl)
    as (analysis & analysis' & Hres & Hres' & _ & Hstars & _).
  exists analysis, analysis'. split_and!; [exact Hres | exact Hres' | exact Hstars].
Defined.

(* ===================================================================== *)
(** * Saving the records, and the entry point of the search tool          *)
(* ===================================================================== *)

Section saving.
Context `{Lib}.
Import Py IO Search.
Implicit Types (repos : list Repo.t) (self : GithubExplorer) (w : World).

Lemma simplify_repo_complete (r : Repo.t) :
  complete r = true → simplify_repo r = Ok r.
Proof.
  unfold complete, simplify_repo. intros Hc.
  apply andb_prop in Hc as [Hcreated Hstars].
  apply bool_decide_eq_true in Hcreated as [created_at Hcreated].
  apply bool_decide_eq_true in Hstars as [stars Hstars].
  rewrite Hcreated, Hstars. simpl. destruct r. simpl in *. by subst.
Qed.

Lemma simplify_repo_incomplete (r : Repo.t) :
  complete r = false →
  ∃ key, (key = "created_at" ∨ key = "stargazers_count") ∧
         simplify_repo r = Raise (KeyError key).
Proof.
  unfold complete, simplify_repo.
  destruct (Repo.created_at r); [| eauto].
  destruct (Repo.stargazers_count r); [| eauto].
  rewrite !bool_decide_eq_true_2 by eauto. done.
Qed.

Lemma simplify_all repos acc :
  if forallb complete repos then
    for_each (λ acc repo, bind (simplify_repo repo)
                               (λ simplified, Ok (acc ++ [simplified])))
             repos acc = Ok (acc ++ repos)
  else
    ∃ key, (key = "created_at" ∨ key = "stargazers_count") ∧
      for_each (λ acc repo, bind (simplify_repo repo)
                                 (λ simplified, Ok (acc ++ [simplified])))
               repos acc = Raise (KeyError key).
Proof.
  revert acc. induction repos as [|r repos IH]; intros acc.
  - simpl. by rewrite app_nil_r.
  - cbn [forallb for_each]. destruct (complete r) eqn:Hr.
    + rewrite simplify_repo_complete by done. simpl.
      specialize (IH (acc ++ [r])). destruct (forallb complete repos).
      * by rewrite IH, <- app_assoc.
      * done.
    + destruct (simplify_repo_incomplete r Hr) as (key & Hkey & ->).
      simpl. eauto.
Qed.

(** Complete records are saved as they are. *)
Lemma save_results_complete (explorer : GithubExplorer) (filename : string)
  repos w (fs2 : gmap string OS.node) :
  forallb complete repos = true →
  OS.write_file (fs w) filename (json_dump_repos repos) = Ok fs2 →
  save_results explorer {| items := Some repos |} filename w
  = (Ok tt, {| fs := fs2;
               console := console w ++ ["Results saved to " +:+ filename];
               slept := slept w |}).
Proof.
  intros Hcomplete Hwrite.
  pose proof (simplify_all repos []) as Hall. rewrite Hcomplete in Hall.
  unfold save_results, mbind, M_bind, io_bind, lift, write_file. simpl.
  rewrite Hall. simpl. by rewrite Hwrite.
Qed.

(** X9. [save_results] raises [KeyError] before it opens the file when a
    record lacks [created_at] or [stargazers_count], keys the aggregator
    does without: nothing is written or printed.  Otherwise it writes the
    records, in their order, to the named file and prints one line; when the
    file cannot be opened that error is raised and nothing is printed. *)
Theorem save_results_outcome self repos filename w :
  if forallb complete repos then
    save_results self {| items := Some repos |} filename w =
    match OS.write_file (fs w) filename (json_dump_repos repos) with
    | Ok fs' =>
        (Ok tt, {| fs := fs';
                   console := console w ++ ["Results saved to " +:+ filename];
                   slept := slept w |})
    | Raise e => (Raise e, w)
    end
  else
    ∃ key, (key = "created_at" ∨ key = "stargazers_count") ∧
      save_results self {| items := Some repos |} filename w
        = (Raise (KeyError key), w).
Proof.
  pose proof (simplify_all repos []) as Hall. unfold save_results.
  destruct (forallb complete repos).
  - unfold mbind, M_bind, io_bind, lift, write_file. simpl. rewrite Hall. simpl.
    by destruct (OS.write_file (fs w) filename (json_dump_repos repos)).
  - destruct Hall as (key & Hkey & Hall). exists key. split; [done |].
    unfold mbind, M_bind, io_bind, lift. simpl. by rewrite Hall.
Qed.

(** X10. [main] of the search tool saves the records before it analyses
    them and has no handler: once the search has returned complete records
    and the records file is written, a run without [--analyze] ends there,
    and a run with [--analyze] whose analysis raises lets that exception
    out with the records file written and nothing printed about an
    analysis. *)
Theorem main_saves_before_analyzing (args : Args) (environ_token : option string)
  repos w w1 fs2 :
  let explorer := init (or_else (token args) environ_token) in
  let saved :=
    {| fs := fs2;
       console := console w1 ++
         ["Found " +:+ str_int (Z.of_nat (length repos)) +:+ " repositories";
          "Results saved to " +:+ output args];
       slept := slept w1 |} in
  find_llm_literature_projects explorer (args_page args) (args_per_page args) w
    = (Ok {| items := Some repos |}, w1) →
  forallb complete repos = true →
  OS.write_file (fs w1) (output args) (json_dump_repos repos) = Ok fs2 →
  (analyze args = false → main args environ_token w = (Ok tt, saved)) ∧
  (analyze args = true →
   ∀ e, analyze_results explorer {| items := Some repos |} = Raise e →
        main args environ_token w = (Raise e, saved)).
Proof.
  intros explorer saved Hfind Hcomplete Hwrite.
  pose proof (save_results_complete explorer (output args) repos
                {| fs := fs w1;
                   console := console w1 ++
                     ["Found " +:+ str_int (Z.of_nat (length repos))
                      +:+ " repositories"];
                   slept := slept w1 |} fs2 Hcomplete Hwrite) as Hsave.
  cbn [fs console slept] in Hsave. rewrite <- app_assoc in Hsave.
  simpl app in Hsave.
  assert (Hstart : ∀ (rest : Results → M unit),
    (results ← find_llm_literature_projects explorer (args_page args)
                                            (args_per_page args);
     repos0 ← lift (get_items results);
     print ("Found " +:+ str_int (Z.of_nat (length repos0)) +:+ " repositories") ;;
     save_results explorer results (output args) ;;
     rest results) w = rest {| items := Some repos |} saved).
  { intros rest. unfold mbind at 1, M_bind, io_bind at 1. rewrite Hfind.
    unfold mbind at 1, io_bind at 1, lift at 1.
    unfold mbind at 1, io_bind at 1, print at 1.
    unfold mbind at 1, io_bind at 1.
    change (get_items {| items := Some repos |}) with (Ok repos).
    cbv iota. by rewrite Hsave. }
  split.
  - intros Hflag. unfold main. cbv zeta. fold explorer.
    etrans; [apply Hstart |]. cbv beta. by rewrite Hflag.
  - intros Hflag e Hraise. unfold main. cbv zeta. fold explorer.
    etrans; [apply Hstart |]. cbv beta. rewrite Hflag.
    unfold mbind at 1, M_bind, io_bind at 1, lift at 1.
    by rewrite Hraise.
Qed.

End saving.

(** A service whose only record is dated [yesterday]: the records are saved
    and the analysis raises. *)
Lemma main_saves_before_analyzing_witness :
  ∃ w',
    @Search.main Sample.stale
      {| Search.token := None; Search.output := "repos.json";
         Search.analyze := true; Search.args_per_page := 30;
         Search.args_page := 1 |}
      None Sample.empty_world
    = (Py.Raise (Py.ValueError "time data does not match format"), w') ∧
    OS.read_file (fs w') "repos.json" = Py.Ok "records 1" ∧
    OS.exists_ (fs w') "repos_analysis.json" = false.
Proof.
  eexists. split.
  - refine (proj2 (@main_saves_before_analyzing Sample.stale
      {| Search.token := None; Search.output := "repos.json";
         Search.analyze := true; Search.args_per_page := 30;
         Search.args_page := 1 |}
      None [Sample.undated] Sample.empty_world _
      {[ "repos.json" := OS.File "records 1" ]} _ eq_refl _) eq_refl _ eq_refl).
    + vm_compute. reflexivity.
    + vm_compute. reflexivity.
  - split; reflexivity.
Defined.

(* ===================================================================== *)
(** * When the analysis file is a file of its own                         *)
(* ===================================================================== *)

Section analysis_file_more.
Import Py Search.

Lemma length_append (a b : string) :
  String.length (a +:+ b) = (String.length a + String.length b)%nat.
Proof.
  induction a as [|c a IH]; [done |].
  change (String c a +:+ b) with (String c (a +:+ b)). simpl. by rewrite IH.
Qed.

Lemma replace_from_length old new skip s :
  (1 ≤ String.length old ≤ String.length new)%nat →
  (String.length s ≤ String.length (replace_from old new skip s) + skip)%nat.
Proof.
  intros Hlen. revert skip. induction s as [|c s IH]; intros skip; [simpl; lia |].
  cbn [replace_from]. destruct skip as [|k].
  - destruct (starts_with old (String c s)).
    + rewrite length_append. specialize (IH (String.length old - 1)%nat).
      simpl. lia.
    + specialize (IH O). simpl. lia.
  - specialize (IH k). simpl. lia.
Qed.

Lemma replace_grows old new s :
  (1 ≤ String.length old < String.length new)%nat →
  substring_of old s = true →
  (String.length s < String.length (replace old new s))%nat.
Proof.
  intros Hlen. unfold replace. induction s as [|c s IH].
  - simpl. destruct old; simpl in *; [lia | done].
  - cbn [substring_of replace_from]. destruct (starts_with old (String c s)).
    + intros _. rewrite length_append.
      pose proof (replace_from_length old new (String.length old - 1) s
                    ltac:(lia)). simpl. lia.
    + simpl. intros Hsub. specialize (IH Hsub). lia.
Qed.

(** X11. For an output name that ends in [.json] and holds no other
    [.json], the analysis file is the same name with [_analysis] in front of
    the extension. *)
Theorem analysis_file_of_json_name stem :
  substring_of ".json" stem = false →
  analysis_file_of (stem +:+ ".json") = stem +:+ "_analysis.json".
Proof. apply analysis_file_json_suffix. Qed.

End analysis_file_more.

(** The default output name of the search tool gives the default analysis
    name of the renderer. *)
Lemma analysis_file_of_json_name_witness :
  Search.analysis_file_of "llm_literature_repos.json"
  = "llm_literature_repos_analysis.json".
Proof. exact (analysis_file_of_json_name "llm_literature_repos" eq_refl). Defined.

(* ===================================================================== *)
(** * The charts                                                          *)
(* ===================================================================== *)

Section charts.
Import Py Visualize.
Implicit Types (d : list (string * Z)) (self : ResultsVisualizer).

(** The first [limit] entries of a dictionary sorted by falling count. *)
Lemma top_entries d (limit : nat) :
  let shown := take limit (sorted by_count_desc d) in
  let hidden := drop limit (sorted by_count_desc d) in
  shown ++ hidden ≡ₚ d ∧
  length shown = (limit `min` length d)%nat ∧
  (∀ i j x y, (i < j)%nat → shown !! i = Some x → shown !! j = Some y →
              y.2 ≤ x.2) ∧
  (∀ x y, x ∈ shown → y ∈ hidden → y.2 ≤ x.2).
Proof.
  simpl. set (s := sorted by_count_desc d).
  assert (Hs : StronglySorted (λ a b, by_count_desc a b = true) s)
    by (apply sorted_ordered;
        [apply by_count_desc_total | apply by_count_desc_trans]).
  split_and!.
  - rewrite take_drop. apply sorted_perm.
  - rewrite length_take. unfold s.
    by rewrite (Permutation_length (sorted_perm by_count_desc d)).
  - intros i j x y Hij Hi Hj.
    apply lookup_take_Some in Hi as [Hi _]. apply lookup_take_Some in Hj as [Hj _].
    pose proof (StronglySorted_lookup _ _ _ _ _ _ Hs Hij Hi Hj) as Hle.
    simpl in Hle. unfold by_count_desc in Hle. lia.
  - intros x y Hx Hy.
    apply list_elem_of_lookup in Hx as [i Hi]. apply list_elem_of_lookup in Hy as [j Hj].
    apply lookup_take_Some in Hi as [Hi Hlt]. rewrite lookup_drop in Hj.
    assert (Hij : (i < limit + j)%nat) by lia.
    pose proof (StronglySorted_lookup _ _ _ _ _ _ Hs Hij Hi Hj) as Hle.
    simpl in Hle. unfold by_count_desc in Hle. lia.
Qed.

(** X13. Each bar chart shows the [limit] entries with the highest counts,
    or all entries when there are fewer, highest first: the entries split
    into the shown and the hidden ones, no hidden entry has a higher count
    than a shown one, and the bars follow the shown entries, a language with
    an empty name under the label [Unknown]. *)
Theorem bar_charts_show_top self (limit : nat) :
  (∃ shown hidden title,
     shown ++ hidden ≡ₚ Analysis.languages (analysis self) ∧
     length shown = (limit `min` length (Analysis.languages (analysis self)))%nat ∧
     languages_chart self limit
       = Bar ((λ item : string * Z, if truthy item.1 then item.1 else "Unknown")
                <$> shown)
             shown.*2 title ∧
     (∀ i j x y, (i < j)%nat → shown !! i = Some x → shown !! j = Some y →
                 y.2 ≤ x.2) ∧
     (∀ x y, x ∈ shown → y ∈ hidden → y.2 ≤ x.2)) ∧
  (∃ shown hidden title,
     shown ++ hidden ≡ₚ Analysis.topics (analysis self) ∧
     length shown = (limit `min` length (Analysis.topics (analysis self)))%nat ∧
     topics_chart self limit = BarH shown.*1 shown.*2 title ∧
     (∀ i j x y, (i < j)%nat → shown !! i = Some x → shown !! j = Some y →
                 y.2 ≤ x.2) ∧
     (∀ x y, x ∈ shown → y ∈ hidden → y.2 ≤ x.2)).
Proof.
  split.
  - destruct (top_entries (Analysis.languages (analysis self)) limit)
      as (Hperm & Hlen & Hfall & Htop).
    do 3 eexists. split_and!; [exact Hperm | exact Hlen | | exact Hfall | exact Htop].
    reflexivity.
  - destruct (top_entries (Analysis.topics (analysis self)) limit)
      as (Hperm & Hlen & Hfall & Htop).
    do 3 eexists. split_and!; [exact Hperm | exact Hlen | | exact Hfall | exact Htop].
    reflexivity.
Qed.

Lemma str_le_total a b : str_le a b = true ∨ str_le b a = true.
Proof.
  unfold str_le. rewrite (String.compare_antisym b a).
  destruct (String.compare a b); simpl; auto.
Qed.

Lemma str_le_trans a b c :
  str_le a b = true → str_le b c = true → str_le a c = true.
Proof.
  unfold str_le.
  destruct (String.compare a b) eqn:Hab; [| | done];
    destruct (String.compare b c) eqn:Hbc; try done; intros _ _.
  - apply String.compare_eq_iff in Hab, Hbc. subst. by rewrite compare_refl.
  - apply String.compare_eq_iff in Hab. subst. by rewrite Hbc.
  - apply String.compare_eq_iff in Hbc. subst. by rewrite Hab.
  - by rewrite (compare_lt_trans _ _ _ Hab Hbc).
Qed.

Lemma counts_of_keys d (ks : list string) (acc : list Z) :
  ks ⊆ d.*1 →
  for_each (λ acc year, bind (getitem year d) (λ count, Ok (acc ++ [count])))
           ks acc
  = Ok (acc ++ ((λ k, default 0 (get k d)) <$> ks)).
Proof.
  revert acc. induction ks as [|k ks IH]; intros acc Hsub.
  - simpl. by rewrite app_nil_r.
  - cbn [for_each]. unfold getitem at 1.
    destruct (get k d) as [v |] eqn:Hget.
    + cbn [bind]. rewrite IH by set_solver. rewrite fmap_cons, Hget. simpl.
      by rewrite <- app_assoc.
    + apply get_None in Hget. exfalso. apply Hget. set_solver.
Qed.

(** X14. The timeline never fails on a missing year: its years are the keys
    of [created_dates] in ascending order of the strings, and the value
    drawn for a year is the count stored under it. *)
Theorem timeline_chart_follows_years self :
  let dates := Analysis.created_dates (analysis self) in
  ∃ years counts title,
    timeline_chart self = Ok (Line years counts title) ∧
    years ≡ₚ keys dates ∧
    (∀ i j a b, (i < j)%nat → years !! i = Some a → years !! j = Some b →
                str_le a b = true) ∧
    length counts = length years ∧
    (∀ i year, years !! i = Some year → counts !! i = get year dates).
Proof.
  simpl. set (dates := Analysis.created_dates (analysis self)).
  set (years := sorted str_le (keys dates)).
  assert (Hperm : years ≡ₚ keys dates) by apply sorted_perm.
  exists years, ((λ k, default 0 (get k dates)) <$> years). eexists.
  split_and!.
  - unfold timeline_chart. fold dates. fold years.
    rewrite counts_of_keys; [done |].
    intros k Hk. unfold keys in Hperm. by rewrite <- Hperm.
  - done.
  - intros i j a b Hij Hi Hj.
    exact (StronglySorted_lookup _ _ _ _ _ _
             (sorted_ordered str_le str_le_total str_le_trans (keys dates))
             Hij Hi Hj).
  - by rewrite length_fmap.
  - intros i year Hi. rewrite list_lookup_fmap, Hi. simpl.
    destruct (get year dates) eqn:Hget; [done |].
    apply get_None in Hget. exfalso. apply Hget.
    unfold keys in Hperm. rewrite <- Hperm. by eapply list_elem_of_lookup_2.
Qed.

End charts.

(* ===================================================================== *)
(** * The entry point of the renderer                                     *)
(* ===================================================================== *)

Section renderer_main.
Context `{Lib}.
Import Py IO Visualize.

Lemma for_print {A} (f : A → string) (l : list A) (w : World) :
  for_ l (λ x, print (f x)) w
  = (Ok tt, {| fs := fs w; console := console w ++ (f <$> l); slept := slept w |}).
Proof.
  revert w. induction l as [|x l IH]; intros w.
  - simpl. rewrite app_nil_r. by destruct w.
  - cbn [for_]. unfold mbind, M_bind, io_bind, print at 1. rewrite IH.
    simpl. by rewrite <- app_assoc.
Qed.

(** X16. Without matplotlib the renderer does nothing but print: [main]
    prints its two lines and leaves the file system as it is, without
    looking at the analysis file or creating the output directory, and the
    constructor raises [ImportError] in an unchanged world. *)
Theorem renderer_unavailable (args : Args) (w : World) :
  HAS_MATPLOTLIB = false →
  main args w
    = (Ok tt,
       {| fs := fs w;
          console := console w ++
            ["ERROR: matplotlib is required for visualization";
             "Install it with: pip install matplotlib"];
          slept := slept w |}) ∧
  init (args_analysis args) (args_output_dir args) w
    = (Raise (ImportError "matplotlib is required for visualization"), w).
Proof.
  intros Hplt. split; [| by apply init_without_matplotlib].
  unfold main. rewrite Hplt. run_io. by rewrite <- app_assoc.
Qed.

(** X17. With matplotlib present, when the first step of the constructor
    succeeds and the analysis file is there but [json.load] rejects it,
    [main] prints the one line about an invalid JSON file and returns
    normally; the output directory stays, and no regular file is created or
    changed. *)
Theorem malformed_analysis_reported (args : Args) (w : World)
  (fs1 : gmap string OS.node) (document msg : string) :
  HAS_MATPLOTLIB = true →
  directory_step (fs w) (args_output_dir args) = Ok fs1 →
  OS.stat fs1 (args_analysis args) = OS.IsFile document →
  json_load document = Raise (JSONDecodeError msg) →
  main args w
    = (Ok tt,
       {| fs := fs1;
          console := console w ++
            ["ERROR: '" +:+ args_analysis args +:+ "' is not a valid JSON file."];
          slept := slept w |}) ∧
  (∀ path content,
     OS.stat fs1 path = OS.IsFile content ↔ OS.stat (fs w) path = OS.IsFile content).
Proof.
  intros Hplt Hstep Hfile Hload.
  split; [| intros; by eapply directory_step_files].
  assert (Hinit : init (args_analysis args) (args_output_dir args) w
            = (Raise (JSONDecodeError msg), set_fs w fs1)).
  { rewrite init_steps, Hstep by done. unfold OS.read_file.
    rewrite Hfile. simpl. by rewrite Hload. }
  unfold main. rewrite Hplt. simpl. unfold try_except.
  unfold mbind at 1, M_bind, io_bind at 1. rewrite Hinit.
  unfold report_error. run_io. done.
Qed.

End renderer_main.

(** The renderer where matplotlib is missing. *)
Lemma renderer_unavailable_witness :
  @Visualize.main Sample.offline
    {| Visualize.args_analysis := "missing.json";
       Visualize.args_output_dir := "visualizations";
       Visualize.args_report := "report.html" |}
    Sample.empty_world
  = (Py.Ok tt,
     {| fs := ∅;
        console := ["ERROR: matplotlib is required for visualization";
                    "Install it with: pip install matplotlib"];
        slept := 0 |}).
Proof.
  exact (proj1 (@renderer_unavailable Sample.offline
    {| Visualize.args_analysis := "missing.json";
       Visualize.args_output_dir := "visualizations";
       Visualize.args_report := "report.html" |}
    Sample.empty_world eq_refl)).
Defined.

(** The renderer on a file that is not JSON. *)
Lemma malformed_analysis_reported_witness :
  @Visualize.main Sample.lib
    {| Visualize.args_analysis := "notes.txt";
       Visualize.args_output_dir := "visualizations";
       Visualize.args_report := "report.html" |}
    {| fs := {[ "notes.txt" := OS.File "to do" ]}; console := []; slept := 0 |}
  = (Py.Ok tt,
     {| fs := {[ "notes.txt" := OS.File "to do";
                 "visualizations" := OS.Dir ∅ ]};
        console := ["ERROR: 'notes.txt' is not a valid JSON file."];
        slept := 0 |}).
Proof.
  refine (proj1 (@malformed_analysis_reported Sample.lib
    {| Visualize.args_analysis := "notes.txt";
       Visualize.args_output_dir := "visualizations";
       Visualize.args_report := "report.html" |}
    {| fs := {[ "notes.txt" := OS.File "to do" ]}; console := []; slept := 0 |}
    {[ "notes.txt" := OS.File "to do"; "visualizations" := OS.Dir ∅ ]}
    "to do" "Expecting value" eq_refl _ eq_refl eq_refl)).
  by vm_compute.
Defined.

(* ===================================================================== *)
(** * Writing files                                                       *)
(* ===================================================================== *)

Section file_writes.
Import Py OS.
Implicit Types (cur : gmap string node) (names dir probe : list string).

Lemma split_from_slash (piece a b : string) :
  split_from piece (a +:+ String "/" b) = split_from piece a ++ split_from "" b.
Proof.
  revert piece. induction a as [|c a IH]; intros piece.
  - done.
  - change (String c a +:+ String "/" b) with (String c (a +:+ String "/" b)).
    cbn [split_from]. destruct (Ascii.eqb c "/"); by rewrite IH.
Qed.

Lemma split_from_after_slash (piece a b : string) :
  ends_with_slash a = true →
  filter (λ name, name ≠ "" ∧ name ≠ ".") (split_from piece (a +:+ b))
  = filter (λ name, name ≠ "" ∧ name ≠ ".") (split_from piece a)
    ++ filter (λ name, name ≠ "" ∧ name ≠ ".") (split_from "" b).
Proof.
  revert piece. induction a as [|c a IH]; intros piece; [done |].
  change (String c a +:+ b) with (String c (a +:+ b)).
  destruct a as [|c' a].
  - simpl. intros ->. change ("" +:+ b) with b.
    rewrite !filter_cons, filter_nil.
    destruct (decide (piece ≠ "" ∧ piece ≠ "."));
      destruct (decide ("" ≠ "" ∧ "" ≠ ".")) as [[? _] |]; done.
  - intros Hslash. change (ends_with_slash (String c' a) = true) in Hslash.
    cbn [split_from]. destruct (Ascii.eqb c "/").
    + rewrite !filter_cons. rewrite IH by done.
      by destruct (decide (piece ≠ "" ∧ piece ≠ ".")).
    + by apply IH.
Qed.

(** The names of a joined path are those of its two parts. *)
Lemma components_join (a b : string) :
  starts_with "/" b = false →
  components (join a b) = components a ++ components b.
Proof.
  intros Hrel. unfold join. rewrite Hrel. unfold components.
  destruct (String.eqb_spec a "") as [-> | Hne]; simpl.
  - done.
  - destruct (ends_with_slash a) eqn:Hslash.
    + by apply split_from_after_slash.
    + change (a +:+ "/" +:+ b) with (a +:+ String "/" b).
      by rewrite split_from_slash, filter_app.
Qed.

Lemma join_nonempty (a b : string) : b ≠ "" → join a b ≠ "".
Proof.
  unfold join. intros Hb. destruct (starts_with "/" b); [done |].
  destruct (String.eqb a "" || ends_with_slash a)%bool;
    destruct a; simpl; try done.
Qed.

(** What a successful write leaves behind. *)
Lemma put_frame path content cur names cur' :
  put path content cur names = Ok cur' →
  walk cur' names = IsFile content ∧
  ∀ probe, ¬ names `prefix_of` probe → walk cur' probe = walk cur probe.
Proof.
  revert cur cur'. induction names as [|name rest IH]; intros cur cur'; [done |].
  cbn [put]. destruct rest as [|name' rest].
  - intros Hput.
    assert (cur' = <[name := File content]> cur) as ->
      by (destruct (cur !! name) as [[|] |]; congruence).
    split; [simpl; by rewrite lookup_insert_eq |].
    intros [|x probe] Hpre; [done |]. simpl.
    destruct (decide (name = x)) as [<- |]; [| by rewrite lookup_insert_ne].
    destruct Hpre. apply prefix_cons, prefix_nil.
  - destruct (cur !! name) as [[|children] |] eqn:Hname; [done | | done].
    destruct (put path content children (name' :: rest)) as [children' |] eqn:Hrec;
      [| done].
    simpl. intros [= <-]. destruct (IH _ _ Hrec) as [Hfile Hframe].
    split; [by rewrite lookup_insert_eq |].
    intros [|x probe] Hpre; [done |]. cbn [walk].
    destruct (decide (name = x)) as [<- |]; [| by rewrite lookup_insert_ne].
    rewrite lookup_insert_eq, Hname. apply Hframe.
    intros Hp. apply Hpre. by apply prefix_cons.
Qed.

(** A file can be written into a directory under any name that is not a
    directory. *)
Lemma put_succeeds path content cur dir name :
  walk cur dir = IsDir → walk cur (dir ++ [name]) ≠ IsDir →
  ∃ cur', put path content cur (dir ++ [name]) = Ok cur'.
Proof.
  revert cur. induction dir as [|n dir IH]; intros cur Hdir Hnot.
  - simpl in *. destruct (cur !! name) as [[|children] |]; eauto.
    by destruct Hnot.
  - cbn [walk] in Hdir. cbn [app walk] in Hnot.
    destruct (cur !! n) as [[|children] |] eqn:Hn; [by destruct dir | | done].
    destruct (IH children Hdir Hnot) as [children' Hrec].
    cbn [app put]. destruct (dir ++ [name]) as [|n' rest] eqn:Hrest.
    + by destruct dir.
    + rewrite Hn, Hrec. simpl. eauto.
Qed.

(** Writing a file again with the content it has changes nothing. *)
Lemma put_same path content cur names :
  walk cur names = IsFile content → put path content cur names = Ok cur.
Proof.
  revert cur. induction names as [|name rest IH]; intros cur; [done |].
  cbn [walk put]. destruct (cur !! name) as [[content' | children] |] eqn:Hname;
    [| | done].
  - destruct rest; [| done]. intros [= ->]. by rewrite insert_id.
  - intros Hwalk. destruct rest as [|name' rest]; [done |].
    rewrite (IH _ Hwalk). simpl. by rewrite insert_id.
Qed.

(** Writing over a regular file succeeds. *)
Lemma put_over path content content0 cur names :
  walk cur names = IsFile content0 → ∃ cur', put path content cur names = Ok cur'.
Proof.
  revert cur. induction names as [|name rest IH]; intros cur; [done |].
  cbn [walk put]. destruct (cur !! name) as [[content' | children] |] eqn:Hname;
    [| | done].
  - destruct rest; [eauto | done].
  - intros Hwalk. destruct rest as [|name' rest]; [done |].
    destruct (IH _ Hwalk) as [children' ->]. simpl. eauto.
Qed.

(** ** Paths below a directory *)

Lemma split_from_last (piece a name : string) :
  ends_with_slash a = true → split_from "" name = [name] →
  ∃ init, split_from piece (a +:+ name) = init ++ [name].
Proof.
  intros Hslash Hname. revert piece Hslash.
  induction a as [|c a IH]; intros piece; [done |].
  change (String c a +:+ name) with (String c (a +:+ name)).
  destruct a as [|c' a].
  - simpl. intros ->. change ("" +:+ name) with name. rewrite Hname.
    by exists [piece].
  - intros Hslash. change (ends_with_slash (String c' a) = true) in Hslash.
    cbn [split_from]. destruct (Ascii.eqb c "/").
    + destruct (IH "" Hslash) as [init ->]. by exists (piece :: init).
    + by apply IH.
Qed.

(** A single name joined to a directory comes last among the pieces. *)
Lemma split_join_simple (a name : string) :
  starts_with "/" name = false → split_from "" name = [name] →
  ∃ init, split_from "" (join a name) = init ++ [name].
Proof.
  intros Hrel Hname. unfold join. rewrite Hrel.
  destruct (String.eqb_spec a "") as [-> | Hne]; simpl.
  - change ("" +:+ name) with name. rewrite Hname. by exists [].
  - destruct (ends_with_slash a) eqn:Hslash.
    + by apply split_from_last.
    + change (a +:+ "/" +:+ name) with (a +:+ String "/" name).
      rewrite split_from_slash, Hname. eauto.
Qed.

Lemma ending_join_simple (a name : string) :
  starts_with "/" name = false → split_from "" name = [name] →
  name ≠ "" → name ≠ "." →
  ending_of (join a name) = Plain.
Proof.
  intros Hrel Hname Hne Hdot.
  destruct (split_join_simple a name Hrel Hname) as [init Hsplit].
  unfold ending_of. rewrite Hsplit, foldl_app. simpl. unfold ending_step.
  by rewrite !decide_False.
Qed.

(** ** Writing a file *)

Lemma write_file_plain (fs : gmap string node) path content :
  path ≠ "" → ending_of path = Plain →
  write_file fs path content = put path content fs (components path).
Proof. intros Hne Hplain. unfold write_file. by rewrite decide_False, Hplain. Qed.

(** Only a path that ends with its last name is written to. *)
Lemma write_file_ok (fs fs' : gmap string node) path content :
  write_file fs path content = Ok fs' →
  path ≠ "" ∧ ending_of path = Plain ∧
  put path content fs (components path) = Ok fs'.
Proof.
  unfold write_file. destruct (decide (path = "")); [done |].
  destruct (ending_of path); [done | |].
  - destruct (walk fs (components path)); try done.
    by destruct (walk fs (removelast (components path))).
  - by destruct (walk fs (components path)).
Qed.

Lemma write_file_written (fs fs' : gmap string node) path content :
  write_file fs path content = Ok fs' → stat fs' path = IsFile content.
Proof.
  intros Hwrite. apply write_file_ok in Hwrite as (Hne & Hplain & Hput).
  apply stat_file. split_and!; [done.. |]. by destruct (put_frame _ _ _ _ _ Hput).
Qed.

Lemma write_file_frame (fs fs' : gmap string node) path content other :
  write_file fs path content = Ok fs' →
  ¬ components path `prefix_of` components other →
  stat fs' other = stat fs other.
Proof.
  intros Hwrite Hpre. apply write_file_ok in Hwrite as (_ & _ & Hput).
  apply stat_same_walk. by apply (put_frame _ _ _ _ _ Hput).
Qed.

(** Writing a file again with the content it has changes nothing. *)
Lemma write_same (fs : gmap string node) path content :
  stat fs path = IsFile content → write_file fs path content = Ok fs.
Proof.
  intros Hfile. apply stat_file in Hfile as (Hne & Hplain & Hwalk).
  rewrite write_file_plain by done. by apply put_same.
Qed.

(** A path that has been written to can be written to again. *)
Lemma write_again (fs fs' : gmap string node) path content content' :
  write_file fs path content = Ok fs' →
  ∃ fs'', write_file fs' path content' = Ok fs''.
Proof.
  intros Hwrite. apply write_file_ok in Hwrite as (Hne & Hplain & Hput).
  rewrite write_file_plain by done.
  destruct (put_frame _ _ _ _ _ Hput) as [Hfile _]. by eapply put_over.
Qed.

(** A file can be written under a single name into a directory, unless the
    name is taken by a directory. *)
Lemma write_below (fs : gmap string node) folder name content :
  starts_with "/" name = false → split_from "" name = [name] →
  name ≠ "" → name ≠ "." →
  isdir fs folder = true → isdir fs (join folder name) = false →
  components (join folder name) = components folder ++ [name] ∧
  ∃ fs', write_file fs (join folder name) content = Ok fs'.
Proof.
  intros Hrel Hname Hne Hdot Hdir Hfree.
  assert (Hcomp : components (join folder name) = components folder ++ [name]).
  { rewrite components_join by done. unfold components at 2.
    rewrite Hname, filter_cons, filter_nil. by rewrite decide_True. }
  split; [done |].
  assert (Hpath : join folder name ≠ "") by by apply join_nonempty.
  rewrite write_file_plain by (done || by apply ending_join_simple).
  rewrite Hcomp. apply isdir_walk in Hdir as [_ Hdir].
  apply put_succeeds; [done |]. intros Hwalk.
  assert (isdir fs (join folder name) = true); [| congruence].
  apply isdir_walk. by rewrite Hcomp.
Qed.

(** ** The exceptions of the file system are of class [Exception] *)






End file_writes.

(* ===================================================================== *)
(** * Drawing all charts                                                  *)
(* ===================================================================== *)

Section all_charts.
Context `{Lib}.
Import Py IO Visualize.
Implicit Types (self : ResultsVisualizer) (w : World).

Lemma chart_name_simple name :
  name ∈ chart_names →
  starts_with "/" name = false ∧ OS.split_from "" name = [name] ∧
  name ≠ "" ∧ name ≠ ".".
Proof.
  unfold chart_names. rewrite !elem_of_cons.
  intros [-> | [-> | [-> | [-> | Hnil]]]];
    [by split_and!; [vm_compute | vm_compute | |].. |].
  by apply elem_of_nil in Hnil.
Qed.

Lemma chart_components output_dir name :
  name ∈ chart_names →
  OS.components (OS.join output_dir name) = OS.components output_dir ++ [name].
Proof.
  intros Hname. destruct (chart_name_simple name Hname) as (Hrel & Hone & Hne & Hdot).
  rewrite components_join by done. unfold OS.components at 2.
  rewrite Hone, filter_cons, filter_nil. by rewrite decide_True.
Qed.

Lemma chart_paths_apart output_dir name other :
  name ∈ chart_names → other ∈ chart_names → other ≠ name →
  ¬ OS.components (OS.join output_dir other)
      `prefix_of` OS.components (OS.join output_dir name).
Proof.
  intros Hname Hother Hdiff.
  rewrite (chart_components output_dir name Hname),
    (chart_components output_dir other Hother).
  intros Hpre. apply prefix_app_inv, prefix_cons_inv_1 in Hpre. done.
Qed.

Lemma ready_of_checks output_dir (fs0 : gmap string OS.node) :
  OS.isdir fs0 output_dir = true →
  forallb (λ name, negb (OS.isdir fs0 (OS.join output_dir name))) chart_names
    = true →
  ready output_dir fs0.
Proof.
  intros Hdir Hfree. split; [done |]. intros name Hname.
  rewrite forallb_forall in Hfree. apply list_elem_of_In in Hname.
  apply Hfree in Hname. by apply negb_true_iff in Hname.
Qed.

(** One chart written into a ready output directory. *)
Lemma write_chart output_dir name content (fs0 : gmap string OS.node) :
  ready output_dir fs0 → name ∈ chart_names →
  ∃ fs1,
    OS.write_file fs0 (OS.join output_dir name) content = Ok fs1 ∧
    ready output_dir fs1 ∧
    OS.stat fs1 (OS.join output_dir name) = OS.IsFile content ∧
    (∀ path,
       ¬ OS.components (OS.join output_dir name) `prefix_of` OS.components path →
       OS.stat fs1 path = OS.stat fs0 path).
Proof.
  intros [Hdir Hfree] Hname.
  destruct (chart_name_simple name Hname) as (Hrel & Hone & Hne & Hdot).
  destruct (write_below fs0 output_dir name content Hrel Hone Hne Hdot Hdir
              (Hfree name Hname)) as [Hcomp [fs1 Hwrite]].
  pose proof (write_file_written _ _ _ _ Hwrite) as Hfile.
  pose proof (λ path, write_file_frame _ _ _ _ path Hwrite) as Hframe.
  exists fs1. split_and!; [done | | done | done].
  split.
  - unfold OS.isdir. rewrite Hframe; [exact Hdir |].
    rewrite Hcomp. intros Hpre. apply prefix_length in Hpre.
    rewrite length_app in Hpre. simpl in Hpre. lia.
  - intros other Hother. unfold OS.isdir.
    destruct (decide (other = name)) as [-> | Hdiff]; [by rewrite Hfile |].
    rewrite Hframe; [by apply Hfree |]. by apply chart_paths_apart.
Qed.


(** The four calls of [create_all_visualizations] are one run through the
    chart names and the rendered figures. *)
Lemma create_all_draw self w :
  create_all_visualizations self w
  = draw (output_dir self) chart_names (rendered self) w.
Proof.
  unfold create_all_visualizations, visualize_languages, visualize_topics,
    visualize_stars_distribution, visualize_creation_timeline, savefig,
    rendered, chart_names.
  cbn [draw]. unfold mbind, M_bind, io_bind, mret, M_ret, ret, Search.lift.
  destruct (render (languages_chart self 10)) as [image1 |]; [| done].
  destruct (write_file _ image1 w) as [[[] |] w1]; [| done].
  destruct (render (topics_chart self 15)) as [image2 |]; [| done].
  destruct (write_file _ image2 w1) as [[[] |] w2]; [| done].
  destruct (render (stars_chart self)) as [image3 |]; [| done].
  destruct (write_file _ image3 w2) as [[[] |] w3]; [| done].
  destruct (timeline_chart self) as [timeline |]; [| done]. simpl.
  destruct (render timeline) as [image4 |]; [| done].
  by destruct (write_file _ image4 w3) as [[[] |] w4].
Qed.

(** Figures that all render are all written, in order. *)
Lemma draw_written output_dir names images w :
  ready output_dir (fs w) →
  (∀ name, name ∈ names → name ∈ chart_names) → NoDup names →
  length images = length names →
  ∃ fs',
    draw output_dir names (Ok <$> images) w
      = (Ok (OS.join output_dir <$> names), set_fs w fs') ∧
    ready output_dir fs' ∧
    OS.stat fs' <$> (OS.join output_dir <$> names) = OS.IsFile <$> images ∧
    (∀ path,
       (∀ name, name ∈ names →
          ¬ OS.components (OS.join output_dir name)
              `prefix_of` OS.components path) →
       OS.stat fs' path = OS.stat (fs w) path).
Proof.
  revert images w.
  induction names as [|name names IH]; intros [|image images] w Hready Hsub Hnd Hlen;
    try done.
  - exists (fs w). by rewrite set_fs_same.
  - apply NoDup_cons in Hnd as [Hfresh Hnd].
    assert (Hname : name ∈ chart_names) by apply Hsub, list_elem_of_here.
    destruct (write_chart output_dir name image (fs w) Hready Hname)
      as (fs1 & Hwrite & Hready1 & Hfile & Hframe1).
    destruct (IH images (set_fs w fs1) Hready1
                (λ other Hother, Hsub other (list_elem_of_further _ _ _ Hother))
                Hnd ltac:(simpl in Hlen; lia))
      as (fs' & Hdraw & Hready' & Hfiles & Hframe).
    cbn [fs set_fs] in Hframe.
    exists fs'. split_and!; [| done | |].
    + cbn [draw fmap list_fmap].
      unfold mbind, M_bind, io_bind, mret, M_ret, ret, Search.lift, write_file.
      rewrite Hwrite. fold (draw output_dir names (Ok <$> images)).
      by rewrite Hdraw.
    + rewrite !fmap_cons, Hfiles. f_equal. rewrite Hframe; [done |].
      intros other Hother. apply chart_paths_apart; [done | by apply Hsub; right |].
      intros ->. done.
    + intros path Hfree. rewrite Hframe, Hframe1; [done | |].
      * apply Hfree, list_elem_of_here.
      * intros other Hother. by apply Hfree, list_elem_of_further.
Qed.

(** The figures before the first one that fails are written, and the
    exception of that one ends the run. *)
Lemma draw_failure output_dir names images e rest w :
  ready output_dir (fs w) →
  (∀ name, name ∈ names → name ∈ chart_names) → NoDup names →
  (length images < length names)%nat →
  ∃ fs',
    draw output_dir names ((Ok <$> images) ++ Raise e :: rest) w
      = (Raise e, set_fs w fs') ∧
    OS.stat fs' <$> (OS.join output_dir <$> take (length images) names)
      = OS.IsFile <$> images ∧
    (∀ path,
       (∀ name, name ∈ take (length images) names →
          ¬ OS.components (OS.join output_dir name)
              `prefix_of` OS.components path) →
       OS.stat fs' path = OS.stat (fs w) path).
Proof.
  revert images w.
  induction names as [|name names IH]; intros images w Hready Hsub Hnd Hlen;
    [simpl in Hlen; lia |].
  destruct images as [|image images].
  - exists (fs w). by rewrite set_fs_same.
  - apply NoDup_cons in Hnd as [Hfresh Hnd].
    assert (Hname : name ∈ chart_names) by apply Hsub, list_elem_of_here.
    destruct (write_chart output_dir name image (fs w) Hready Hname)
      as (fs1 & Hwrite & Hready1 & Hfile & Hframe1).
    destruct (IH images (set_fs w fs1) Hready1
                (λ other Hother, Hsub other (list_elem_of_further _ _ _ Hother))
                Hnd ltac:(simpl in Hlen; lia))
      as (fs' & Hdraw & Hfiles & Hframe).
    cbn [fs set_fs] in Hframe.
    exists fs'. split_and!.
    + cbn [draw fmap list_fmap app].
      unfold mbind, M_bind, io_bind, mret, M_ret, ret, Search.lift, write_file.
      rewrite Hwrite.
      fold (draw output_dir names ((Ok <$> images) ++ Raise e :: rest)).
      by rewrite Hdraw.
    + cbn [length take]. rewrite !fmap_cons, Hfiles. f_equal.
      rewrite Hframe; [done |].
      intros other Hother. apply (subseteq_take _ _ other) in Hother.
      apply chart_paths_apart; [done | by apply Hsub; right |].
      intros ->. done.
    + cbn [length take]. intros path Hfree. rewrite Hframe, Hframe1; [done | |].
      * apply Hfree, list_elem_of_here.
      * intros other Hother. by apply Hfree, list_elem_of_further.
Qed.

(** Figures that are in place are drawn again without any change. *)
Lemma draw_again output_dir names images w :
  OS.stat (fs w) <$> (OS.join output_dir <$> names) = OS.IsFile <$> images →
  draw output_dir names (Ok <$> images) w = (Ok (OS.join output_dir <$> names), w).
Proof.
  revert images. induction names as [|name names IH]; intros [|image images];
    try done.
  rewrite !fmap_cons. intros [= Hfile Hfiles].
  cbn [draw]. unfold mbind, M_bind, io_bind, mret, M_ret, ret, Search.lift,
    write_file.
  rewrite (write_same _ _ _ Hfile), set_fs_same.
  fold (draw output_dir names (Ok <$> images)). by rewrite IH.
Qed.

Lemma chart_names_NoDup : NoDup chart_names.
Proof. apply (bool_decide_unpack _). by vm_compute. Qed.

End all_charts.

Section all_charts_written.
Context `{Lib}.
Import Py IO Visualize.
Implicit Types (self : ResultsVisualizer) (w : World).

(** X18. When the output directory is a directory, no chart path is one,
    and the plotting calls of the four figures succeed,
    [create_all_visualizations] returns the four chart paths in the order
    languages, topics, stars, timeline; each path then holds the image of
    its figure; no path that is not a chart path or below one changes; and
    a second run, like the one [main] makes after the report, returns the
    same paths and leaves the file system as it is. *)
Theorem charts_written self w images :
  OS.isdir (fs w) (output_dir self) = true →
  forallb (λ name, negb (OS.isdir (fs w) (OS.join (output_dir self) name)))
          chart_names = true →
  rendered self = Ok <$> images →
  ∃ fs',
    create_all_visualizations self w
      = (Ok (OS.join (output_dir self) <$> chart_names), set_fs w fs') ∧
    OS.stat fs' <$> (OS.join (output_dir self) <$> chart_names)
      = OS.IsFile <$> images ∧
    (∀ path,
       (∀ name, name ∈ chart_names →
          ¬ OS.components (OS.join (output_dir self) name)
              `prefix_of` OS.components path) →
       OS.stat fs' path = OS.stat (fs w) path) ∧
    create_all_visualizations self (set_fs w fs')
      = (Ok (OS.join (output_dir self) <$> chart_names), set_fs w fs').
Proof.
  intros Hdir Hfree Hrendered.
  assert (Hlen : length images = length chart_names).
  { apply (f_equal length) in Hrendered. by rewrite length_fmap in Hrendered. }
  destruct (draw_written (output_dir self) chart_names images w
              (ready_of_checks _ _ Hdir Hfree) (λ _ Hname, Hname)
              chart_names_NoDup Hlen)
    as (fs' & Hdraw & _ & Hfiles & Hframe).
  exists fs'. rewrite !create_all_draw, Hrendered.
  split_and!; [done.. |]. by apply draw_again.
Qed.

End all_charts_written.

(** The charts of the sample statistics in an empty output directory. *)
Lemma charts_written_witness :
  ∃ fs',
    @Visualize.create_all_visualizations Sample.lib
      {| Visualize.output_dir := "visualizations";
         Visualize.analysis := Sample.statistics |}
      {| fs := {[ "visualizations" := OS.Dir ∅ ]}; console := []; slept := 0 |}
    = (Py.Ok ["visualizations/languages.png"; "visualizations/topics.png";
              "visualizations/stars_distribution.png";
              "visualizations/creation_timeline.png"],
       {| fs := fs'; console := []; slept := 0 |}) ∧
    OS.stat fs' "visualizations/stars_distribution.png" = OS.IsFile "pie".
Proof.
  assert (Hdir : OS.isdir ({[ "visualizations" := OS.Dir ∅ ]} : gmap string OS.node)
                   "visualizations" = true) by (vm_compute; reflexivity).
  assert (Hfree : forallb (λ name, negb (OS.isdir
                     ({[ "visualizations" := OS.Dir ∅ ]} : gmap string OS.node)
                     (OS.join "visualizations" name))) chart_names = true)
    by (vm_compute; reflexivity).
  destruct (@charts_written Sample.lib
    {| Visualize.output_dir := "visualizations";
       Visualize.analysis := Sample.statistics |}
    {| fs := {[ "visualizations" := OS.Dir ∅ ]}; console := []; slept := 0 |}
    ["bar"; "barh"; "pie"; "line"] Hdir Hfree eq_refl)
    as (fs' & Hrun & Hfiles & _).
  exists fs'. split; [exact Hrun |].
  cbn [fmap list_fmap chart_names] in Hfiles.
  injection Hfiles as _ _ Hstars _. exact Hstars.
Defined.

(* ===================================================================== *)
(** * Complete and broken runs of the renderer                            *)
(* ===================================================================== *)

Section complete_run.
Context `{Lib}.
Import Py IO Visualize.
Implicit Types (self : ResultsVisualizer) (w : World).

(** The constructor on an analysis file that loads. *)
Lemma init_loads analysis_file output_dir w (fs1 : gmap string OS.node)
  document statistics :
  HAS_MATPLOTLIB = true →
  directory_step (fs w) output_dir = Ok fs1 →
  OS.stat fs1 analysis_file = OS.IsFile document →
  json_load document = Ok statistics →
  init analysis_file output_dir w
    = (Ok {| output_dir := output_dir; analysis := statistics |}, set_fs w fs1).
Proof.
  intros Hplt Hstep Hfile Hload. rewrite init_steps, Hstep by done.
  unfold OS.read_file. rewrite Hfile. simpl. by rewrite Hload.
Qed.

(** X20. A chart that cannot be drawn.  With matplotlib present, an
    analysis file that loads and the output directory in place, when the
    plotting calls of one of the four figures raise an exception, the charts
    of the figures before it have been written, no path other than theirs
    has changed (no later chart, no report), and [main] handles the
    exception by its [except] clauses: for a [ValueError] it prints [ERROR:]
    with the text of the exception and returns normally. *)
Theorem plotting_error_reported (args : Args) (w : World)
  (fs1 : gmap string OS.node) (document : string) (statistics : Analysis.t)
  (images : list string) (e : exn) (rest : list (result string)) :
  let self := {| output_dir := args_output_dir args; analysis := statistics |} in
  let drawn := take (length images) chart_names in
  HAS_MATPLOTLIB = true →
  directory_step (fs w) (args_output_dir args) = Ok fs1 →
  OS.stat fs1 (args_analysis args) = OS.IsFile document →
  json_load document = Ok statistics →
  OS.isdir fs1 (args_output_dir args) = true →
  forallb (λ name, negb (OS.isdir fs1 (OS.join (args_output_dir args) name)))
          chart_names = true →
  rendered self = (Ok <$> images) ++ Raise e :: rest →
  ∃ fs2,
    main args w = report_error args e (set_fs w fs2) ∧
    (∀ msg, e = ValueError msg →
       main args w
       = (Ok tt, {| fs := fs2; console := console w ++ ["ERROR: " +:+ msg];
                    slept := slept w |})) ∧
    OS.stat fs2 <$> (OS.join (args_output_dir args) <$> drawn)
      = OS.IsFile <$> images ∧
    (∀ path,
       (∀ name, name ∈ drawn →
          ¬ OS.components (OS.join (args_output_dir args) name)
              `prefix_of` OS.components path) →
       OS.stat fs2 path = OS.stat fs1 path).
Proof.
  intros self drawn Hplt Hstep Hfile Hload Hdir Hfree Hrendered.
  assert (Hlen : (length images < length chart_names)%nat).
  { apply (f_equal length) in Hrendered.
    rewrite length_app, length_fmap in Hrendered. simpl in *. lia. }
  destruct (draw_failure (args_output_dir args) chart_names images e rest
              (set_fs w fs1) (ready_of_checks _ _ Hdir Hfree) (λ _ Hname, Hname)
              chart_names_NoDup Hlen)
    as (fs2 & Hdraw & Hfiles & Hframe).
  assert (Hmain : main args w = report_error args e (set_fs w fs2)).
  { unfold main. rewrite Hplt. change (negb true) with false. cbv iota.
    unfold try_except, create_html_report.
    unfold mbind at 1 2, M_bind, io_bind at 1 2.
    rewrite (init_loads _ _ _ _ _ _ Hplt Hstep Hfile Hload).
    fold self. unfold mbind at 1, io_bind at 1.
    rewrite create_all_draw, Hrendered.
    change (output_dir self) with (args_output_dir args). by rewrite Hdraw. }
  exists fs2. split_and!; [done | | done | done].
  intros msg ->. rewrite Hmain. unfold report_error. run_io. done.
Qed.

(** X19. A complete run.  With matplotlib present, the output directory in
    place after the first step of the constructor, an analysis file that
    [json.load] accepts, plotting calls that succeed for the four figures, a
    report name that is a single name other than the chart names, and no
    chart or report path taken by a directory, [main] returns normally
    having printed the report path and the four chart paths; the report
    holds the page for the total count and the date and each chart path the
    image of its figure; and nothing else in the file system differs from
    the state after the first step. *)
Theorem main_renders_report (args : Args) (w : World)
  (fs1 : gmap string OS.node) (document : string) (statistics : Analysis.t)
  (images : list string) :
  let self := {| output_dir := args_output_dir args; analysis := statistics |} in
  let report_path := OS.join (args_output_dir args) (args_report args) in
  let chart_paths := OS.join (args_output_dir args) <$> chart_names in
  HAS_MATPLOTLIB = true →
  directory_step (fs w) (args_output_dir args) = Ok fs1 →
  OS.stat fs1 (args_analysis args) = OS.IsFile document →
  json_load document = Ok statistics →
  rendered self = Ok <$> images →
  OS.isdir fs1 (args_output_dir args) = true →
  forallb (λ name, negb (OS.isdir fs1 (OS.join (args_output_dir args) name)))
          (args_report args :: chart_names) = true →
  simple_name (args_report args) = true →
  ∃ fs3,
    main args w
      = (Ok tt,
         {| fs := fs3;
            console := console w ++
              ["Report generated at: " +:+ report_path;
               "Individual visualizations:"]
              ++ ((λ viz_path, "  - " +:+ viz_path) <$> chart_paths);
            slept := slept w |}) ∧
    OS.stat fs3 <$> (report_path :: chart_paths)
      = OS.IsFile <$>
          (html_content (Analysis.total_count statistics) current_date :: images) ∧
    (∀ path,
       (∀ name, name ∈ args_report args :: chart_names →
          ¬ OS.components (OS.join (args_output_dir args) name)
              `prefix_of` OS.components path) →
       OS.stat fs3 path = OS.stat fs1 path).
Proof.
  intros self report_path chart_paths Hplt Hstep Hfile Hload Hrendered Hdir Hfree
    Hsimple.
  cbn [forallb] in Hfree. apply andb_prop in Hfree as [Hreport_free Hfree].
  apply negb_true_iff in Hreport_free.
  unfold simple_name in Hsimple.
  apply andb_prop in Hsimple as [Hsimple Hother].
  apply andb_prop in Hsimple as [Hrel Hone].
  apply negb_true_iff in Hrel.
  apply bool_decide_eq_true in Hone as (Hone & Hne & Hdot).
  apply bool_decide_eq_true in Hother.
  set (d := args_output_dir args) in *. set (report := args_report args) in *.
  assert (Hlen : length images = length chart_names).
  { apply (f_equal length) in Hrendered. by rewrite length_fmap in Hrendered. }
  destruct (draw_written d chart_names images (set_fs w fs1)
              (ready_of_checks _ _ Hdir Hfree) (λ _ Hname, Hname)
              chart_names_NoDup Hlen)
    as (fs2 & Hdraw & [Hdir2 _] & Hfiles & Hframe).
  cbn [fs set_fs] in Hframe.
  (* the report path and the chart paths are apart *)
  assert (Hcomp : OS.components report_path = OS.components d ++ [report]).
  { unfold report_path. rewrite components_join by done. unfold OS.components at 2.
    rewrite Hone, filter_cons, filter_nil. by rewrite decide_True. }
  assert (Hapart : ∀ name, name ∈ chart_names →
            ¬ OS.components (OS.join d name) `prefix_of` OS.components report_path
            ∧ ¬ OS.components report_path
                  `prefix_of` OS.components (OS.join d name)).
  { intros name Hname. rewrite Hcomp, (chart_components d name Hname).
    split; intros Hpre; apply prefix_app_inv, prefix_cons_inv_1 in Hpre;
      subst; done. }
  assert (Hreport_free2 : OS.isdir fs2 report_path = false).
  { unfold OS.isdir. rewrite Hframe; [exact Hreport_free |].
    intros name Hname. by apply Hapart. }
  set (page := html_content (Analysis.total_count statistics) current_date).
  destruct (write_below fs2 d report page Hrel Hone Hne Hdot Hdir2 Hreport_free2)
    as [_ [fs3 Hreport]]. fold report_path in Hreport.
  assert (Hfiles3 : OS.stat fs3 <$> chart_paths = OS.IsFile <$> images).
  { rewrite <- Hfiles. unfold chart_paths. rewrite <- !list_fmap_compose.
    apply list_fmap_ext. intros i name Hname. simpl.
    eapply write_file_frame; [exact Hreport |].
    apply Hapart. by eapply list_elem_of_lookup_2. }
  pose proof (draw_again d chart_names images
                {| fs := fs3;
                   console := console w ++
                     ["Report generated at: " +:+ report_path;
                      "Individual visualizations:"];
                   slept := slept w |} Hfiles3) as Hagain.
  exists fs3. split_and!.
  - unfold main. rewrite Hplt. change (negb true) with false. cbv iota.
    unfold try_except, create_html_report.
    unfold mbind, M_bind, io_bind, mret, M_ret, ret. fold d report.
    rewrite (init_loads _ _ _ _ _ _ Hplt Hstep Hfile Hload). fold self.
    rewrite !create_all_draw, Hrendered.
    change (output_dir self) with d. change (analysis self) with statistics.
    rewrite Hdraw. fold report_path page.
    unfold write_file at 1. cbn [fs set_fs]. rewrite Hreport.
    unfold print at 1 2. cbn [fs console slept set_fs].
    rewrite <- app_assoc. cbn [app].
    rewrite create_all_draw, Hrendered. change (output_dir self) with d.
    rewrite Hagain.
    rewrite for_print. cbn [fs console slept]. fold chart_paths.
    by rewrite <- app_assoc.
  - rewrite !fmap_cons, Hfiles3. f_equal. by eapply write_file_written.
  - intros path Hfree_path.
    rewrite (write_file_frame _ _ _ _ path Hreport)
      by (apply Hfree_path, list_elem_of_here).
    apply Hframe. intros name Hname. apply Hfree_path.
    by apply list_elem_of_further.
Qed.

End complete_run.

(** The renderer on the sample statistics in a directory that holds only
    the analysis file. *)
Lemma main_renders_report_witness :
  ∃ fs3,
    @Visualize.main Sample.lib
      {| Visualize.args_analysis := "repos_analysis.json";
         Visualize.args_output_dir := "visualizations";
         Visualize.args_report := "report.html" |}
      {| fs := {[ "repos_analysis.json" := OS.File "analysis 3" ]};
         console := []; slept := 0 |}
    = (Py.Ok tt,
       {| fs := fs3;
          console := ["Report generated at: visualizations/report.html";
                      "Individual visualizations:";
                      "  - visualizations/languages.png";
                      "  - visualizations/topics.png";
                      "  - visualizations/stars_distribution.png";
                      "  - visualizations/creation_timeline.png"];
          slept := 0 |}) ∧
    OS.stat fs3 "visualizations/report.html"
      = OS.IsFile "<html>3 2024-05-01</html>".
Proof.
  pose (fs1 := ({[ "repos_analysis.json" := OS.File "analysis 3";
                   "visualizations" := OS.Dir ∅ ]} : gmap string OS.node)).
  assert (Hstep : directory_step
            ({[ "repos_analysis.json" := OS.File "analysis 3" ]})
            "visualizations" = Py.Ok fs1) by (vm_compute; reflexivity).
  assert (Hfile : OS.stat fs1 "repos_analysis.json" = OS.IsFile "analysis 3")
    by (vm_compute; reflexivity).
  assert (Hdir : OS.isdir fs1 "visualizations" = true) by (vm_compute; reflexivity).
  assert (Hfree : forallb (λ name, negb (OS.isdir fs1
                     (OS.join "visualizations" name)))
                    ("report.html" :: chart_names) = true)
    by (vm_compute; reflexivity).
  destruct (@main_renders_report Sample.lib
    {| Visualize.args_analysis := "repos_analysis.json";
       Visualize.args_output_dir := "visualizations";
       Visualize.args_report := "report.html" |}
    {| fs := {[ "repos_analysis.json" := OS.File "analysis 3" ]};
       console := []; slept := 0 |}
    fs1 "analysis 3" Sample.statistics ["bar"; "barh"; "pie"; "line"]
    eq_refl Hstep Hfile eq_refl eq_refl Hdir Hfree eq_refl)
    as (fs3 & Hmain & Hfiles & _).
  exists fs3. split; [exact Hmain |].
  cbn [fmap list_fmap] in Hfiles. injection Hfiles as Hreport _ _ _ _.
  exact Hreport.
Defined.

(** The renderer on the analysis of a search that found nothing: the two
    bar charts are written, the pie chart of the empty histogram is
    refused, and there is no report. *)
Lemma plotting_error_reported_witness :
  ∃ fs2,
    @Visualize.main Sample.empty_search
      {| Visualize.args_analysis := "repos_analysis.json";
         Visualize.args_output_dir := "visualizations";
         Visualize.args_report := "report.html" |}
      {| fs := {[ "repos_analysis.json" := OS.File "analysis 0" ]};
         console := []; slept := 0 |}
    = (Py.Ok tt,
       {| fs := fs2; console := ["ERROR: All wedge sizes are zero"];
          slept := 0 |}) ∧
    OS.stat fs2 <$> ["visualizations/languages.png"; "visualizations/topics.png"]
      = [OS.IsFile "bar"; OS.IsFile "barh"] ∧
    OS.stat fs2 <$> ["visualizations/stars_distribution.png";
                     "visualizations/creation_timeline.png";
                     "visualizations/report.html"]
      = [OS.NoEntry; OS.NoEntry; OS.NoEntry].
Proof.
  pose (fs1 := ({[ "repos_analysis.json" := OS.File "analysis 0";
                   "visualizations" := OS.Dir ∅ ]} : gmap string OS.node)).
  assert (Hstep : directory_step
            ({[ "repos_analysis.json" := OS.File "analysis 0" ]})
            "visualizations" = Py.Ok fs1) by (vm_compute; reflexivity).
  assert (Hfile : OS.stat fs1 "repos_analysis.json" = OS.IsFile "analysis 0")
    by (vm_compute; reflexivity).
  assert (Hdir : OS.isdir fs1 "visualizations" = true) by (vm_compute; reflexivity).
  assert (Hfree : forallb (λ name, negb (OS.isdir fs1
                     (OS.join "visualizations" name))) chart_names = true)
    by (vm_compute; reflexivity).
  destruct (@plotting_error_reported Sample.empty_search
    {| Visualize.args_analysis := "repos_analysis.json";
       Visualize.args_output_dir := "visualizations";
       Visualize.args_report := "report.html" |}
    {| fs := {[ "repos_analysis.json" := OS.File "analysis 0" ]};
       console := []; slept := 0 |}
    fs1 "analysis 0" Sample.nothing_found ["bar"; "barh"]
    (Py.ValueError "All wedge sizes are zero") [Py.Ok "line"]
    eq_refl Hstep Hfile eq_refl Hdir Hfree eq_refl)
    as (fs2 & _ & Hmain & Hfiles & Hframe).
  exists fs2. split_and!.
  - exact (Hmain _ eq_refl).
  - exact Hfiles.
  - assert (Hapart : ∀ path,
      path ∈ ["visualizations/stars_distribution.png";
              "visualizations/creation_timeline.png";
              "visualizations/report.html"] →
      ∀ name, name ∈ take 2 chart_names →
        ¬ OS.components (OS.join "visualizations" name)
            `prefix_of` OS.components path).
    { intros path Hpath name Hname. revert path Hpath.
      apply Forall_forall. revert name Hname. apply Forall_forall.
      apply (bool_decide_unpack _). vm_compute. exact I. }
    cbn [fmap list_fmap].
    rewrite !Hframe by (apply Hapart; set_solver).
    vm_compute. reflexivity.
Defined.

(* ===================================================================== *)
(** * What can leave the renderer                                         *)
(* ===================================================================== *)

Section failures.
Context `{Lib}.
Import Py IO Visualize.
Implicit Types (self : ResultsVisualizer) (w : World).

















End failures.

(* ===================================================================== *)
(** * An output name without the extension                                *)
(* ===================================================================== *)

Section overwritten_records.
Context `{Lib}.
Import Py IO Search.
Implicit Types (repos : list Repo.t) (w : World).

Lemma prints_only_print (line : string) : prints_only (print line).
Proof. intros w. by exists [line]. Qed.

Lemma prints_only_then (m k : M unit) :
  prints_only m → prints_only k → prints_only (m ;; k).
Proof.
  intros Hm Hk w. destruct (Hm w) as [lines Hrun].
  unfold mbind, M_bind, io_bind. rewrite Hrun.
  destruct (Hk {| fs := fs w; console := console w ++ lines; slept := slept w |})
    as [lines' ->].
  exists (lines ++ lines'). cbn [fs console slept]. by rewrite app_assoc.
Qed.

Lemma prints_only_for {A} (l : list A) (body : A → M unit) :
  (∀ x, prints_only (body x)) → prints_only (for_ l body).
Proof.
  intros Hbody. induction l as [|x l IH].
  - intros w. exists []. rewrite app_nil_r. by destruct w.
  - cbn [for_]. by apply prints_only_then.
Qed.

(** [main] of the search tool up to the saving of the records. *)
Lemma main_after_saving (explorer : GithubExplorer) (page per_page : Z)
  (filename : string) repos w w1 (fs2 : gmap string OS.node)
  (rest : Results → M unit) :
  find_llm_literature_projects explorer page per_page w
    = (Ok {| items := Some repos |}, w1) →
  forallb complete repos = true →
  OS.write_file (fs w1) filename (json_dump_repos repos) = Ok fs2 →
  (results ← find_llm_literature_projects explorer page per_page;
   repos0 ← lift (get_items results);
   print ("Found " +:+ str_int (Z.of_nat (length repos0)) +:+ " repositories") ;;
   save_results explorer results filename ;;
   rest results) w
  = rest {| items := Some repos |}
      {| fs := fs2;
         console := console w1 ++
           ["Found " +:+ str_int (Z.of_nat (length repos)) +:+ " repositories";
            "Results saved to " +:+ filename];
         slept := slept w1 |}.
Proof.
  intros Hfind Hcomplete Hwrite.
  pose proof (save_results_complete explorer filename repos
                {| fs := fs w1;
                   console := console w1 ++
                     ["Found " +:+ str_int (Z.of_nat (length repos))
                      +:+ " repositories"];
                   slept := slept w1 |} fs2 Hcomplete Hwrite) as Hsave.
  cbn [fs console slept] in Hsave. rewrite <- app_assoc in Hsave.
  simpl app in Hsave.
  unfold mbind at 1, M_bind, io_bind at 1. rewrite Hfind.
  unfold mbind at 1, io_bind at 1, lift at 1.
  unfold mbind at 1, io_bind at 1, print at 1.
  unfold mbind at 1, io_bind at 1.
  change (get_items {| items := Some repos |}) with (Ok repos).
  cbv iota. by rewrite Hsave.
Qed.

(** X12. The name of the analysis file is the output name itself exactly
    when the output name holds no [.json].  With such an output name, a run
    with [--analyze] that finds complete records, saves them and aggregates
    them returns normally and leaves the output file holding the analysis
    in place of the records; the second write changes no path that is not
    the output path or below it. *)
Theorem analysis_file_same_iff (args : Args) (environ_token : option string)
  repos (analysis : Analysis.t) w w1 (fs2 : gmap string OS.node) :
  let explorer := init (or_else (token args) environ_token) in
  (analysis_file_of (output args) = output args
   ↔ substring_of ".json" (output args) = false) ∧
  (substring_of ".json" (output args) = false →
   analyze args = true →
   find_llm_literature_projects explorer (args_page args) (args_per_page args) w
     = (Ok {| items := Some repos |}, w1) →
   forallb complete repos = true →
   OS.write_file (fs w1) (output args) (json_dump_repos repos) = Ok fs2 →
   analyze_results explorer {| items := Some repos |} = Ok analysis →
   ∃ w',
     main args environ_token w = (Ok tt, w') ∧
     OS.read_file (fs w') (output args) = Ok (json_dump_analysis analysis) ∧
     ∀ path,
       ¬ OS.components (output args) `prefix_of` OS.components path →
       OS.stat (fs w') path = OS.stat fs2 path).
Proof.
  intros explorer. split.
  { split; [| apply analysis_file_unchanged].
    intros Hsame. destruct (substring_of ".json" (output args)) eqn:Hsub; [| done].
    pose proof (replace_grows ".json" "_analysis.json" (output args)
                  ltac:(simpl; lia) Hsub) as Hlen.
    unfold analysis_file_of in Hsame. rewrite Hsame in Hlen. lia. }
  intros Hsub Hflag Hfind Hcomplete Hwrite Hanalysis.
  destruct (write_again _ _ _ _ (json_dump_analysis analysis) Hwrite)
    as [fs3 Hagain].
  assert (Hsummary : ∀ file, prints_only (
    print ("Analysis saved to " +:+ file) ;;
    print (String "010" "=== Analysis Summary ===") ;;
    print ("Total repositories: " +:+ str_int (Analysis.total_count analysis)) ;;
    print (String "010" "Top 5 Programming Languages:") ;;
    for_ (top5_lines (Analysis.languages analysis)) print ;;
    print (String "010" "Top 5 Topics:") ;;
    for_ (top5_lines (Analysis.topics analysis)) print ;;
    print (String "010" "Stars Distribution:") ;;
    for_ (Analysis.stars_distribution analysis)
         (λ kv, print ("  " +:+ kv.1 +:+ ": " +:+ str_int kv.2)))).
  { intros file.
    repeat first
      [ apply prints_only_print
      | apply prints_only_for; intros ?
      | apply prints_only_then ]. }
  destruct (Hsummary (output args)
              {| fs := fs3;
                 console := console w1 ++
                   ["Found " +:+ str_int (Z.of_nat (length repos))
                    +:+ " repositories";
                    "Results saved to " +:+ output args];
                 slept := slept w1 |}) as [lines Hprints].
  eexists. split_and!.
  - unfold main. cbv zeta. fold explorer.
    etrans; [by apply main_after_saving |]. cbv beta. rewrite Hflag.
    unfold mbind at 1, M_bind, io_bind at 1, lift at 1. rewrite Hanalysis.
    cbv zeta. rewrite (analysis_file_unchanged _ Hsub).
    unfold mbind at 1, io_bind at 1, write_file at 1. cbn [fs].
    rewrite Hagain. unfold set_fs. cbn [fs console slept]. exact Hprints.
  - cbn [fs]. unfold OS.read_file.
    by rewrite (write_file_written _ _ _ _ Hagain).
  - cbn [fs]. intros path Hpath. by eapply write_file_frame.
Qed.

End overwritten_records.

(** The search tool run with [--output results.txt --analyze]. *)
Lemma analysis_file_same_iff_witness :
  ∃ w',
    @Search.main Sample.lib
      {| Search.token := None; Search.output := "results.txt";
         Search.analyze := true; Search.args_per_page := 30;
         Search.args_page := 1 |}
      None Sample.empty_world = (Py.Ok tt, w') ∧
    OS.read_file (fs w') "results.txt" = Py.Ok "analysis 4".
Proof.
  epose proof (proj2 (@analysis_file_same_iff Sample.lib
      {| Search.token := None; Search.output := "results.txt";
         Search.analyze := true; Search.args_per_page := 30;
         Search.args_page := 1 |}
      None _ _ Sample.empty_world _ _) eq_refl eq_refl) as Hrun.
  edestruct Hrun as (w' & Hmain & Hread & _).
  - vm_compute. reflexivity.
  - vm_compute. reflexivity.
  - vm_compute. reflexivity.
  - vm_compute. reflexivity.
  - exists w'. split; [exact Hmain | exact Hread].
Defined.
